(** * The experiment controller of fast-coref, embedded in Rocq

    Source: [src/auto_memory_model/experiment.py], class [Experiment].

    The controller drives third-party libraries (PyTorch, NumPy) and
    collaborators of the repository that live in other modules (the model
    controller, the cluster utilities, the metric accumulators and the
    wrapper of the official CoNLL scorer).  Those are interfaces here
    ([PyFloatOps], [TorchLib], [Collaborators]); every method of [Experiment]
    that a property below talks about is a definition over these
    interfaces, written in the order of the Python statements.

    Python dictionaries whose iteration order the code relies on are
    association lists in insertion order; the others are [gmap]s.
    A Python exception is the [Raise] branch of [result]. *)

From Stdlib Require Import ZArith QArith Qround Qabs Ascii String Bool List Lia.
From stdpp Require Import base gmap strings list.

Local Open Scope string_scope.
Local Open Scope list_scope.
Local Open Scope Z_scope.

(** ** Exceptions and fallible computations *)

Inductive exn : Type :=
| KeyError (key : string)
| TypeError
| AttributeError
| ZeroDivisionError
| RuntimeError
| OSError
| FileNotFoundError (location : string).

Inductive result (A : Type) : Type :=
| Ok (a : A)
| Raise (e : exn).
Arguments Ok {A} a.
Arguments Raise {A} e.

(** Did the computation return? *)
Definition is_ok {A} (r : result A) : bool :=
  match r with
  | Ok _ => true
  | Raise _ => false
  end.

#[global] Instance result_ret : MRet result := fun _ a => Ok a.
#[global] Instance result_bind : MBind result := fun _ _ f m =>
  match m with
  | Ok a => f a
  | Raise e => Raise e
  end.

(** [d[key]] on a dictionary: [KeyError] when the key is missing. *)
Definition getitem {V} (d : gmap string V) (key : string) : result V :=
  match d !! key with
  | Some v => Ok v
  | None => Raise (KeyError key)
  end.

(** [d[key]] on an insertion-ordered dictionary. *)
Fixpoint assoc {K V} `{EqDecision K} (key : K) (d : list (K * V)) : option V :=
  match d with
  | [] => None
  | (k, v) :: d' => if decide (k = key) then Some v else assoc key d'
  end.

(** ** Python values that end up in a prediction log

    Floats are written as the rational they denote; a tensor is the flat
    list of its entries. *)
#[warnings="-register-all"]
Inductive pyval : Type :=
| PyNone
| PyBool (b : bool)
| PyInt (z : Z)
| PyFloat (q : Q)
| PyStr (s : string)
| PyList (l : list pyval)
| PyTensor (data : list Q).

(** [isinstance(v, torch.Tensor)] *)
Definition is_tensor (v : pyval) : bool :=
  match v with
  | PyTensor _ => true
  | _ => false
  end.

(** What [json.dumps] accepts: no tensor at any depth. *)
Fixpoint json_serialisable (v : pyval) : bool :=
  match v with
  | PyTensor _ => false
  | PyList l => forallb json_serialisable l
  | _ => true
  end.

(** [len(v)] *)
Definition py_len (v : pyval) : result Z :=
  match v with
  | PyList l => Ok (Z.of_nat (length l))
  | PyStr s => Ok (Z.of_nat (String.length s))
  | _ => Raise TypeError
  end.

(** The values [cluster_threshold] is compared with.  Every caller passes
    an entry of the per-dataset table, an integer; the table itself, a
    dictionary from dataset names to integers, is the other operand of the
    comparison in [evaluate_model]. *)
Inductive threshold_arg : Type :=
| IntThr (z : Z)
| DictThr (d : gmap string Z).

(** Python's [==] between two such values: an integer never equals a
    dictionary. *)
Definition py_eq (a b : threshold_arg) : bool :=
  match a, b with
  | IntThr x, IntThr y => bool_decide (x = y)
  | DictThr d1, DictThr d2 => bool_decide (d1 = d2)
  | _, _ => false
  end.

(** ** Paths *)

Definition starts_with_slash (s : string) : bool :=
  match s with
  | String c _ => bool_decide (c = "/"%char)
  | EmptyString => false
  end.

Fixpoint ends_with_slash (s : string) : bool :=
  match s with
  | EmptyString => false
  | String c EmptyString => bool_decide (c = "/"%char)
  | String _ s' => ends_with_slash s'
  end.

(** [os.path.join(a, b)] on a POSIX system. *)
Definition path_join (a b : string) : string :=
  if starts_with_slash b then b
  else if bool_decide (a = "") || ends_with_slash a then a +:+ b
  else a +:+ "/" +:+ b.

(** [needle in hay] for strings. *)
Fixpoint str_in (needle hay : string) : bool :=
  String.prefix needle hay ||
  match hay with
  | EmptyString => false
  | String _ hay' => str_in needle hay'
  end.

(** ** Floating-point scores

    Scores, learning rates and gradient norms are Python floats.  The
    controller only compares, sums, divides by a length, scales to a
    percentage and rounds to one decimal. *)
Class PyFloatOps (F : Type) : Type := {
  f_gt : F -> F -> bool;        (* [a > b] *)
  f_sum : list F -> F;          (* [sum(l)] *)
  f_div_len : F -> nat -> F;    (* [a / n] for a positive length [n] *)
  f_times100 : F -> F;          (* [a * 100] *)
  f_round1 : F -> F             (* [round(a, 1)] *)
}.

(** [sum(l) / len(l)]: the division raises on an empty collection. *)
Definition mean {F} `{PyFloatOps F} (l : list F) : result F :=
  match l with
  | [] => Raise ZeroDivisionError
  | _ => Ok (f_div_len (f_sum l) (length l))
  end.

(** ** The two named parameter groups: [optimizer['mem']] is built from the
    task parameters, [optimizer['doc']] from the encoder parameters
    ([initialize_optimizers]). *)
Inductive param_group : Type := mem | doc.

#[global] Instance param_group_eq_dec : EqDecision param_group.
Proof. solve_decision. Defined.

(** ** PyTorch and NumPy, as far as the controller touches them *)
Class TorchLib (F : Type) : Type := {
  Tensor : Type;
  Loss : Type;                  (* the scalar [loss['total']] with its graph *)
  Grad : Type;                  (* the [.grad] buffers of one parameter group *)
  OptState : Type;
  SchedState : Type;
  ScalerState : Type;
  TorchRng : Type;
  NumpyRng : Type;
  (* [optimizer.zero_grad()] *)
  zero_grad : Grad -> Grad;
  (* [scaler.scale(loss).backward()] accumulates into every group *)
  scale_backward : ScalerState -> Loss -> (param_group -> Grad) -> (param_group -> Grad);
  (* [scaler.unscale_(optimizer)] *)
  unscale_ : ScalerState -> Grad -> ScalerState * Grad;
  (* [torch.nn.utils.clip_grad_norm_(params, max_norm)] *)
  clip_grad_norm_ : F -> Grad -> Grad;
  (* [scaler.step(optimizer)] *)
  scaler_step : ScalerState -> OptState -> Grad -> gmap string Tensor ->
                OptState * gmap string Tensor;
  (* [scheduler.step()], which also writes the learning rate of its optimizer *)
  scheduler_step : SchedState -> OptState -> SchedState * OptState;
  (* [scaler.update()] *)
  scaler_update : ScalerState -> ScalerState;
  (* [loss.item()] *)
  item : Loss -> F;
  (* [np.random.shuffle(l)] *)
  np_shuffle : forall A : Type, NumpyRng -> list A -> NumpyRng * list A
}.

(** An example of the data collaborator: a dictionary with at least
    ["doc_key"], ["clusters"], ["subtoken_map"] and ["tensorized_sent"]. *)
Abbreviation Example := (gmap string pyval) (only parsing).

(** ** Records shared by the methods *)

Section Experiment.
Context {F : Type} {float_ops : PyFloatOps F} {torch : TorchLib F}.


(** [self.train_info] *)
Record TrainInfo : Type := {
  val_perf : F;
  global_steps : Z;
  num_stuck_evals : Z
}.

(** Recall, precision and F-score of one metric. *)
Record PRF : Type := {
  recall : F;
  precision : F;
  prf_fscore : F
}.

(** The [result_dict] of [evaluate_model]: one entry per metric name and
    the aggregate under ['fscore']. *)
Record ResultDict : Type := {
  metrics : gmap string PRF;
  fscore : F
}.

(** What the wrapper of the official scorer returns per metric:
    [{"r": ..., "p": ..., "f": ...}]. *)
Record ConllPRF : Type := {
  conll_r : F;
  conll_p : F;
  conll_f : F
}.

(** The model controller: its named weights, its mode, and the runtime
    knobs that [setup_eval] overwrites. *)
Record Model : Type := {
  state_dict : gmap string Tensor;
  training : bool;
  model_max_ents : Z;
  model_use_gold_ments : bool;
  model_max_span_width : Z;
  model_top_span_ratio : F;
  model_use_topk : bool
}.

(** The dictionary handed to [torch.save].  [save_model] writes every key;
    [load_model] tolerates a missing ['scaler'] only. *)
Record Checkpoint : Type := {
  ck_train_info : TrainInfo;
  ck_model : gmap string Tensor;
  ck_scaler : option ScalerState;
  ck_rng_state : TorchRng;
  ck_np_rng_state : NumpyRng;
  ck_optimizer : list (param_group * OptState);
  ck_scheduler : list (param_group * SchedState);
  ck_model_args : gmap string pyval
}.

(** The attributes the constructor copies from its keyword arguments
    ([self.__dict__.update(kwargs)]), with [eval_per_k_steps] as
    [setup_training] leaves it and the threshold table as the constructor
    leaves it. *)
Record Config : Type := {
  model_args : gmap string pyval;
  canonical_cluster_threshold : gmap string Z;
  update_frequency : Z;
  fine_tune_lr : option F;
  max_gradient_norm : F;
  eval_per_k_steps : Z;
  max_evals : Z;
  patience : Z;
  num_train_docs : option Z;
  to_save_model : bool;
  model_dir : string;
  best_model_dir : string;
  conll_scorer : option string;
  conll_data_dir : option (gmap string string);
  eval_max_ents : option Z;
  use_gold_ments : option bool;
  max_span_width : option Z;
  top_span_ratio : option F;
  use_topk : bool;
  data_iter_map : gmap string (list (string * list Example))
}.

(** [self.finetune = (self.fine_tune_lr is not None)] *)
Definition finetune (cfg : Config) : bool :=
  match fine_tune_lr cfg with
  | Some _ => true
  | None => false
  end.

Definition model_path (cfg : Config) : string :=
  path_join (model_dir cfg) "model.pth".

Definition best_model_path (cfg : Config) : string :=
  path_join (best_model_dir cfg) "model.pth".

(** [self.num_training_steps = self.eval_per_k_steps * self.max_evals] *)
Definition num_training_steps (cfg : Config) : Z :=
  eval_per_k_steps cfg * max_evals cfg.

(** Calls that leave the controller, in program order. *)
Inductive call : Type :=
| ZeroGrad (key : param_group)
| ForwardTraining (example : Example)
| Backward
| Unscale (key : param_group)
| ClipGradNorm (params : param_group) (max_norm : F)
| OptimizerStep (key : param_group)
| SchedulerStep (key : param_group)
| ScalerUpdate
| ProgressRecord (doc_key : pyval) (loss : F)
| ResetPeakMemoryStats
| EvaluateModel (split dataset : string) (cluster_threshold : threshold_arg)
                (final_eval : bool)
| EvaluateConll (scorer gold_path prediction_file : string)
| TorchSave (location : string) (payload : Checkpoint).

(** The mutable part of an [Experiment], the files it writes, and the
    calls it has made. *)
Record Exp : Type := {
  train_info : TrainInfo;
  model : Model;
  grads : param_group -> Grad;
  optimizer : list (param_group * OptState);
  optim_scheduler : list (param_group * SchedState);
  scaler : ScalerState;
  rng_state : TorchRng;
  np_rng_state : NumpyRng;
  disk : gmap string Checkpoint;
  log_files : gmap string (list (gmap string pyval));
  calls : list call
}.

(** In-place updates of one attribute. *)
Definition set_train_info (v : TrainInfo) (s : Exp) : Exp :=
  Build_Exp v (model s) (grads s) (optimizer s) (optim_scheduler s) (scaler s)
            (rng_state s) (np_rng_state s) (disk s) (log_files s) (calls s).
Definition set_model (v : Model) (s : Exp) : Exp :=
  Build_Exp (train_info s) v (grads s) (optimizer s) (optim_scheduler s) (scaler s)
            (rng_state s) (np_rng_state s) (disk s) (log_files s) (calls s).
Definition set_grads (v : param_group -> Grad) (s : Exp) : Exp :=
  Build_Exp (train_info s) (model s) v (optimizer s) (optim_scheduler s) (scaler s)
            (rng_state s) (np_rng_state s) (disk s) (log_files s) (calls s).
Definition set_optimizer (v : list (param_group * OptState)) (s : Exp) : Exp :=
  Build_Exp (train_info s) (model s) (grads s) v (optim_scheduler s) (scaler s)
            (rng_state s) (np_rng_state s) (disk s) (log_files s) (calls s).
Definition set_optim_scheduler (v : list (param_group * SchedState)) (s : Exp) : Exp :=
  Build_Exp (train_info s) (model s) (grads s) (optimizer s) v (scaler s)
            (rng_state s) (np_rng_state s) (disk s) (log_files s) (calls s).
Definition set_scaler (v : ScalerState) (s : Exp) : Exp :=
  Build_Exp (train_info s) (model s) (grads s) (optimizer s) (optim_scheduler s) v
            (rng_state s) (np_rng_state s) (disk s) (log_files s) (calls s).
Definition set_rng_state (v : TorchRng) (s : Exp) : Exp :=
  Build_Exp (train_info s) (model s) (grads s) (optimizer s) (optim_scheduler s) (scaler s)
            v (np_rng_state s) (disk s) (log_files s) (calls s).
Definition set_np_rng_state (v : NumpyRng) (s : Exp) : Exp :=
  Build_Exp (train_info s) (model s) (grads s) (optimizer s) (optim_scheduler s) (scaler s)
            (rng_state s) v (disk s) (log_files s) (calls s).
Definition set_disk (v : gmap string Checkpoint) (s : Exp) : Exp :=
  Build_Exp (train_info s) (model s) (grads s) (optimizer s) (optim_scheduler s) (scaler s)
            (rng_state s) (np_rng_state s) v (log_files s) (calls s).
Definition set_log_files (v : gmap string (list (gmap string pyval))) (s : Exp) : Exp :=
  Build_Exp (train_info s) (model s) (grads s) (optimizer s) (optim_scheduler s) (scaler s)
            (rng_state s) (np_rng_state s) (disk s) v (calls s).
(** Record one more call. *)
Definition emit (c : call) (s : Exp) : Exp :=
  Build_Exp (train_info s) (model s) (grads s) (optimizer s) (optim_scheduler s) (scaler s)
            (rng_state s) (np_rng_state s) (disk s) (log_files s) (calls s ++ [c]).

Definition set_state_dict (v : gmap string Tensor) (m : Model) : Model :=
  Build_Model v (training m) (model_max_ents m) (model_use_gold_ments m)
              (model_max_span_width m) (model_top_span_ratio m) (model_use_topk m).
(** [model.train()] and [model.eval()] *)
Definition set_training (v : bool) (m : Model) : Model :=
  Build_Model (state_dict m) v (model_max_ents m) (model_use_gold_ments m)
              (model_max_span_width m) (model_top_span_ratio m) (model_use_topk m).
(** [model.set_max_ents(v)] stores the entity cap. *)
Definition set_max_ents (v : Z) (m : Model) : Model :=
  Build_Model (state_dict m) (training m) v (model_use_gold_ments m)
              (model_max_span_width m) (model_top_span_ratio m) (model_use_topk m).
Definition set_use_gold_ments (v : bool) (m : Model) : Model :=
  Build_Model (state_dict m) (training m) (model_max_ents m) v
              (model_max_span_width m) (model_top_span_ratio m) (model_use_topk m).
Definition set_max_span_width (v : Z) (m : Model) : Model :=
  Build_Model (state_dict m) (training m) (model_max_ents m) (model_use_gold_ments m)
              v (model_top_span_ratio m) (model_use_topk m).
Definition set_top_span_ratio (v : F) (m : Model) : Model :=
  Build_Model (state_dict m) (training m) (model_max_ents m) (model_use_gold_ments m)
              (model_max_span_width m) v (model_use_topk m).
Definition set_use_topk (v : bool) (m : Model) : Model :=
  Build_Model (state_dict m) (training m) (model_max_ents m) (model_use_gold_ments m)
              (model_max_span_width m) (model_top_span_ratio m) v.

(** [d[key] = v] on an insertion-ordered dictionary. *)
Fixpoint assoc_set {K V} `{EqDecision K} (key : K) (v : V) (d : list (K * V))
  : list (K * V) :=
  match d with
  | [] => [(key, v)]
  | (k, w) :: d' =>
      if decide (k = key) then (k, v) :: d' else (k, w) :: assoc_set key v d'
  end.

(** [d[key]] on an insertion-ordered dictionary keyed by a parameter group. *)
Definition group_name (g : param_group) : string :=
  match g with
  | mem => "mem"
  | doc => "doc"
  end.

Definition getgroup {V} (d : list (param_group * V)) (key : param_group)
  : result V :=
  match assoc key d with
  | Some v => Ok v
  | None => Raise (KeyError (group_name key))
  end.

(** ** The collaborators of the repository outside this module *)
Class Collaborators : Type := {
  M2C : Type;                   (* a mention-to-cluster index *)
  Evaluator : Type;             (* a [CorefEvaluator] *)
  (* [pick_controller]: a fresh model for a hyperparameter record *)
  pick_controller : gmap string pyval -> Model;
  (* [model.forward_training(example)['total']]; [None] is an absent loss *)
  forward_training : Model -> Example -> option Loss;
  (* [model(example)]: actions, predicted mentions, gold actions, scores *)
  infer : Model -> Example -> pyval * pyval * pyval * pyval;
  action_sequences_to_clusters : pyval -> pyval -> pyval;
  get_mention_to_cluster : pyval -> threshold_arg -> result (pyval * M2C);
  CorefEvaluator : Evaluator;
  evaluator_update : Evaluator -> pyval -> pyval -> M2C -> M2C -> Evaluator;
  (* [evaluator.evaluators]: recall, precision and F1 of MUC, B-cubed, CEAFE *)
  evaluators : Evaluator -> list PRF;
  evaluator_get_f1 : Evaluator -> F;
  (* [evaluate_conll(scorer, gold_path, predictions, subtoken_maps,
     prediction_file)]; the two dictionaries are given by the assignments
     that built them, in document order *)
  evaluate_conll : string -> string -> list (pyval * pyval) ->
                   list (pyval * pyval) -> string ->
                   result (list (string * ConllPRF))
}.
Context {collaborators : Collaborators}.

(** ** The directories of the file system

    [torch.save] raises when the parent directory of its location does not
    exist.  [evaluate_model] and [perform_final_eval] create directories
    as they go, so whether a directory exists can change in the course of
    a run: [parent_directory_exists history location] tells whether the
    parent directory of [location] exists once the calls [history] have
    been made. *)
Class Directories : Type := {
  parent_directory_exists : list call -> string -> bool
}.
Context {directories : Directories}.

(** ** Checkpoints *)

(** [torch.load(location)] *)
Definition torch_load (location : string) (s : Exp) : result Checkpoint :=
  match disk s !! location with
  | Some checkpoint => Ok checkpoint
  | None => Raise (FileNotFoundError location)
  end.

(** [model.load_state_dict(weights, strict=False)]: a name of the model
    takes the stored tensor when there is one; names the model lacks are
    ignored. *)
Definition load_state_dict_lenient (weights : gmap string Tensor) (m : Model)
  : Model :=
  set_state_dict
    (merge (fun mine stored =>
              match mine with
              | Some t => Some (default t stored)
              | None => None
              end)
           (state_dict m) weights)
    m.

(** [model.load_state_dict(weights, strict=True)]: the names must agree. *)
Definition load_state_dict_strict (weights : gmap string Tensor) (m : Model)
  : result Model :=
  if bool_decide (dom weights = dom (state_dict m))
  then Ok (set_state_dict weights m)
  else Raise RuntimeError.

(** The groups [save_model] stores: [['mem', 'doc'] if self.finetune else ['mem']] *)
Definition param_groups (cfg : Config) : list param_group :=
  if finetune cfg then [mem; doc] else [mem].

(** The loop of [save_model] over [param_groups]. *)
Fixpoint save_groups (groups : list param_group) (s : Exp)
    (acc : list (param_group * OptState) * list (param_group * SchedState))
  : result (list (param_group * OptState) * list (param_group * SchedState)) :=
  match groups with
  | [] => Ok acc
  | param_group :: rest =>
      o ← getgroup (optimizer s) param_group;
      sch ← getgroup (optim_scheduler s) param_group;
      save_groups rest s
        (assoc_set param_group o acc.1, assoc_set param_group sch acc.2)
  end.

(** [save_model(location, model_type)] *)
Definition save_model (cfg : Config) (location model_type : string) (s : Exp)
  : result Exp :=
  let model_state_dict :=
    if negb (finetune cfg)
    then filter (fun kv => ¬ Is_true (str_in "lm_encoder." kv.1))
                (state_dict (model s))
    else state_dict (model s) in
  '(opt, sch) ←
    (if negb (bool_decide (model_type = "best"))
     then save_groups (param_groups cfg) s ([], [])
     else Ok ([], []));
  let save_dict :=
    {| ck_train_info := train_info s;
       ck_model := model_state_dict;
       ck_scaler := Some (scaler s);
       ck_rng_state := rng_state s;
       ck_np_rng_state := np_rng_state s;
       ck_optimizer := opt;
       ck_scheduler := sch;
       ck_model_args := model_args cfg |} in
  (* [torch.save(save_dict, location)] *)
  if parent_directory_exists (calls s) location
  then Ok (emit (TorchSave location save_dict)
                (set_disk (<[location := save_dict]> (disk s)) s))
  else Raise RuntimeError.

(** The loop of [load_model] over [checkpoint['optimizer']]. *)
Fixpoint load_groups (groups : list param_group) (checkpoint : Checkpoint)
    (s : Exp) : result Exp :=
  match groups with
  | [] => Ok s
  | param_group :: rest =>
      _ ← getgroup (optimizer s) param_group;
      o ← getgroup (ck_optimizer checkpoint) param_group;
      let s := set_optimizer (assoc_set param_group o (optimizer s)) s in
      _ ← getgroup (optim_scheduler s) param_group;
      sch ← getgroup (ck_scheduler checkpoint) param_group;
      let s := set_optim_scheduler
                 (assoc_set param_group sch (optim_scheduler s)) s in
      load_groups rest checkpoint s
  end.

(** [load_model(location, model_type)] *)
Definition load_model (location model_type : string) (s : Exp) : result Exp :=
  checkpoint ← torch_load location s;
  let s := set_model (load_state_dict_lenient (ck_model checkpoint) (model s)) s in
  s ← (if negb (bool_decide (model_type = "best"))
       then
         s ← load_groups (map fst (ck_optimizer checkpoint)) checkpoint s;
         Ok (match ck_scaler checkpoint with
             | Some sc => set_scaler sc s
             | None => s
             end)
       else Ok s);
  let s := set_train_info (ck_train_info checkpoint) s in
  let s := set_rng_state (ck_rng_state checkpoint) s in
  let s := set_np_rng_state (ck_np_rng_state checkpoint) s in
  Ok s.

(** [setup_eval()] *)
Definition setup_eval (cfg : Config) (s : Exp) : result Exp :=
  checkpoint ← torch_load (best_model_path cfg) s;
  (* [supplied_args = dict(self.model_args)] then
     [supplied_args.update(checkpoint['model_args'])] *)
  let supplied_args := ck_model_args checkpoint ∪ model_args cfg in
  (* [pick_controller(device=self.device, **supplied_args)]: Python
     refuses a second value for the keyword [device] *)
  m ← match supplied_args !! "device" with
      | Some _ => Raise TypeError
      | None => Ok (pick_controller supplied_args)
      end;
  m ← load_state_dict_strict (ck_model checkpoint) m;
  let m := match eval_max_ents cfg with
           | Some v => set_max_ents v m
           | None => m
           end in
  let m := match use_gold_ments cfg with
           | Some v => set_use_gold_ments v m
           | None => m
           end in
  let m := match max_span_width cfg with
           | Some v => set_max_span_width v m
           | None => m
           end in
  let m := match top_span_ratio cfg with
           | Some v => set_top_span_ratio v m
           | None => m
           end in
  let m := if use_topk cfg then set_use_topk (use_topk cfg) m else m in
  Ok (set_model m s).

(** ** One training example: [handle_example] inside [train] *)

(** The [.grad] buffers with those of one group replaced. *)
Definition update_grad (key : param_group) (g : Grad)
    (gr : param_group -> Grad) : param_group -> Grad :=
  fun k => if decide (k = key) then g else gr k.

(** [for key in optimizer: optimizer[key].zero_grad()] *)
Fixpoint zero_grad_all (keys : list param_group) (s : Exp) : Exp :=
  match keys with
  | [] => s
  | key :: rest =>
      zero_grad_all rest
        (emit (ZeroGrad key)
           (set_grads (update_grad key (zero_grad (grads s key)) (grads s)) s))
  end.

(** [for key in optimizer: scaler.unscale_(optimizer[key])] *)
Fixpoint unscale_all (keys : list param_group) (s : Exp) : Exp :=
  match keys with
  | [] => s
  | key :: rest =>
      let '(sc, g) := unscale_ (scaler s) (grads s key) in
      unscale_all rest
        (emit (Unscale key)
           (set_scaler sc (set_grads (update_grad key g (grads s)) s)))
  end.

(** [for key in optimizer: scaler.step(optimizer[key]); scheduler[key].step()] *)
Fixpoint step_all (keys : list param_group) (s : Exp) : result Exp :=
  match keys with
  | [] => Ok s
  | key :: rest =>
      o ← getgroup (optimizer s) key;
      let '(o, weights) :=
        scaler_step (scaler s) o (grads s key) (state_dict (model s)) in
      let s := emit (OptimizerStep key)
                 (set_model (set_state_dict weights (model s))
                    (set_optimizer (assoc_set key o (optimizer s)) s)) in
      sch ← getgroup (optim_scheduler s) key;
      let '(sch, o) := scheduler_step sch o in
      let s := emit (SchedulerStep key)
                 (set_optim_scheduler (assoc_set key sch (optim_scheduler s))
                    (set_optimizer (assoc_set key o (optimizer s)) s)) in
      step_all rest s
  end.

(** [handle_example(example)]: the new state and the returned loss value
    ([None] when the total loss is absent).  [encoder_params] are the
    parameters of group [doc], [task_params] those of group [mem]. *)
Definition handle_example (cfg : Config) (example : Example) (s : Exp)
  : result (Exp * option F) :=
  let s := set_train_info
             {| val_perf := val_perf (train_info s);
                global_steps := global_steps (train_info s) + 1;
                num_stuck_evals := num_stuck_evals (train_info s) |} s in
  let keys := map fst (optimizer s) in
  let s := zero_grad_all keys s in
  let s := emit (ForwardTraining example) s in
  match forward_training (model s) example with
  | None => Ok (s, None)
  | Some total_loss =>
      let s := emit Backward
                 (set_grads (scale_backward (scaler s) total_loss (grads s)) s) in
      let s := unscale_all keys s in
      let s := emit (ClipGradNorm doc (max_gradient_norm cfg))
                 (set_grads
                    (update_grad doc
                       (clip_grad_norm_ (max_gradient_norm cfg) (grads s doc))
                       (grads s)) s) in
      let s := emit (ClipGradNorm mem (max_gradient_norm cfg))
                 (set_grads
                    (update_grad mem
                       (clip_grad_norm_ (max_gradient_norm cfg) (grads s mem))
                       (grads s)) s) in
      s ← step_all keys s;
      let s := emit ScalerUpdate (set_scaler (scaler_update (scaler s)) s) in
      Ok (s, Some (item total_loss))
  end.

(** ** Evaluation *)

(** [del d[key]] *)
Definition py_del {V} (key : string) (d : gmap string V) : result (gmap string V) :=
  match d !! key with
  | Some _ => Ok (delete key d)
  | None => Raise (KeyError key)
  end.

(** [json.dumps(d)]: the line is represented by the object it encodes. *)
Definition json_dumps (d : gmap string pyval) : result (gmap string pyval) :=
  if bool_decide (map_Forall (fun _ v => Is_true (json_serialisable v)) d)
  then Ok d
  else Raise TypeError.

(** The record logged for one document (the statements from
    [log_example = dict(example)] to [json.dumps]). *)
Definition log_record (example : Example)
    (pred_mentions mention_scores raw_predicted_clusters action_list
       predicted_clusters : pyval)
    (cluster_threshold : threshold_arg) : result (gmap string pyval) :=
  let log_example := example in
  let log_example := <["pred_mentions" := pred_mentions]> log_example in
  let log_example := <["mention_scores" := mention_scores]> log_example in
  let log_example :=
    if negb (py_eq cluster_threshold (IntThr 1))
    then <["raw_predicted_clusters" := raw_predicted_clusters]> log_example
    else log_example in
  let log_example := <["pred_actions" := action_list]> log_example in
  let log_example := <["predicted_clusters" := predicted_clusters]> log_example in
  log_example ← py_del "tensorized_sent" log_example;
  let log_example :=
    filter (fun kv => ¬ Is_true (is_tensor kv.2)) log_example in
  json_dumps log_example.

(** What the loop over the documents accumulates. *)
Record EvalAcc : Type := {
  acc_evaluator : Evaluator;
  acc_oracle_evaluator : Evaluator;
  acc_coref_predictions : list (pyval * pyval);
  acc_subtoken_maps : list (pyval * pyval);
  acc_lines : list (gmap string pyval)
}.

(** The body of the loop over the documents of [evaluate_model]. *)
Definition evaluate_example (m : Model) (cluster_threshold : threshold_arg)
    (example : Example) (acc : EvalAcc) : result EvalAcc :=
  let '(action_list, pred_mentions, gt_actions, mention_scores) :=
    infer m example in
  let raw_predicted_clusters :=
    action_sequences_to_clusters action_list pred_mentions in
  '(predicted_clusters, mention_to_predicted) ←
    get_mention_to_cluster raw_predicted_clusters cluster_threshold;
  clusters ← getitem example "clusters";
  '(gold_clusters, mention_to_gold) ←
    get_mention_to_cluster clusters cluster_threshold;
  let evaluator :=
    evaluator_update (acc_evaluator acc) predicted_clusters gold_clusters
                     mention_to_predicted mention_to_gold in
  doc_key ← getitem example "doc_key";
  let coref_predictions :=
    acc_coref_predictions acc ++ [(doc_key, predicted_clusters)] in
  subtoken_map ← getitem example "subtoken_map";
  let subtoken_maps := acc_subtoken_maps acc ++ [(doc_key, subtoken_map)] in
  _ ← py_len action_list;
  _ ← py_len gold_clusters;
  _ ← py_len predicted_clusters;
  let oracle_clusters := action_sequences_to_clusters gt_actions pred_mentions in
  '(oracle_clusters, mention_to_oracle) ←
    get_mention_to_cluster oracle_clusters cluster_threshold;
  let oracle_evaluator :=
    evaluator_update (acc_oracle_evaluator acc) oracle_clusters gold_clusters
                     mention_to_oracle mention_to_gold in
  line ← log_record example pred_mentions mention_scores raw_predicted_clusters
                    action_list predicted_clusters cluster_threshold;
  Ok {| acc_evaluator := evaluator;
        acc_oracle_evaluator := oracle_evaluator;
        acc_coref_predictions := coref_predictions;
        acc_subtoken_maps := subtoken_maps;
        acc_lines := acc_lines acc ++ [line] |}.

Fixpoint evaluate_examples (m : Model) (cluster_threshold : threshold_arg)
    (examples : list Example) (acc : EvalAcc) : result EvalAcc :=
  match examples with
  | [] => Ok acc
  | example :: rest =>
      acc ← evaluate_example m cluster_threshold example acc;
      evaluate_examples m cluster_threshold rest acc
  end.

Definition indv_metrics_list : list string := ["MUC"; "Bcub"; "CEAFE"].

(** The internally computed [result_dict]. *)
Definition internal_result (evaluator : Evaluator) : ResultDict :=
  {| metrics :=
       fold_left
         (fun result_dict '(indv_metric, indv_evaluator) =>
            <[indv_metric :=
                {| recall := f_round1 (f_times100 (recall indv_evaluator));
                   precision := f_round1 (f_times100 (precision indv_evaluator));
                   prf_fscore := f_round1 (f_times100 (prf_fscore indv_evaluator)) |}]>
              result_dict)
         (zip indv_metrics_list (evaluators evaluator)) ∅;
     fscore := f_round1 (f_times100 (evaluator_get_f1 evaluator)) |}.

(** [c.lower()] on ASCII letters. *)
Definition ascii_lower (c : ascii) : ascii :=
  let n := nat_of_ascii c in
  if (65 <=? n)%nat && (n <=? 90)%nat then ascii_of_nat (n + 32) else c.

Fixpoint str_lower (s : string) : string :=
  match s with
  | EmptyString => EmptyString
  | String c s' => String (ascii_lower c) (str_lower s')
  end.

(** [for indv_metric in indv_metrics_list: result_dict[indv_metric] = ...]
    from the scorer's results. *)
Fixpoint conll_metrics (names : list string)
    (conll_results : list (string * ConllPRF)) (result_dict : gmap string PRF)
  : result (gmap string PRF) :=
  match names with
  | [] => Ok result_dict
  | indv_metric :: rest =>
      match assoc (str_lower indv_metric) conll_results with
      | None => Raise (KeyError (str_lower indv_metric))
      | Some r =>
          conll_metrics rest conll_results
            (<[indv_metric := {| recall := f_round1 (conll_r r);
                                 precision := f_round1 (conll_p r);
                                 prf_fscore := f_round1 (conll_f r) |}]>
               result_dict)
      end
  end.

Section FileSystem.
(** [os.path.exists] outside the checkpoint files. *)
Variable path_exists : string -> bool.

(** [path_exists_bool] of [evaluate_model]. *)
Definition conll_paths_exist (cfg : Config) (dataset : string) : result bool :=
  match conll_scorer cfg, conll_data_dir cfg with
  | Some scorer, Some data_dir =>
      if path_exists scorer
      then d ← getitem data_dir dataset; Ok (path_exists d)
      else Ok false
  | _, _ => Ok false
  end.

(** The body of the [try] of [evaluate_model], entered when its guard holds. *)
Definition conll_try_body (cfg : Config) (split dataset : string)
    (coref_predictions subtoken_maps : list (pyval * pyval))
    (result_dict : ResultDict) (s : Exp) : Exp * result ResultDict :=
  match conll_scorer cfg, conll_data_dir cfg with
  | Some scorer, Some data_dir =>
      match getitem data_dir dataset with
      | Raise e => (s, Raise e)
      | Ok d =>
          let gold_path := path_join d (split +:+ ".conll") in
          let prediction_file := path_join (model_dir cfg) (split +:+ ".conll") in
          (emit (EvaluateConll scorer gold_path prediction_file) s,
           conll_results ← evaluate_conll scorer gold_path coref_predictions
                                          subtoken_maps prediction_file;
           per_metric ← conll_metrics indv_metrics_list conll_results
                                      (metrics result_dict);
           average_f1 ← mean (map (fun kv => conll_f kv.2) conll_results);
           Ok {| metrics := per_metric; fscore := f_round1 average_f1 |})
      end
  | _, _ => (s, Raise TypeError)
  end.

(** The statements of [evaluate_model] after the internal [result_dict]:
    the guard, the [try] and its [except AttributeError: pass].  In the
    body only the call of the scorer wrapper can raise [AttributeError]
    (the later statements look keys up and divide), so a swallowed
    exception leaves [result_dict] as it was before the [try]. *)
Definition conll_report (cfg : Config) (split dataset : string)
    (final_eval : bool) (cluster_threshold : threshold_arg)
    (coref_predictions subtoken_maps : list (pyval * pyval))
    (result_dict : ResultDict) (s : Exp) : result (Exp * ResultDict) :=
  let use_conll :=
    py_eq cluster_threshold (DictThr (canonical_cluster_threshold cfg)) in
  path_exists_bool ← conll_paths_exist cfg dataset;
  if final_eval && use_conll && path_exists_bool
  then
    match conll_try_body cfg split dataset coref_predictions subtoken_maps
                         result_dict s with
    | (s, Ok replaced) => Ok (s, replaced)
    | (s, Raise AttributeError) => Ok (s, result_dict)
    | (_, Raise e) => Raise e
    end
  else Ok (s, result_dict).

(** [evaluate_model(split, final_eval, cluster_threshold, dataset)] *)
Definition evaluate_model (cfg : Config) (split : string) (final_eval : bool)
    (cluster_threshold : threshold_arg) (dataset : string) (s : Exp)
  : result (Exp * ResultDict) :=
  let s := set_model (set_training false (model s)) s in
  let s := emit (EvaluateModel split dataset cluster_threshold final_eval) s in
  let dataset_dir := path_join (model_dir cfg) dataset in
  let log_file := path_join dataset_dir (split +:+ ".log.jsonl") in
  let s := set_log_files (<[log_file := []]> (log_files s)) s in
  by_dataset ← getitem (data_iter_map cfg) split;
  examples ← match assoc dataset by_dataset with
             | Some examples => Ok examples
             | None => Raise (KeyError dataset)
             end;
  acc ← evaluate_examples (model s) cluster_threshold examples
          {| acc_evaluator := CorefEvaluator;
             acc_oracle_evaluator := CorefEvaluator;
             acc_coref_predictions := [];
             acc_subtoken_maps := [];
             acc_lines := [] |};
  let s := set_log_files (<[log_file := acc_lines acc]> (log_files s)) s in
  conll_report cfg split dataset final_eval cluster_threshold
               (acc_coref_predictions acc) (acc_subtoken_maps acc)
               (internal_result (acc_evaluator acc)) s.

(** The loop of [perform_final_eval] over the datasets of a split: the
    [perf.json] files it writes, each with its [f"{dataset}_{split}"] entry. *)
Fixpoint final_eval_datasets (cfg : Config) (split : string)
    (datasets : list string) (s : Exp)
    (perf : list (string * (string * ResultDict)))
  : result (Exp * list (string * (string * ResultDict))) :=
  match datasets with
  | [] => Ok (s, perf)
  | dataset :: rest =>
      let perf_file := path_join (path_join (model_dir cfg) dataset) "perf.json" in
      thr ← getitem (canonical_cluster_threshold cfg) dataset;
      '(s, result_dict) ← evaluate_model cfg split true (IntThr thr) dataset s;
      final_eval_datasets cfg split rest s
        (perf ++ [(perf_file, (dataset +:+ "_" +:+ split, result_dict))])
  end.

(** [perform_final_eval()] *)
Definition perform_final_eval (cfg : Config) (s : Exp)
  : result (Exp * list (string * (string * ResultDict))) :=
  by_dataset ← getitem (data_iter_map cfg) "test";
  final_eval_datasets cfg "test" (map fst by_dataset) s [].

(** ** Periodic evaluation and the training loop *)

(** The loop of [periodic_model_eval] that fills [fscore_dict]. *)
Fixpoint dev_fscores (cfg : Config) (datasets : list string) (s : Exp)
    (fscore_dict : list (string * F)) : result (Exp * list (string * F)) :=
  match datasets with
  | [] => Ok (s, fscore_dict)
  | dataset :: rest =>
      thr ← getitem (canonical_cluster_threshold cfg) dataset;
      '(s, result_dict) ← evaluate_model cfg "dev" false (IntThr thr) dataset s;
      dev_fscores cfg rest s (assoc_set dataset (fscore result_dict) fscore_dict)
  end.

(** [periodic_model_eval()] *)
Definition periodic_model_eval (cfg : Config) (s : Exp) : result (Exp * F) :=
  by_dataset ← getitem (data_iter_map cfg) "dev";
  '(s, fscore_dict) ← dev_fscores cfg (map fst by_dataset) s [];
  fscore ← mean (map snd fscore_dict);
  s ← (if f_gt fscore (val_perf (train_info s))
       then
         let s := set_train_info
                    {| val_perf := fscore;
                       global_steps := global_steps (train_info s);
                       num_stuck_evals := 0 |} s in
         save_model cfg (best_model_path cfg) "best" s
       else
         Ok (set_train_info
               {| val_perf := val_perf (train_info s);
                  global_steps := global_steps (train_info s);
                  num_stuck_evals := num_stuck_evals (train_info s) + 1 |} s));
  s ← (if to_save_model cfg
       then save_model cfg (model_path cfg) "last" s
       else Ok s);
  let s := set_model (set_training true (model s)) s in
  Ok (s, fscore).

(** [a % b] *)
Definition py_mod (a b : Z) : result Z :=
  if b =? 0 then Raise ZeroDivisionError else Ok (a mod b).

(** ['{:.3f}'.format(v)]: the float format is not defined on [None]. *)
Definition format_float3 (v : option F) : result F :=
  match v with
  | Some x => Ok x
  | None => Raise TypeError
  end.

(** How one pass of the body of the [for] loop of [train] ends. *)
Inductive outcome : Type :=
| Continue (s : Exp)
| Return (s : Exp).

(** The body of [for cur_example in train_data] of [train]. *)
Definition train_example (cfg : Config) (cur_example : Example) (s : Exp)
  : result outcome :=
  '(s, example_loss) ← handle_example cfg cur_example s;
  r ← py_mod (global_steps (train_info s)) (update_frequency cfg);
  s ← (if r =? 0
       then
         doc_key ← getitem cur_example "doc_key";
         loss ← format_float3 example_loss;
         Ok (emit ResetPeakMemoryStats (emit (ProgressRecord doc_key loss) s))
       else Ok s);
  if negb (eval_per_k_steps cfg =? 0)
     && (global_steps (train_info s) mod eval_per_k_steps cfg =? 0)
  then
    '(s, fscore) ← periodic_model_eval cfg s;
    if patience cfg <=? num_stuck_evals (train_info s) then Ok (Return s)
    else if num_training_steps cfg <=? global_steps (train_info s)
    then Ok (Return s)
    else Ok (Continue s)
  else Ok (Continue s).

(** [for cur_example in train_data] *)
Fixpoint train_examples (cfg : Config) (train_data : list Example) (s : Exp)
  : result outcome :=
  match train_data with
  | [] => Ok (Continue s)
  | cur_example :: rest =>
      o ← train_example cfg cur_example s;
      match o with
      | Return s => Ok (Return s)
      | Continue s => train_examples cfg rest s
      end
  end.

(** [l[:n]] *)
Definition py_take {A} (n : Z) (l : list A) : list A :=
  if 0 <=? n then take (Z.to_nat n) l
  else take (length l - Z.to_nat (- n))%nat l.

(** One pass of the [while True] of [train]. *)
Definition train_epoch (cfg : Config) (s : Exp) : result outcome :=
  by_dataset ← getitem (data_iter_map cfg) "train";
  let train_data := concat (map snd by_dataset) in
  let '(rng, train_data) := np_shuffle Example (np_rng_state s) train_data in
  let s := set_np_rng_state rng s in
  let train_data :=
    match num_train_docs cfg with
    | Some n => if n =? 0 then train_data else py_take n train_data
    | None => train_data
    end in
  train_examples cfg train_data s.

(** The [while True] of [train], cut after [epochs] passes: [None] when
    the loop is still running then. *)
Fixpoint train_loop (epochs : nat) (cfg : Config) (s : Exp)
  : result (option Exp) :=
  match epochs with
  | O => Ok None
  | S epochs' =>
      o ← train_epoch cfg s;
      match o with
      | Return s => Ok (Some s)
      | Continue s => train_loop epochs' cfg s
      end
  end.

(** [train()] *)
Definition train (epochs : nat) (cfg : Config) (s : Exp) : result (option Exp) :=
  train_loop epochs cfg (set_model (set_training true (model s)) s).

End FileSystem.

(** The checks at the end of [setup_training]: is further training
    required?  [train_info] has no ['evals'] entry. *)
Definition training_required (cfg : Config) (s : Exp) : result bool :=
  if patience cfg <=? num_stuck_evals (train_info s) then Ok false
  else if negb (eval_per_k_steps cfg =? 0)
          && (num_training_steps cfg <=? global_steps (train_info s))
  then Ok false
  else if eval_per_k_steps cfg =? 0 then Raise (KeyError "evals")
  else Ok true.

(** ** Vocabulary of the properties *)

(** The calls made between two states. *)
Definition new_calls (s s' : Exp) : list call :=
  drop (length (calls s)) (calls s').

(** The calls of the stepping loop of [handle_example]. *)
Definition step_calls (keys : list param_group) : list call :=
  flat_map (fun key => [OptimizerStep key; SchedulerStep key]) keys.

(** The state in which [handle_example] reaches its two clipping calls,
    for an example whose total loss is [total_loss]. *)
Definition before_clip (example : Example) (total_loss : Loss) (s : Exp) : Exp :=
  let s := set_train_info
             {| val_perf := val_perf (train_info s);
                global_steps := global_steps (train_info s) + 1;
                num_stuck_evals := num_stuck_evals (train_info s) |} s in
  let keys := map fst (optimizer s) in
  let s := zero_grad_all keys s in
  let s := emit (ForwardTraining example) s in
  let s := emit Backward
             (set_grads (scale_backward (scaler s) total_loss (grads s)) s) in
  unscale_all keys s.

Definition is_clip_call (c : call) : bool :=
  match c with
  | ClipGradNorm _ _ => true
  | _ => false
  end.

(** Each group is clipped against a maximum norm of its own: the two norms
    are read off the configuration separately and can differ. *)
Definition own_norm_per_group : Prop :=
  exists enc_norm task_norm : Config -> F,
    (exists cfg, enc_norm cfg <> task_norm cfg) /\
    forall cfg example s s' loss,
      handle_example cfg example s = Ok (s', Some loss) ->
      List.filter is_clip_call (new_calls s s') =
        [ClipGradNorm doc (enc_norm cfg); ClipGradNorm mem (task_norm cfg)].

(** The accumulators of [evaluate_model] after its loop over the documents
    of a split of a dataset, for a model put in evaluation mode. *)
Definition evaluation_acc (cfg : Config) (split : string)
    (cluster_threshold : threshold_arg) (dataset : string) (m : Model)
  : result EvalAcc :=
  by_dataset ← getitem (data_iter_map cfg) split;
  examples ← match assoc dataset by_dataset with
             | Some examples => Ok examples
             | None => Raise (KeyError dataset)
             end;
  evaluate_examples (set_training false m) cluster_threshold examples
    {| acc_evaluator := CorefEvaluator;
       acc_oracle_evaluator := CorefEvaluator;
       acc_coref_predictions := [];
       acc_subtoken_maps := [];
       acc_lines := [] |}.

(** The internally computed result record of an evaluation. *)
Definition internal_metrics (cfg : Config) (split : string)
    (cluster_threshold : threshold_arg) (dataset : string) (m : Model)
  : result ResultDict :=
  acc ← evaluation_acc cfg split cluster_threshold dataset m;
  Ok (internal_result (acc_evaluator acc)).

Definition is_scorer_call (c : call) : bool :=
  match c with
  | EvaluateConll _ _ _ => true
  | _ => false
  end.

(** Two states that differ at most in the mode of the model, the log
    files and the calls: everything but those is equal. *)
Definition same_training_state (s s' : Exp) : Prop :=
  train_info s' = train_info s /\ grads s' = grads s /\
  optimizer s' = optimizer s /\ optim_scheduler s' = optim_scheduler s /\
  scaler s' = scaler s /\ rng_state s' = rng_state s /\
  np_rng_state s' = np_rng_state s /\ disk s' = disk s.

(** The dev F-score of a dataset under its canonical threshold, as
    [periodic_model_eval] obtains it from [evaluate_model]. *)
Definition dev_fscore (cfg : Config) (dataset : string) (m : Model) : result F :=
  thr ← getitem (canonical_cluster_threshold cfg) dataset;
  result_dict ← internal_metrics cfg "dev" (IntThr thr) dataset m;
  Ok (fscore result_dict).

(** The evaluation call [periodic_model_eval] makes for a dataset. *)
Definition dev_eval_call (cfg : Config) (dataset : string) : option call :=
  thr ← canonical_cluster_threshold cfg !! dataset;
  Some (EvaluateModel "dev" dataset (IntThr thr) false).

Definition is_eval_call (c : call) : bool :=
  match c with
  | EvaluateModel _ _ _ _ => true
  | _ => false
  end.

Definition is_save_call (c : call) : bool :=
  match c with
  | TorchSave _ _ => true
  | _ => false
  end.

Definition is_eval_or_save (c : call) : bool :=
  is_eval_call c || is_save_call c.

(** Is the step counter at an evaluation boundary? *)
Definition at_boundary (cfg : Config) (steps : Z) : bool :=
  negb (eval_per_k_steps cfg =? 0) && (steps mod eval_per_k_steps cfg =? 0).

(** Does the check after a periodic evaluation end the training? *)
Definition stop_check (cfg : Config) (s : Exp) : bool :=
  (patience cfg <=? num_stuck_evals (train_info s))
  || (num_training_steps cfg <=? global_steps (train_info s)).

(** What the log keeps of a value: nothing of a tensor. *)
Definition logged (v : pyval) : option pyval :=
  if is_tensor v then None else Some v.

(** [line] is the log line of [example] under the model [m] and the
    threshold [thr]: the predicted clusters are those the threshold
    filter gives for what the model returned, the example has a document
    identifier, and the line holds the identifier, the predicted
    clusters, the predicted mentions, the mention scores and the predicted
    actions (each unless it is a tensor), the raw clusters when the
    threshold is not 1 (and the field of that name of the example, if it
    has one, when it is 1), and no tensor. *)
Definition logged_line (m : Model) (thr : threshold_arg) (example : Example)
    (line : gmap string pyval) : Prop :=
  let '(action_list, pred_mentions, _, mention_scores) := infer m example in
  let raw_predicted_clusters :=
    action_sequences_to_clusters action_list pred_mentions in
  exists predicted_clusters mention_to_predicted doc_key,
    get_mention_to_cluster raw_predicted_clusters thr
      = Ok (predicted_clusters, mention_to_predicted) /\
    example !! "doc_key" = Some doc_key /\
    line !! "doc_key" = logged doc_key /\
    line !! "predicted_clusters" = logged predicted_clusters /\
    line !! "pred_mentions" = logged pred_mentions /\
    line !! "mention_scores" = logged mention_scores /\
    line !! "pred_actions" = logged action_list /\
    line !! "raw_predicted_clusters" =
      (if py_eq thr (IntThr 1)
       then example !! "raw_predicted_clusters" ≫= logged
       else logged raw_predicted_clusters) /\
    (forall key v, line !! key = Some v -> is_tensor v = false).

(** The state an outcome carries. *)
Definition outcome_state (o : outcome) : Exp :=
  match o with
  | Continue s => s
  | Return s => s
  end.

End Experiment.

(** * Further definitions *)

Section MoreExperiment.
Context {F : Type} {float_ops : PyFloatOps F} {torch : TorchLib F}
        {collaborators : Collaborators} {directories : Directories}.

(** The log file of [evaluate_model] for a dataset and a split. *)
Definition log_path (cfg : Config (F:=F)) (dataset split : string) : string :=
  path_join (path_join (model_dir cfg) dataset) (split +:+ ".log.jsonl").

(** The line [evaluate_model] logs for a document. *)
Definition line_of (m : Model) (cluster_threshold : threshold_arg)
    (example : Example) : result (gmap string pyval) :=
  let '(action_list, pred_mentions, _, mention_scores) := infer m example in
  let raw_predicted_clusters :=
    action_sequences_to_clusters action_list pred_mentions in
  '(predicted_clusters, _) ←
    get_mention_to_cluster raw_predicted_clusters cluster_threshold;
  log_record example pred_mentions mention_scores raw_predicted_clusters
             action_list predicted_clusters cluster_threshold.

(** The fields [log_record] writes itself or deletes. *)
Definition log_fields : list string :=
  ["pred_mentions"; "mention_scores"; "raw_predicted_clusters";
   "pred_actions"; "predicted_clusters"; "tensorized_sent"].

(** The entry of [perf.json] that [perform_final_eval] writes for a
    dataset. *)
Definition perf_entry (cfg : Config (F:=F)) (split dataset : string)
    (result_dict : ResultDict (F:=F))
  : string * (string * ResultDict (F:=F)) :=
  (path_join (path_join (model_dir cfg) dataset) "perf.json",
   (dataset +:+ "_" +:+ split, result_dict)).

(** The internal metrics of a dataset under its canonical threshold. *)
Definition canonical_metrics (cfg : Config (F:=F)) (split : string) (m : Model)
    (dataset : string) : result ResultDict :=
  thr ← getitem (canonical_cluster_threshold cfg) dataset;
  internal_metrics cfg split (IntThr thr) dataset m.

(** ** The constructor's threshold table

    [self.canonical_cluster_threshold = CANONICAL_CLUSTER_THRESHOLD] binds
    the attribute to the dictionary of the constants module itself, so the
    assignment [self.canonical_cluster_threshold[self.dataset] = 2] writes
    into that one shared object.  The function gives the content of the
    object after the constructor, which is what the attribute of this
    experiment and of every later one in the process reads. *)
Definition init_cluster_threshold (remove_singletons : bool) (dataset : string)
    (CANONICAL_CLUSTER_THRESHOLD : gmap string Z) : gmap string Z :=
  if remove_singletons
  then match CANONICAL_CLUSTER_THRESHOLD !! dataset with
       | Some _ => <[dataset := 2]> CANONICAL_CLUSTER_THRESHOLD
       | None => CANONICAL_CLUSTER_THRESHOLD
       end
  else CANONICAL_CLUSTER_THRESHOLD.

(** ** Setting up the optimizers and the data *)

(** What [initialize_optimizers], [setup_training] and [process_data] need
    of PyTorch, NumPy, the transformers library, the model and the data
    processor. *)
Class SetupLib : Type := {
  Param : Type;
  Raw : Type;                   (* a raw document *)
  (* [model.get_params()]: encoder parameters and task parameters *)
  get_params : Model -> list Param * list Param;
  (* [model.get_params(named=True)] *)
  get_named_params : Model -> list (string * Param) * list (string * Param);
  (* [torch.random.manual_seed(seed)], [np.random.seed(seed)] *)
  manual_seed : Z -> TorchRng;
  np_random_seed : Z -> NumpyRng;
  (* [torch.cuda.amp.GradScaler()] *)
  GradScaler : ScalerState;
  (* [torch.optim.Adam(params, lr=lr, eps=1e-6)] *)
  Adam : list Param -> F -> OptState;
  (* [AdamW(groups, lr=lr, eps=1e-6)], a group being its parameters, its
     learning rate and its weight decay *)
  AdamW : list (list Param * F * F) -> F -> OptState;
  (* [get_linear_schedule_with_warmup(optimizer, num_warmup_steps,
     num_training_steps)] *)
  get_linear_schedule_with_warmup : OptState -> Z -> Z -> SchedState;
  (* [int(0.1 * n)] *)
  tenth : Z -> Z;
  (* the literals [1e-2] and [0.0] *)
  weight_decay_1e_2 : F;
  weight_decay_0 : F;
  (* [data_processor.tensorize_data(docs, training=training)];
     [None] when the keyword is not given *)
  tensorize_data : list Raw -> option bool -> list Example
}.
Context {setup_lib : SetupLib}.

(** [no_decay = ['bias', 'LayerNorm.weight']] and
    [any(nd in n for nd in no_decay)] *)
Definition no_decay : list string := ["bias"; "LayerNorm.weight"].

Definition any_no_decay (n : string) : bool :=
  existsb (fun nd => str_in nd n) no_decay.

(** [grouped_param] of [initialize_optimizers] *)
Definition grouped_param (encoder_params : list (string * Param)) (lr : F)
  : list (list Param * F * F) :=
  [ (map snd (List.filter (fun np => negb (any_no_decay np.1)) encoder_params),
     lr, weight_decay_1e_2);
    (map snd (List.filter (fun np => any_no_decay np.1) encoder_params),
     lr, weight_decay_0) ].

(** [initialize_optimizers()], for the [seed] and the [init_lr] of the
    keyword arguments.  (It also seeds Python's own generator, which
    nothing in this module reads or saves.) *)
Definition initialize_optimizers (cfg : Config (F:=F)) (seed : Z) (init_lr : F)
    (s : Exp) : Exp :=
  let s := set_rng_state (manual_seed seed) s in
  let s := set_np_rng_state (np_random_seed seed) s in
  let s := set_scaler GradScaler s in
  let optimizer_mem := Adam (get_params (model s)).2 init_lr in
  let s := set_optimizer (assoc_set mem optimizer_mem (optimizer s)) s in
  let s := set_optim_scheduler
             (assoc_set mem
                (get_linear_schedule_with_warmup
                   optimizer_mem 0 (num_training_steps cfg))
                (optim_scheduler s)) s in
  match fine_tune_lr cfg with
  | None => s
  | Some lr =>
      let encoder_params := (get_named_params (model s)).1 in
      let optimizer_doc := AdamW (grouped_param encoder_params lr) lr in
      let s := set_optimizer (assoc_set doc optimizer_doc (optimizer s)) s in
      let num_warmup_steps := tenth (num_training_steps cfg) in
      set_optim_scheduler
        (assoc_set doc
           (get_linear_schedule_with_warmup
              optimizer_doc num_warmup_steps (num_training_steps cfg))
           (optim_scheduler s)) s
  end.

(** The configuration with [eval_per_k_steps] replaced. *)
Definition set_eval_per_k_steps (k : Z) (cfg : Config (F:=F))
  : Config (F:=F) :=
  {| model_args := model_args cfg;
     canonical_cluster_threshold := canonical_cluster_threshold cfg;
     update_frequency := update_frequency cfg;
     fine_tune_lr := fine_tune_lr cfg;
     max_gradient_norm := max_gradient_norm cfg;
     eval_per_k_steps := k;
     max_evals := max_evals cfg;
     patience := patience cfg;
     num_train_docs := num_train_docs cfg;
     to_save_model := to_save_model cfg;
     model_dir := model_dir cfg;
     best_model_dir := best_model_dir cfg;
     conll_scorer := conll_scorer cfg;
     conll_data_dir := conll_data_dir cfg;
     eval_max_ents := eval_max_ents cfg;
     use_gold_ments := use_gold_ments cfg;
     max_span_width := max_span_width cfg;
     top_span_ratio := top_span_ratio cfg;
     use_topk := use_topk cfg;
     data_iter_map := data_iter_map cfg |}.

(** [sum([len(self.orig_data_map[dataset]['train']) for dataset in
    self.orig_data_map])] *)
Fixpoint per_eval_steps (orig_data_map : list (string * gmap string (list Raw)))
  : result Z :=
  match orig_data_map with
  | [] => Ok 0
  | (_, splits) :: rest =>
      docs ← getitem splits "train";
      n ← per_eval_steps rest;
      Ok (Z.of_nat (length docs) + n)
  end.

(** [setup_training()].  [configured] is the [eval_per_k_steps] of the
    keyword arguments ([None] when it is [None]); the configuration
    returned has [eval_per_k_steps] as the method leaves it, and the
    boolean tells whether further training is required.  The keywords
    [device] and [finetune] are passed to [pick_controller] beside the
    keyword arguments of the experiment, which Python refuses when these
    have an entry of either name. *)
Definition setup_training (configured : option Z)
    (orig_data_map : list (string * gmap string (list Raw)))
    (seed : Z) (init_lr : F) (cfg : Config (F:=F)) (s : Exp)
  : result (Config (F:=F) * Exp * bool) :=
  m ← match model_args cfg !! "device", model_args cfg !! "finetune" with
      | None, None =>
          Ok (pick_controller
                (<["finetune" := PyBool (finetune cfg)]> (model_args cfg)))
      | _, _ => Raise TypeError
      end;
  let s := set_model m s in
  k ← match configured with
      | Some k => Ok k
      | None => per_eval_steps orig_data_map
      end;
  let cfg := set_eval_per_k_steps k cfg in
  let s := initialize_optimizers cfg seed init_lr s in
  s ← (if bool_decide (is_Some (disk s !! model_path cfg))
       then load_model (model_path cfg) "last" s
       else Ok s);
  required ← training_required cfg s;
  Ok (cfg, s, required).

(** The loop of [process_data] over the datasets, for one split. *)
Fixpoint tensorize_split (split : string) (training : option bool)
    (orig_data_map : list (string * gmap string (list Raw)))
    (acc : list (string * list Example))
  : result (list (string * list Example)) :=
  match orig_data_map with
  | [] => Ok acc
  | (dataset, splits) :: rest =>
      docs ← getitem splits split;
      tensorize_split split training rest
        (assoc_set dataset (tensorize_data docs training) acc)
  end.

(** [process_data()]: the [data_iter_map] it leaves, from the empty one of
    the constructor. *)
Definition process_data (eval_model : bool)
    (orig_data_map : list (string * gmap string (list Raw)))
  : result (gmap string (list (string * list Example))) :=
  if eval_model
  then
    test ← tensorize_split "test" None orig_data_map [];
    Ok (<["test" := test]> ∅)
  else
    train ← tensorize_split "train" (Some true) orig_data_map [];
    dev ← tensorize_split "dev" (Some false) orig_data_map [];
    test ← tensorize_split "test" (Some false) orig_data_map [];
    Ok (<["test" := test]> (<["dev" := dev]> (<["train" := train]> ∅))).

(** The configuration with [data_iter_map] replaced. *)
Definition set_data_iter_map
    (data : gmap string (list (string * list Example))) (cfg : Config (F:=F))
  : Config (F:=F) :=
  {| model_args := model_args cfg;
     canonical_cluster_threshold := canonical_cluster_threshold cfg;
     update_frequency := update_frequency cfg;
     fine_tune_lr := fine_tune_lr cfg;
     max_gradient_norm := max_gradient_norm cfg;
     eval_per_k_steps := eval_per_k_steps cfg;
     max_evals := max_evals cfg;
     patience := patience cfg;
     num_train_docs := num_train_docs cfg;
     to_save_model := to_save_model cfg;
     model_dir := model_dir cfg;
     best_model_dir := best_model_dir cfg;
     conll_scorer := conll_scorer cfg;
     conll_data_dir := conll_data_dir cfg;
     eval_max_ents := eval_max_ents cfg;
     use_gold_ments := use_gold_ments cfg;
     max_span_width := max_span_width cfg;
     top_span_ratio := top_span_ratio cfg;
     use_topk := use_topk cfg;
     data_iter_map := data |}.

(** ** The constructor

    [__init__] from [do_train = False] on, for the raw data that
    [load_data] has put in [orig_data_map] and an experiment [s] as the
    assignments before leave it.  The [while True] of [train] is cut after
    [epochs] passes; the result is [None] when it is still running then.
    The perf entries of the final evaluation are returned with the final
    state. *)
Definition experiment_init (path_exists : string -> bool) (eval_model : bool)
    (configured : option Z)
    (orig_data_map : list (string * gmap string (list Raw)))
    (seed : Z) (init_lr : F) (epochs : nat) (cfg : Config (F:=F)) (s : Exp)
  : result (option (Exp * list (string * (string * ResultDict (F:=F))))) :=
  '(cfg, s, do_train) ←
    (if negb eval_model
     then setup_training configured orig_data_map seed init_lr cfg s
     else Ok (cfg, s, false));
  s ← (if negb do_train then setup_eval cfg s else Ok s);
  data ← process_data eval_model orig_data_map;
  let cfg := set_data_iter_map data cfg in
  if (do_train : bool)
  then
    trained ← train path_exists epochs cfg s;
    match trained with
    | None => Ok None
    | Some s =>
        s ← load_model (best_model_path cfg) "best" s;
        final ← perform_final_eval path_exists cfg s;
        Ok (Some final)
    end
  else
    final ← perform_final_eval path_exists cfg s;
    Ok (Some final).

(** Two models with the same runtime knobs: everything but the weights
    and the mode. *)
Definition same_knobs (m m' : Model) : Prop :=
  model_max_ents m' = model_max_ents m /\
  model_use_gold_ments m' = model_use_gold_ments m /\
  model_max_span_width m' = model_max_span_width m /\
  model_top_span_ratio m' = model_top_span_ratio m /\
  model_use_topk m' = model_use_topk m.

(** The call of the final evaluation for a dataset. *)
Definition final_eval_call (cfg : Config (F:=F)) (dataset : string)
  : option call :=
  thr ← canonical_cluster_threshold cfg !! dataset;
  Some (EvaluateModel "test" dataset (IntThr thr) true).

End MoreExperiment.

(** * A scalar instance

    Rational scores, one rational weight per name and one rational
    gradient per parameter group, plain gradient descent; the model has no
    loss on a document without gold clusters, predicts every mention as a
    cluster of its own and is scored perfectly by the internal metrics.
    It runs the definitions above on concrete experiments. *)
Module Scalar.

Definition q_float_ops : PyFloatOps Q :=
  {| f_gt a b := negb (Qle_bool a b);
     f_sum l := Qred (fold_left Qplus l 0%Q);
     f_div_len a n := Qred (a / inject_Z (Z.of_nat n));
     f_times100 a := Qred (a * 100);
     f_round1 a := Qred (Qmake (Qfloor (a * 10 + (1 # 2))) 10) |}.

Definition q_torch : TorchLib Q :=
  {| Tensor := Q;
     Loss := Q;
     Grad := Q;
     OptState := Z;
     SchedState := Z;
     ScalerState := Q;
     TorchRng := Z;
     NumpyRng := Z;
     zero_grad := fun _ => 0%Q;
     scale_backward := fun sc loss gr g => Qred (gr g + sc * loss);
     unscale_ := fun sc g => (sc, Qred (g / sc));
     clip_grad_norm_ := fun max_norm g =>
       if Qle_bool (Qabs g) max_norm then g
       else if Qle_bool 0 g then max_norm else Qopp max_norm;
     scaler_step := fun sc o g weights =>
       (o + 1, (fun t => Qred (t - g)) <$> weights);
     scheduler_step := fun sch o => (sch + 1, o);
     scaler_update := fun sc => sc;
     item := fun loss => loss;
     np_shuffle := fun A rng l => (rng + 1, l) |}.

#[local] Existing Instance q_float_ops.
#[local] Existing Instance q_torch.

Definition fresh_model : Model :=
  {| state_dict := {["lm_encoder.w" := 1%Q; "mem.w" := 2%Q]};
     training := true;
     model_max_ents := 10;
     model_use_gold_ments := false;
     model_max_span_width := 20;
     model_top_span_ratio := (2 # 5)%Q;
     model_use_topk := false |}.

Definition big_enough (z : Z) (cluster : pyval) : bool :=
  match cluster with
  | PyList l => z <=? Z.of_nat (length l)
  | _ => false
  end.

(** The collaborators, for a given behaviour of the scorer wrapper. *)
Definition collaborators_with
    (scorer : result (list (string * ConllPRF (F:=Q)))) : Collaborators :=
  {| M2C := unit;
     Evaluator := nat;
     pick_controller := fun _ => fresh_model;
     forward_training := fun _ example =>
       match example !! "clusters" with
       | Some (PyList (_ :: _)) => Some (1 # 2)%Q
       | _ => None
       end;
     infer := fun _ example =>
       (PyList [PyInt 0; PyInt 0],
        PyList [PyList [PyInt 0; PyInt 1]; PyList [PyInt 4; PyInt 4]],
        PyList [PyInt 0; PyInt 0],
        PyList [PyFloat (3 # 2); PyFloat (1 # 2)]);
     action_sequences_to_clusters := fun _ mentions =>
       match mentions with
       | PyList l => PyList (map (fun mention => PyList [mention]) l)
       | _ => PyList []
       end;
     get_mention_to_cluster := fun clusters threshold =>
       match threshold, clusters with
       | IntThr z, PyList l => Ok (PyList (List.filter (big_enough z) l), tt)
       | DictThr _, PyList [] => Ok (PyList [], tt)
       | _, _ => Raise TypeError
       end;
     CorefEvaluator := O;
     evaluator_update := fun e _ _ _ _ => S e;
     evaluators := fun _ =>
       [ {| recall := 1%Q; precision := 1%Q; prf_fscore := 1%Q |};
         {| recall := 1%Q; precision := 1%Q; prf_fscore := 1%Q |};
         {| recall := 1%Q; precision := 1%Q; prf_fscore := 1%Q |} ];
     evaluator_get_f1 := fun _ => 1%Q;
     evaluate_conll := fun _ _ _ _ _ => scorer |}.

(** A scorer that answers, one whose output cannot be parsed, one that
    cannot be run. *)
Definition official_scores : list (string * ConllPRF (F:=Q)) :=
  [ ("muc", {| conll_r := 50; conll_p := 50; conll_f := 50 |}%Q);
    ("bcub", {| conll_r := 40; conll_p := 40; conll_f := 40 |}%Q);
    ("ceafe", {| conll_r := 30; conll_p := 30; conll_f := 30 |}%Q) ].

Definition answering : Collaborators := collaborators_with (Ok official_scores).
Definition unreachable : Collaborators := collaborators_with (Raise OSError).

Definition all_paths_exist : string -> bool := fun _ => true.

(** A document with one gold cluster, and one without gold clusters. *)
Definition doc1 : Example :=
  {[ "doc_key" := PyStr "doc1";
     "clusters" := PyList [PyList [PyList [PyInt 0; PyInt 1]]];
     "subtoken_map" := PyList [PyInt 0; PyInt 1; PyInt 1];
     "tensorized_sent" := PyTensor [1%Q; 2%Q] ]}.

Definition doc0 : Example :=
  {[ "doc_key" := PyStr "doc0";
     "clusters" := PyList [];
     "subtoken_map" := PyList [PyInt 0];
     "tensorized_sent" := PyTensor [3%Q] ]}.

Definition thresholds : gmap string Z :=
  {[ "litbank" := 1; "ontonotes" := 2 ]}.

(** An experiment on litbank without fine-tuning: evaluation every step,
    three evaluations at most, patience one. *)
Definition cfg : Config :=
  {| model_args := {[ "max_span_width" := PyInt 20 ]};
     canonical_cluster_threshold := thresholds;
     update_frequency := 10;
     fine_tune_lr := None;
     max_gradient_norm := 1%Q;
     eval_per_k_steps := 1;
     max_evals := 3;
     patience := 1;
     num_train_docs := None;
     to_save_model := true;
     model_dir := "models/run";
     best_model_dir := "models/run/best";
     conll_scorer := Some "reference-coreference-scorers/scorer.pl";
     conll_data_dir := Some {[ "litbank" := "data/litbank/conll" ]};
     eval_max_ents := Some 5;
     use_gold_ments := None;
     max_span_width := None;
     top_span_ratio := None;
     use_topk := false;
     data_iter_map :=
       {[ "train" := [("litbank", [doc1; doc0])];
          "dev" := [("litbank", [doc1])];
          "test" := [("litbank", [])] ]} |}.

Definition start_info : TrainInfo :=
  {| val_perf := 0%Q; global_steps := 0; num_stuck_evals := 0 |}.

Definition start : Exp :=
  {| train_info := start_info;
     model := fresh_model;
     grads := fun _ => 0%Q;
     optimizer := [(mem, 0)];
     optim_scheduler := [(mem, 0)];
     scaler := 1%Q;
     rng_state := 7;
     np_rng_state := 7;
     disk := ∅;
     log_files := ∅;
     calls := [] |}.

(** The same experiment after nine steps and a perfect dev score. *)
Definition later : Exp :=
  set_train_info
    {| val_perf := 100%Q; global_steps := 9; num_stuck_evals := 0 |} start.

(** A checkpoint of an earlier run. *)
Definition earlier_best : Checkpoint :=
  {| ck_train_info :=
       {| val_perf := 80%Q; global_steps := 4; num_stuck_evals := 0 |};
     ck_model := {["lm_encoder.w" := 3%Q; "mem.w" := 5%Q]};
     ck_scaler := Some 1%Q;
     ck_rng_state := 11;
     ck_np_rng_state := 13;
     ck_optimizer := [];
     ck_scheduler := [];
     ck_model_args := {[ "max_span_width" := PyInt 30 ]} |}.

Definition with_best : Exp :=
  set_disk {[ best_model_path cfg := earlier_best ]} later.

(** The same experiment after one step and a perfect dev score. *)
Definition plateau : Exp :=
  set_train_info
    {| val_perf := 100%Q; global_steps := 1; num_stuck_evals := 0 |} start.

(** A file system in which every directory the run saves to exists, and
    one that lacks the directory of the "best" slot. *)
Definition all_directories : Directories :=
  {| parent_directory_exists := fun _ _ => true |}.

Definition no_best_directory : Directories :=
  {| parent_directory_exists := fun _ location =>
       bool_decide (location <> "models/run/best/model.pth") |}.

End Scalar.

(** * The scalar instance, continued

    Parameters that are rationals and raw documents that are already
    tensorized, with what the further properties run on. *)
Module ScalarSetup.
Import Scalar.

#[local] Existing Instance q_float_ops.
#[local] Existing Instance q_torch.

Definition q_setup : SetupLib :=
  {| Param := Q;
     Raw := Example;
     get_params := fun _ => ([1%Q; 3%Q], [2%Q]);
     get_named_params := fun _ =>
       ([("lm_encoder.layer.bias", 1%Q); ("lm_encoder.layer.weight", 3%Q)],
        [("mem.w", 2%Q)]);
     manual_seed := fun seed => seed;
     np_random_seed := fun seed => seed;
     GradScaler := 1%Q;
     Adam := fun _ _ => 0;
     AdamW := fun _ _ => 0;
     get_linear_schedule_with_warmup := fun _ _ _ => 0;
     tenth := fun n => n / 10;
     weight_decay_1e_2 := (1 # 100)%Q;
     weight_decay_0 := 0%Q;
     tensorize_data := fun docs _ => docs |}.

(** A scorer whose answer lacks the entry of [muc]. *)
Definition incomplete : Collaborators :=
  collaborators_with
    (Ok [ ("bcub", {| conll_r := 40; conll_p := 40; conll_f := 40 |}%Q);
          ("ceafe", {| conll_r := 30; conll_p := 30; conll_f := 30 |}%Q) ]).

(** A "last" checkpoint of an earlier run without fine-tuning, one of a
    run with fine-tuning, and the experiment with each in its "last"
    slot. *)
Definition resumable : Checkpoint :=
  {| ck_train_info :=
       {| val_perf := 80%Q; global_steps := 2; num_stuck_evals := 0 |};
     ck_model := {["mem.w" := 5%Q]};
     ck_scaler := None;
     ck_rng_state := 11;
     ck_np_rng_state := 13;
     ck_optimizer := [(mem, 5)];
     ck_scheduler := [(mem, 6)];
     ck_model_args := {[ "max_span_width" := PyInt 20 ]} |}.

Definition fine_tuned : Checkpoint :=
  {| ck_train_info :=
       {| val_perf := 80%Q; global_steps := 2; num_stuck_evals := 0 |};
     ck_model := {["lm_encoder.w" := 3%Q; "mem.w" := 5%Q]};
     ck_scaler := None;
     ck_rng_state := 11;
     ck_np_rng_state := 13;
     ck_optimizer := [(mem, 5); (doc, 8)];
     ck_scheduler := [(mem, 6); (doc, 9)];
     ck_model_args := {[ "max_span_width" := PyInt 20 ]} |}.

Definition with_last : Exp :=
  set_disk {[ model_path cfg := resumable ]} later.

Definition with_fine_tuned : Exp :=
  set_disk {[ model_path cfg := fine_tuned ]} later.

(** A document with a tensor inside a list. *)
Definition doc_nested : Example :=
  <["speaker_ids" := PyList [PyTensor [1%Q]]]> doc1.

(** Raw data with one dataset, the same without training documents, and
    the same without a test split. *)
Definition raw_data
  : list (string * gmap string (list (Raw (SetupLib:=q_setup)))) :=
  [("litbank", {[ "train" := [doc1; doc0]; "dev" := [doc1]; "test" := [] ]})].

Definition no_train_data
  : list (string * gmap string (list (Raw (SetupLib:=q_setup)))) :=
  [("litbank", {[ "train" := []; "dev" := [doc1]; "test" := [] ]})].

Definition no_test_split
  : list (string * gmap string (list (Raw (SetupLib:=q_setup)))) :=
  [("litbank", {[ "train" := [doc1; doc0]; "dev" := [doc1] ]})].

(** The experiment as the constructor has it before [setup_training], a
    configuration without data, and the same experiment with a checkpoint
    in the "last" slot and with one in the "best" slot. *)
Definition blank : Exp :=
  set_optim_scheduler [] (set_optimizer [] start).

Definition blank_cfg : Config := set_data_iter_map ∅ cfg.

Definition blank_with_last : Exp :=
  set_disk {[ model_path cfg := resumable ]} blank.


End ScalarSetup.

(** * Properties *)

Section Properties.
Context {F : Type} {float_ops : PyFloatOps F} {torch : TorchLib F}
        {collaborators : Collaborators} {directories : Directories}.

(** ** The error monad *)

Lemma bind_Ok {A B} (m : result A) (k : A -> result B) (r : B) :
  m ≫= k = Ok r -> exists a, m = Ok a /\ k a = Ok r.
Proof. destruct m as [a|e]; simpl; [eauto | discriminate]. Qed.

Lemma is_ok_Ok {A} (r : result A) : is_ok r = true -> exists a, r = Ok a.
Proof. destruct r as [a|e]; [eauto | discriminate]. Qed.

Lemma bind_Ok_eq {A B} (m : result A) (k : A -> result B) (a : A) :
  m = Ok a -> m ≫= k = k a.
Proof. intros ->. reflexivity. Qed.

Ltac inv_bind H :=
  let a := fresh "a" in
  let Ha := fresh "Ha" in
  apply bind_Ok in H; destruct H as (a & Ha & H).

Lemma new_calls_app (s s' : Exp) (l : list call) :
  calls s' = calls s ++ l -> new_calls s s' = l.
Proof. intros E. unfold new_calls. rewrite E. apply drop_app_length. Qed.

(** ** [handle_example] *)

Lemma zero_grad_all_frame keys (s : Exp) :
  let s' := zero_grad_all keys s in
  train_info s' = train_info s /\ model s' = model s /\
  optimizer s' = optimizer s /\ optim_scheduler s' = optim_scheduler s /\
  scaler s' = scaler s /\ rng_state s' = rng_state s /\
  np_rng_state s' = np_rng_state s /\ disk s' = disk s /\
  log_files s' = log_files s /\
  calls s' = calls s ++ map ZeroGrad keys.
Proof.
  revert s. induction keys as [|key rest IH]; intros s; simpl.
  - rewrite app_nil_r. repeat split.
  - specialize (IH (emit (ZeroGrad key)
             (set_grads (update_grad key (zero_grad (grads s key)) (grads s)) s))).
    simpl in IH. destruct IH as (? & ? & ? & ? & ? & ? & ? & ? & ? & Hc).
    repeat split; try assumption.
    rewrite Hc. simpl. rewrite <- app_assoc. reflexivity.
Qed.

Lemma unscale_all_frame keys (s : Exp) :
  let s' := unscale_all keys s in
  train_info s' = train_info s /\ model s' = model s /\
  optimizer s' = optimizer s /\ optim_scheduler s' = optim_scheduler s /\
  rng_state s' = rng_state s /\
  np_rng_state s' = np_rng_state s /\ disk s' = disk s /\
  log_files s' = log_files s /\
  calls s' = calls s ++ map Unscale keys.
Proof.
  revert s. induction keys as [|key rest IH]; intros s; simpl.
  - rewrite app_nil_r. repeat split.
  - destruct (unscale_ (scaler s) (grads s key)) as [sc g].
    specialize (IH (emit (Unscale key)
             (set_scaler sc (set_grads (update_grad key g (grads s)) s)))).
    simpl in IH. destruct IH as (? & ? & ? & ? & ? & ? & ? & ? & Hc).
    repeat split; try assumption.
    rewrite Hc. simpl. rewrite <- app_assoc. reflexivity.
Qed.

Lemma step_all_frame keys (s s' : Exp) :
  step_all keys s = Ok s' ->
  train_info s' = train_info s /\ grads s' = grads s /\
  scaler s' = scaler s /\ rng_state s' = rng_state s /\
  np_rng_state s' = np_rng_state s /\ disk s' = disk s /\
  log_files s' = log_files s /\
  calls s' = calls s ++ step_calls keys.
Proof.
  revert s. induction keys as [|key rest IH]; intros s; simpl.
  - intros [= <-]. rewrite app_nil_r. repeat split.
  - intros H. inv_bind H.
    destruct (scaler_step (scaler s) a (grads s key) (state_dict (model s)))
      as [o weights].
    inv_bind H. destruct (scheduler_step a0 o) as [sch o'].
    apply IH in H. simpl in H.
    destruct H as (? & ? & ? & ? & ? & ? & ? & Hc).
    repeat split; try assumption.
    rewrite Hc. rewrite <- !app_assoc. reflexivity.
Qed.

Lemma handle_example_absent cfg example (s : Exp) :
  forward_training (model s) example = None ->
  exists s',
    handle_example cfg example s = Ok (s', None) /\
    global_steps (train_info s') = global_steps (train_info s) + 1 /\
    val_perf (train_info s') = val_perf (train_info s) /\
    num_stuck_evals (train_info s') = num_stuck_evals (train_info s) /\
    model s' = model s /\
    optimizer s' = optimizer s /\
    optim_scheduler s' = optim_scheduler s /\
    scaler s' = scaler s /\
    rng_state s' = rng_state s /\ np_rng_state s' = np_rng_state s /\
    disk s' = disk s /\ log_files s' = log_files s /\
    calls s' = calls s ++ map ZeroGrad (map fst (optimizer s))
                       ++ [ForwardTraining example].
Proof.
  intros Hnone. unfold handle_example. cbv zeta.
  set (s1 := set_train_info _ s).
  change (optimizer s1) with (optimizer s).
  destruct (zero_grad_all_frame (map fst (optimizer s)) s1)
    as (Hti & Hm & Ho & Hs & Hsc & Hr & Hn & Hd & Hl & Hc).
  set (s2 := zero_grad_all (map fst (optimizer s)) s1) in *.
  change (model (emit (ForwardTraining example) s2)) with (model s2).
  rewrite Hm. change (model s1) with (model s). rewrite Hnone.
  eexists. split; [reflexivity|]. simpl.
  rewrite Hti, Hm, Ho, Hs, Hsc, Hr, Hn, Hd, Hl, Hc. simpl.
  rewrite <- app_assoc. repeat split.
Qed.

Lemma handle_example_usable cfg example (s s' : Exp) loss :
  handle_example cfg example s = Ok (s', Some loss) ->
  exists total_loss,
    forward_training (model s) example = Some total_loss /\
    loss = item total_loss /\
    let pre := before_clip example total_loss s in
    let norm := max_gradient_norm cfg in
    grads s' doc = clip_grad_norm_ norm (grads pre doc) /\
    grads s' mem = clip_grad_norm_ norm (grads pre mem) /\
    global_steps (train_info s') = global_steps (train_info s) + 1 /\
    val_perf (train_info s') = val_perf (train_info s) /\
    num_stuck_evals (train_info s') = num_stuck_evals (train_info s) /\
    rng_state s' = rng_state s /\ np_rng_state s' = np_rng_state s /\
    disk s' = disk s /\ log_files s' = log_files s /\
    calls s' = calls s ++ map ZeroGrad (map fst (optimizer s))
                       ++ [ForwardTraining example; Backward]
                       ++ map Unscale (map fst (optimizer s))
                       ++ [ClipGradNorm doc norm; ClipGradNorm mem norm]
                       ++ step_calls (map fst (optimizer s))
                       ++ [ScalerUpdate].
Proof.
  unfold handle_example, before_clip. cbv zeta.
  set (s1 := set_train_info _ s).
  change (optimizer s1) with (optimizer s).
  destruct (zero_grad_all_frame (map fst (optimizer s)) s1)
    as (Hti & Hm & Ho & Hs & Hsc & Hr & Hn & Hd & Hl & Hc).
  set (s2 := zero_grad_all (map fst (optimizer s)) s1) in *.
  change (model (emit (ForwardTraining example) s2)) with (model s2).
  rewrite Hm. change (model s1) with (model s).
  destruct (forward_training (model s) example) as [total_loss|];
    [|discriminate].
  intros H. exists total_loss. split; [reflexivity|].
  set (s3 := emit Backward _) in *.
  destruct (unscale_all_frame (map fst (optimizer s)) s3)
    as (Hti' & Hm' & Ho' & Hs' & Hr' & Hn' & Hd' & Hl' & Hc').
  set (s4 := unscale_all (map fst (optimizer s)) s3) in *.
  inv_bind H. injection H as <- <-.
  apply step_all_frame in Ha.
  destruct Ha as (Hti'' & Hg'' & Hsc'' & Hr'' & Hn'' & Hd'' & Hl'' & Hc'').
  split; [reflexivity|].
  cbn [grads train_info rng_state np_rng_state disk log_files calls emit
       set_scaler set_grads] in *.
  rewrite Hti'', Hg'', Hr'', Hn'', Hd'', Hl'', Hc''.
  rewrite Hti', Hr', Hn', Hd', Hl', Hc'. subst s3.
  cbn [grads train_info rng_state np_rng_state disk log_files calls emit
       set_scaler set_grads] in *.
  rewrite Hti, Hr, Hn, Hd, Hl, Hc. subst s1.
  cbn [grads train_info rng_state np_rng_state disk log_files calls emit
       set_scaler set_grads set_train_info global_steps val_perf
       num_stuck_evals] in *.
  unfold update_grad. simpl.
  repeat split. rewrite <- !app_assoc. reflexivity.
Qed.

(** C3.  When the forward pass of an example returns an absent total
    loss, [handle_example] returns [None] after advancing [global_steps]
    by one; it has only zeroed the gradients and run the forward pass (no
    backward pass, clipping, optimizer step, scheduler step or scaler
    update is among its calls), and the model, every optimizer state,
    every scheduler state and the scaler state are the ones it started
    with. *)
Theorem absent_loss_skips_the_update cfg example (s : Exp) :
  forward_training (model s) example = None ->
  exists s',
    handle_example cfg example s = Ok (s', None) /\
    global_steps (train_info s') = global_steps (train_info s) + 1 /\
    model s' = model s /\
    optimizer s' = optimizer s /\
    optim_scheduler s' = optim_scheduler s /\
    scaler s' = scaler s /\
    new_calls s s' = map ZeroGrad (map fst (optimizer s))
                       ++ [ForwardTraining example].
Proof.
  intros Hnone.
  destruct (handle_example_absent cfg example s Hnone)
    as (s' & E & Hg & _ & _ & Hm & Ho & Hs & Hsc & _ & _ & _ & _ & Hc).
  exists s'. repeat split; try assumption.
  apply new_calls_app. exact Hc.
Qed.

Lemma handle_example_clip_calls cfg example (s s' : Exp) loss :
  handle_example cfg example s = Ok (s', Some loss) ->
  List.filter is_clip_call (new_calls s s') =
    [ClipGradNorm doc (max_gradient_norm cfg);
     ClipGradNorm mem (max_gradient_norm cfg)].
Proof.
  intros H.
  destruct (handle_example_usable cfg example s s' loss H)
    as (total_loss & _ & _ & _ & _ & _ & _ & _ & _ & _ & _ & _ & Hc).
  rewrite (new_calls_app _ _ _ Hc).
  rewrite !List.filter_app. simpl.
  assert (Z1 : forall keys, List.filter is_clip_call (map ZeroGrad keys) = [])
    by (induction keys; simpl; auto).
  assert (Z2 : forall keys, List.filter is_clip_call (map Unscale keys) = [])
    by (induction keys; simpl; auto).
  assert (Z3 : forall keys, List.filter is_clip_call (step_calls keys) = [])
    by (induction keys; simpl; auto).
  rewrite Z1, Z2, Z3. reflexivity.
Qed.

(** C5, as the code has it.  In a training step with a usable loss the
    encoder group ([doc]) and the task group ([mem]) are clipped by two
    separate calls, each over the gradients of its own group as they are
    after the backward pass and unscaling, and both against the one
    configured [max_gradient_norm]. *)
Theorem groups_clipped_separately_with_shared_norm cfg example (s s' : Exp) loss :
  handle_example cfg example s = Ok (s', Some loss) ->
  exists total_loss,
    forward_training (model s) example = Some total_loss /\
    let pre := before_clip example total_loss s in
    grads s' doc = clip_grad_norm_ (max_gradient_norm cfg) (grads pre doc) /\
    grads s' mem = clip_grad_norm_ (max_gradient_norm cfg) (grads pre mem) /\
    List.filter is_clip_call (new_calls s s') =
      [ClipGradNorm doc (max_gradient_norm cfg);
       ClipGradNorm mem (max_gradient_norm cfg)].
Proof.
  intros H.
  destruct (handle_example_usable cfg example s s' loss H)
    as (total_loss & Hf & _ & Hd & Hm & _).
  exists total_loss. split; [assumption|]. simpl.
  split; [assumption|]. split; [assumption|].
  eapply handle_example_clip_calls. exact H.
Qed.

(** ** [evaluate_model] *)

Lemma evaluate_model_unfold pe cfg split final thr dataset (s : Exp) :
  evaluate_model pe cfg split final thr dataset s =
  let log_file := path_join (path_join (model_dir cfg) dataset)
                            (split +:+ ".log.jsonl") in
  acc ← evaluation_acc cfg split thr dataset (model s);
  conll_report pe cfg split dataset final thr
    (acc_coref_predictions acc) (acc_subtoken_maps acc)
    (internal_result (acc_evaluator acc))
    (set_log_files (<[log_file := acc_lines acc]> (<[log_file := []]> (log_files s)))
       (emit (EvaluateModel split dataset thr final)
          (set_model (set_training false (model s)) s))).
Proof.
  unfold evaluate_model, evaluation_acc. cbv zeta.
  destruct (getitem (data_iter_map cfg) split) as [by_dataset|e]; [|reflexivity].
  simpl. destruct (assoc dataset by_dataset) as [examples|]; [|reflexivity].
  simpl. destruct (evaluate_examples _ thr examples _) as [acc|e]; reflexivity.
Qed.

(** With an integer threshold the guard of the [try] is false. *)
Lemma conll_report_integer pe cfg split dataset final z preds maps rd (s : Exp) :
  conll_report pe cfg split dataset final (IntThr z) preds maps rd s =
  (_ ← conll_paths_exist pe cfg dataset; Ok (s, rd)).
Proof.
  unfold conll_report. simpl. rewrite andb_false_r. simpl.
  destruct (conll_paths_exist pe cfg dataset); reflexivity.
Qed.

Lemma conll_try_body_state cfg split dataset preds maps rd (s : Exp) :
  let s' := (conll_try_body cfg split dataset preds maps rd s).1 in
  s' = s \/ exists c, is_scorer_call c = true /\ s' = emit c s.
Proof.
  unfold conll_try_body.
  destruct (conll_scorer cfg) as [scorer|], (conll_data_dir cfg) as [data_dir|];
    simpl; auto.
  destruct (getitem data_dir dataset) as [d|e]; simpl; auto.
  right. eexists. split; [|reflexivity]. reflexivity.
Qed.

Lemma conll_report_frame pe cfg split dataset final thr preds maps rd
    (s s' : Exp) rd' :
  conll_report pe cfg split dataset final thr preds maps rd s = Ok (s', rd') ->
  same_training_state s s' /\ model s' = model s /\
  log_files s' = log_files s /\
  exists l, calls s' = calls s ++ l /\
            List.filter (fun c => negb (is_scorer_call c)) l = [].
Proof.
  unfold conll_report. cbv zeta. intros H. inv_bind H.
  assert (Hsame : forall t, t = s \/ (exists c, is_scorer_call c = true /\ t = emit c s) ->
             same_training_state s t /\ model t = model s /\
             log_files t = log_files s /\
             exists l, calls t = calls s ++ l /\
               List.filter (fun c => negb (is_scorer_call c)) l = []).
  { unfold same_training_state. intros t [->|(c & Hc & ->)]; simpl.
    - repeat split. exists []. rewrite app_nil_r. split; reflexivity.
    - repeat split. exists [c]. simpl. rewrite Hc. split; reflexivity. }
  destruct (final && py_eq thr (DictThr (canonical_cluster_threshold cfg)) && a).
  - pose proof (conll_try_body_state cfg split dataset preds maps rd s) as Hs.
    simpl in Hs.
    destruct (conll_try_body cfg split dataset preds maps rd s) as [t [x|e]];
      simpl in Hs.
    + inversion H; subst. apply Hsame. exact Hs.
    + destruct e; try discriminate. inversion H; subst. apply Hsame. exact Hs.
  - inversion H; subst. apply Hsame. left. reflexivity.
Qed.

Lemma evaluate_model_frame pe cfg split final thr dataset (s s' : Exp) rd :
  evaluate_model pe cfg split final thr dataset s = Ok (s', rd) ->
  same_training_state s s' /\
  model s' = set_training false (model s) /\
  exists l, calls s' = calls s ++ EvaluateModel split dataset thr final :: l /\
            List.filter (fun c => negb (is_scorer_call c)) l = [].
Proof.
  rewrite evaluate_model_unfold. cbv zeta. intros H. inv_bind H.
  apply conll_report_frame in H.
  destruct H as ((? & ? & ? & ? & ? & ? & ? & ?) & Hm & _ & l & Hc & Hl).
  unfold same_training_state. simpl in *.
  repeat split; try assumption.
  exists l. rewrite Hc, <- app_assoc. split; [reflexivity|assumption].
Qed.

Lemma internal_metrics_mode cfg split thr dataset (m m' : Model) :
  set_training false m' = set_training false m ->
  internal_metrics cfg split thr dataset m' = internal_metrics cfg split thr dataset m.
Proof.
  intros E. unfold internal_metrics, evaluation_acc. rewrite E. reflexivity.
Qed.

Lemma evaluate_model_integer pe cfg split final z dataset (s s' : Exp) rd :
  evaluate_model pe cfg split final (IntThr z) dataset s = Ok (s', rd) ->
  internal_metrics cfg split (IntThr z) dataset (model s) = Ok rd /\
  same_training_state s s' /\
  model s' = set_training false (model s) /\
  calls s' = calls s ++ [EvaluateModel split dataset (IntThr z) final].
Proof.
  rewrite evaluate_model_unfold. cbv zeta. intros H. inv_bind H.
  rewrite conll_report_integer in H. inv_bind H. inversion H; subst.
  unfold internal_metrics, same_training_state. rewrite Ha. simpl.
  repeat split.
Qed.

(** ** [save_model] *)

Lemma save_model_frame cfg location model_type (s s' : Exp) :
  save_model cfg location model_type s = Ok s' ->
  train_info s' = train_info s /\ model s' = model s /\ grads s' = grads s /\
  optimizer s' = optimizer s /\ optim_scheduler s' = optim_scheduler s /\
  scaler s' = scaler s /\ rng_state s' = rng_state s /\
  np_rng_state s' = np_rng_state s /\ log_files s' = log_files s /\
  exists ck, calls s' = calls s ++ [TorchSave location ck] /\
             disk s' = <[location := ck]> (disk s) /\
             ck_train_info ck = train_info s /\
             (model_type = "best" -> ck_optimizer ck = [] /\ ck_scheduler ck = []).
Proof.
  unfold save_model. cbv zeta. intros H. inv_bind H. destruct a as [opt sch].
  simpl in H.
  destruct (parent_directory_exists (calls s) location); [|discriminate].
  inversion H; subst. simpl. repeat split.
  eexists. split; [reflexivity|]. split; [reflexivity|]. simpl.
  split; [reflexivity|]. intros ->. simpl in Ha. inversion Ha. split; reflexivity.
Qed.

Lemma save_model_directory cfg location model_type (s s' : Exp) :
  save_model cfg location model_type s = Ok s' ->
  parent_directory_exists (calls s) location = true.
Proof.
  unfold save_model. cbv zeta. intros H. inv_bind H. destruct a as [opt sch].
  simpl in H.
  destruct (parent_directory_exists (calls s) location);
    [reflexivity|discriminate].
Qed.

(** ** [periodic_model_eval] *)

Lemma same_training_state_refl (s : Exp) : same_training_state s s.
Proof. unfold same_training_state. repeat split. Qed.

Lemma same_training_state_trans (s1 s2 s3 : Exp) :
  same_training_state s1 s2 -> same_training_state s2 s3 ->
  same_training_state s1 s3.
Proof.
  unfold same_training_state.
  intros (? & ? & ? & ? & ? & ? & ? & ?) (? & ? & ? & ? & ? & ? & ? & ?).
  repeat split; congruence.
Qed.

Lemma assoc_set_fresh {K V} `{EqDecision K} (key : K) (v : V) (d : list (K * V)) :
  key ∉ map fst d -> assoc_set key v d = d ++ [(key, v)].
Proof.
  induction d as [|[k w] d IH]; simpl; intros Hn; [reflexivity|].
  destruct (decide (k = key)) as [->|Hne].
  - exfalso. apply Hn. left.
  - f_equal. apply IH. intros Hin. apply Hn. right. exact Hin.
Qed.


Lemma dev_fscores_spec pe cfg datasets (s s' : Exp) acc fd :
  dev_fscores pe cfg datasets s acc = Ok (s', fd) ->
  same_training_state s s' /\
  (datasets = [] /\ model s' = model s \/
   model s' = set_training false (model s)) /\
  exists scores evals,
    Forall2 (fun d x => dev_fscore cfg d (model s) = Ok x) datasets scores /\
    Forall2 (fun d c => dev_eval_call cfg d = Some c) datasets evals /\
    fd = fold_left (fun fd '(d, x) => assoc_set d x fd) (zip datasets scores) acc /\
    calls s' = calls s ++ evals.
Proof.
  revert s acc. induction datasets as [|d rest IH]; intros s acc; simpl.
  - intros H. inversion H; subst. split; [apply same_training_state_refl|].
    split; [left; split; reflexivity|].
    exists [], []. rewrite app_nil_r. repeat split; constructor.
  - intros H. inv_bind H. inv_bind H. destruct a0 as [s1 rd].
    apply evaluate_model_integer in Ha0.
    destruct Ha0 as (Hint & Hsame & Hm & Hc).
    apply IH in H.
    destruct H as (Hsame' & Hm' & scores & evals & Hsc & Hev & Hfd & Hc').
    split; [eapply same_training_state_trans; eassumption|].
    split.
    { right. destruct Hm' as [[_ ->]| ->]; rewrite Hm; reflexivity. }
    exists (fscore rd :: scores),
           (EvaluateModel "dev" d (IntThr a) false :: evals).
    repeat split.
    + constructor.
      * unfold dev_fscore. rewrite Ha. simpl. rewrite Hint. reflexivity.
      * eapply Forall2_impl; [exact Hsc|]. simpl. intros d' x Hx.
        rewrite <- Hx. unfold dev_fscore.
        destruct (getitem (canonical_cluster_threshold cfg) d'); [|reflexivity].
        simpl. erewrite (internal_metrics_mode _ _ _ _ (model s) (model s1));
          [reflexivity|]. rewrite Hm. reflexivity.
    + constructor; [|exact Hev].
      unfold dev_eval_call. unfold getitem in Ha.
      destruct (canonical_cluster_threshold cfg !! d); inversion Ha; subst.
      reflexivity.
    + exact Hfd.
    + rewrite Hc', Hc, <- app_assoc. reflexivity.
Qed.

Lemma set_training_twice (b : bool) (m m' : Model) :
  m' = m \/ m' = set_training false m ->
  set_training b m' = set_training b m.
Proof. intros [->| ->]; reflexivity. Qed.

Lemma periodic_model_eval_spec pe cfg (s s' : Exp) f :
  periodic_model_eval pe cfg s = Ok (s', f) ->
  exists by_dataset scores evals,
    data_iter_map cfg !! "dev" = Some by_dataset /\
    Forall2 (fun d x => dev_fscore cfg d (model s) = Ok x)
            (map fst by_dataset) scores /\
    Forall2 (fun d c => dev_eval_call cfg d = Some c)
            (map fst by_dataset) evals /\
    mean (map snd (fold_left (fun fd '(d, x) => assoc_set d x fd)
                             (zip (map fst by_dataset) scores) [])) = Ok f /\
    let improved := f_gt f (val_perf (train_info s)) in
    train_info s' =
      (if improved
       then {| val_perf := f;
               global_steps := global_steps (train_info s);
               num_stuck_evals := 0 |}
       else {| val_perf := val_perf (train_info s);
               global_steps := global_steps (train_info s);
               num_stuck_evals := num_stuck_evals (train_info s) + 1 |}) /\
    model s' = set_training true (model s) /\
    grads s' = grads s /\ optimizer s' = optimizer s /\
    optim_scheduler s' = optim_scheduler s /\ scaler s' = scaler s /\
    rng_state s' = rng_state s /\ np_rng_state s' = np_rng_state s /\
    exists best_saves last_saves,
      calls s' = calls s ++ evals ++ best_saves ++ last_saves /\
      (if improved
       then exists ck, best_saves = [TorchSave (best_model_path cfg) ck] /\
                       ck_train_info ck = train_info s' /\
                       ck_optimizer ck = [] /\ ck_scheduler ck = []
       else best_saves = []) /\
      (if to_save_model cfg
       then exists ck, last_saves = [TorchSave (model_path cfg) ck] /\
                       ck_train_info ck = train_info s'
       else last_saves = []).
Proof.
  unfold periodic_model_eval. intros H.
  apply bind_Ok in H. destruct H as (by_dataset & Ha & H).
  apply bind_Ok in H. destruct H as ([s1 fd] & Ha0 & H).
  apply bind_Ok in H. destruct H as (f' & Ha1 & H).
  apply bind_Ok in H. destruct H as (a2 & Ha2 & H).
  apply bind_Ok in H. destruct H as (a3 & Ha3 & H).
  inversion H; subst; clear H.
  apply dev_fscores_spec in Ha0.
  destruct Ha0 as ((Hti & Hg & Ho & Hs & Hsc & Hr & Hn & Hd) & Hm &
                   scores & evals & Hscores & Hevals & -> & Hc).
  unfold getitem in Ha. destruct (data_iter_map cfg !! "dev") as [bd|] eqn:Hdev;
    inversion Ha; subst; clear Ha.
  exists by_dataset, scores, evals. split; [reflexivity|].
  split; [exact Hscores|]. split; [exact Hevals|]. split; [exact Ha1|].
  cbv zeta. rewrite Hti in Ha2.
  assert (Hmodel : forall t : Exp, model t = model s1 ->
            set_training true (model t) = set_training true (model s)).
  { intros t ->. apply set_training_twice.
    destruct Hm as [[_ ->]| ->]; auto. }
  destruct (f_gt f (val_perf (train_info s))) eqn:Himp.
  - apply save_model_frame in Ha2.
    destruct Ha2 as (Hti2 & Hm2 & Hg2 & Ho2 & Hs2 & Hsc2 & Hr2 & Hn2 & Hl2 &
                     ckb & Hc2 & Hd2 & Hck2 & Hbest).
    simpl in *.
    assert (Hlast : exists last_saves,
      train_info a3 = train_info a2 /\ model a3 = model a2 /\
      grads a3 = grads a2 /\ optimizer a3 = optimizer a2 /\
      optim_scheduler a3 = optim_scheduler a2 /\ scaler a3 = scaler a2 /\
      rng_state a3 = rng_state a2 /\ np_rng_state a3 = np_rng_state a2 /\
      calls a3 = calls a2 ++ last_saves /\
      (if to_save_model cfg
       then exists ck, last_saves = [TorchSave (model_path cfg) ck] /\
                       ck_train_info ck = train_info a2
       else last_saves = [])).
    { destruct (to_save_model cfg).
      - apply save_model_frame in Ha3.
        destruct Ha3 as (? & ? & ? & ? & ? & ? & ? & ? & ? & ck & ? & ? & ? & ?).
        exists [TorchSave (model_path cfg) ck]. repeat split; try assumption.
        exists ck. split; [reflexivity|assumption].
      - inversion Ha3; subst. exists []. rewrite app_nil_r. repeat split. }
    destruct Hlast as (last_saves & Hti3 & Hm3 & Hg3 & Ho3 & Hs3 & Hsc3 & Hr3 &
                       Hn3 & Hc3 & Hlast).
    rewrite Hti3, Hti2, Hg3, Hg2, Ho3, Ho2, Hs3, Hs2, Hsc3, Hsc2, Hr3, Hr2,
            Hn3, Hn2, ?Hti, Hg, Ho, Hs, Hsc, Hr, Hn.
    split; [reflexivity|]. split; [apply Hmodel; congruence|].
    repeat (split; [reflexivity|]).
    exists [TorchSave (best_model_path cfg) ckb], last_saves.
    split; [rewrite Hc3, Hc2, Hc, <- !app_assoc; reflexivity|].
    split.
    + exists ckb. split; [reflexivity|]. split; [congruence|].
      apply Hbest. reflexivity.
    + destruct (to_save_model cfg); [|exact Hlast].
      destruct Hlast as (ck & ? & ?). exists ck. split; [assumption|congruence].
  - inversion Ha2; subst; clear Ha2. simpl in *.
    set (s2 := set_train_info _ s1) in *.
    assert (Hlast : exists last_saves,
      train_info a3 = train_info s2 /\ model a3 = model s2 /\
      grads a3 = grads s2 /\ optimizer a3 = optimizer s2 /\
      optim_scheduler a3 = optim_scheduler s2 /\ scaler a3 = scaler s2 /\
      rng_state a3 = rng_state s2 /\ np_rng_state a3 = np_rng_state s2 /\
      calls a3 = calls s2 ++ last_saves /\
      (if to_save_model cfg
       then exists ck, last_saves = [TorchSave (model_path cfg) ck] /\
                       ck_train_info ck = train_info s2
       else last_saves = [])).
    { destruct (to_save_model cfg).
      - apply save_model_frame in Ha3.
        destruct Ha3 as (? & ? & ? & ? & ? & ? & ? & ? & ? & ck & ? & ? & ? & ?).
        exists [TorchSave (model_path cfg) ck]. repeat split; try assumption.
        exists ck. split; [reflexivity|assumption].
      - inversion Ha3; subst. exists []. rewrite app_nil_r. repeat split. }
    destruct Hlast as (last_saves & Hti3 & Hm3 & Hg3 & Ho3 & Hs3 & Hsc3 & Hr3 &
                       Hn3 & Hc3 & Hlast).
    rewrite Hti3, Hg3, Ho3, Hs3, Hsc3, Hr3, Hn3. subst s2. simpl.
    rewrite ?Hti, Hg, Ho, Hs, Hsc, Hr, Hn.
    split; [reflexivity|]. split; [apply Hmodel; rewrite Hm3; reflexivity|].
    repeat (split; [reflexivity|]).
    exists [], last_saves.
    split; [rewrite Hc3; simpl; rewrite Hc, <- !app_assoc; reflexivity|].
    split; [reflexivity|].
    destruct (to_save_model cfg); [|exact Hlast].
    destruct Hlast as (ck & ? & ?). exists ck. split; [assumption|].
    simpl in *. congruence.
Qed.
(** ** The body of the training loop *)

Lemma handle_example_loss cfg example (s s' : Exp) l :
  handle_example cfg example s = Ok (s', l) ->
  l = item <$> forward_training (model s) example.
Proof.
  unfold handle_example. cbv zeta.
  set (s1 := set_train_info _ s).
  change (optimizer s1) with (optimizer s).
  destruct (zero_grad_all_frame (map fst (optimizer s)) s1)
    as (_ & Hm & _).
  set (s2 := zero_grad_all (map fst (optimizer s)) s1) in *.
  change (model (emit (ForwardTraining example) s2)) with (model s2).
  rewrite Hm. change (model s1) with (model s).
  destruct (forward_training (model s) example) as [total_loss|].
  - intros H. apply bind_Ok in H. destruct H as (s3 & _ & H).
    inversion H. reflexivity.
  - intros H. inversion H. reflexivity.
Qed.

Lemma handle_example_frame cfg example (s s' : Exp) l :
  handle_example cfg example s = Ok (s', l) ->
  global_steps (train_info s') = global_steps (train_info s) + 1 /\
  val_perf (train_info s') = val_perf (train_info s) /\
  num_stuck_evals (train_info s') = num_stuck_evals (train_info s) /\
  exists c, calls s' = calls s ++ c /\ List.filter is_eval_or_save c = [].
Proof.
  intros H. pose proof (handle_example_loss _ _ _ _ _ H) as Hl.
  assert (Z1 : forall keys, List.filter is_eval_or_save (map ZeroGrad keys) = [])
    by (induction keys; simpl; auto).
  assert (Z2 : forall keys, List.filter is_eval_or_save (map Unscale keys) = [])
    by (induction keys; simpl; auto).
  assert (Z3 : forall keys, List.filter is_eval_or_save (step_calls keys) = [])
    by (induction keys; simpl; auto).
  destruct (forward_training (model s) example) as [total_loss|] eqn:Hf;
    simpl in Hl; subst l.
  - apply handle_example_usable in H.
    destruct H as (tl & _ & _ & _ & _ & Hg & Hv & Hn & _ & _ & _ & _ & Hc).
    repeat split; try assumption.
    eexists. split; [exact Hc|].
    rewrite !List.filter_app, Z1, Z2, Z3. reflexivity.
  - destruct (handle_example_absent cfg example s Hf)
      as (s'' & E & Hg & Hv & Hn & _ & _ & _ & _ & _ & _ & _ & _ & Hc).
    rewrite E in H. inversion H; subst.
    repeat split; try assumption.
    eexists. split; [exact Hc|].
    rewrite !List.filter_app, Z1. reflexivity.
Qed.

Lemma train_example_spec pe cfg example (s : Exp) o :
  train_example pe cfg example s = Ok o ->
  exists s1 c,
    global_steps (train_info s1) = global_steps (train_info s) + 1 /\
    val_perf (train_info s1) = val_perf (train_info s) /\
    num_stuck_evals (train_info s1) = num_stuck_evals (train_info s) /\
    calls s1 = calls s ++ c /\ List.filter is_eval_or_save c = [] /\
    if at_boundary cfg (global_steps (train_info s) + 1)
    then exists s' f, periodic_model_eval pe cfg s1 = Ok (s', f) /\
           o = if stop_check cfg s' then Return s' else Continue s'
    else o = Continue s1.
Proof.
  unfold train_example. intros H.
  apply bind_Ok in H. destruct H as ([s0 l] & Hh & H).
  apply bind_Ok in H. destruct H as (r & Hr & H).
  apply bind_Ok in H. destruct H as (s1 & Hp & H).
  apply handle_example_frame in Hh.
  destruct Hh as (Hg & Hv & Hn & c & Hc & Hf).
  assert (Hs1 : train_info s1 = train_info s0 /\
                exists c', calls s1 = calls s0 ++ c' /\
                           List.filter is_eval_or_save c' = []).
  { destruct (r =? 0).
    - apply bind_Ok in Hp. destruct Hp as (dk & _ & Hp).
      apply bind_Ok in Hp. destruct Hp as (lv & _ & Hp).
      inversion Hp; subst. simpl. split; [reflexivity|].
      eexists. rewrite <- app_assoc. split; reflexivity.
    - inversion Hp; subst. split; [reflexivity|].
      exists []. rewrite app_nil_r. split; reflexivity. }
  destruct Hs1 as (Hti & c' & Hc' & Hf').
  exists s1, (c ++ c'). rewrite Hti.
  repeat split; try assumption.
  - rewrite Hc', Hc, <- app_assoc. reflexivity.
  - rewrite List.filter_app, Hf, Hf'. reflexivity.
  - unfold at_boundary. rewrite Hti, Hg in H.
    destruct (negb (eval_per_k_steps cfg =? 0)
              && ((global_steps (train_info s) + 1) mod eval_per_k_steps cfg =? 0)).
    + apply bind_Ok in H. destruct H as ([s' f] & He & H).
      exists s', f. split; [exact He|]. unfold stop_check.
      destruct (patience cfg <=? num_stuck_evals (train_info s')); simpl.
      * inversion H. reflexivity.
      * destruct (num_training_steps cfg <=? global_steps (train_info s'));
          inversion H; reflexivity.
    + inversion H. reflexivity.
Qed.
Lemma periodic_model_eval_train_info pe cfg (s s' : Exp) f :
  periodic_model_eval pe cfg s = Ok (s', f) ->
  global_steps (train_info s') = global_steps (train_info s) /\
  (f_gt f (val_perf (train_info s)) = true ->
   num_stuck_evals (train_info s') = 0 /\ val_perf (train_info s') = f) /\
  (f_gt f (val_perf (train_info s)) = false ->
   num_stuck_evals (train_info s') = num_stuck_evals (train_info s) + 1 /\
   val_perf (train_info s') = val_perf (train_info s)).
Proof.
  intros H. apply periodic_model_eval_spec in H.
  destruct H as (bd & scores & evals & _ & _ & _ & _ & Hti & _).
  cbv zeta in Hti. rewrite Hti.
  destruct (f_gt f (val_perf (train_info s))); simpl;
    (split; [reflexivity|]); split; intros E; try discriminate;
    split; reflexivity.
Qed.

(** Where [setup_training] lets [train] start: patience is not exhausted
    and the step budget is not used up. *)
Lemma training_required_invariant cfg (s : Exp) :
  training_required cfg s = Ok true ->
  eval_per_k_steps cfg <> 0 /\
  num_stuck_evals (train_info s) < patience cfg /\
  global_steps (train_info s) < num_training_steps cfg.
Proof.
  unfold training_required.
  destruct (patience cfg <=? num_stuck_evals (train_info s)) eqn:Hp;
    [discriminate|].
  destruct (eval_per_k_steps cfg =? 0) eqn:Hk; simpl; [discriminate|].
  destruct (num_training_steps cfg <=? global_steps (train_info s)) eqn:Hb;
    [discriminate|].
  intros _. lia.
Qed.

Lemma train_example_stops pe cfg example (s : Exp) o :
  eval_per_k_steps cfg <> 0 ->
  0 <= num_stuck_evals (train_info s) < patience cfg ->
  global_steps (train_info s) < num_training_steps cfg ->
  train_example pe cfg example s = Ok o ->
  match o with
  | Return s' =>
      num_stuck_evals (train_info s') = patience cfg
      \/ global_steps (train_info s') = num_training_steps cfg
  | Continue s' =>
      0 <= num_stuck_evals (train_info s') < patience cfg
      /\ global_steps (train_info s') < num_training_steps cfg
  end.
Proof.
  intros Hk Hn Hg H. apply train_example_spec in H.
  destruct H as (s1 & c & Hg1 & Hv1 & Hn1 & _ & _ & H).
  unfold at_boundary in H.
  destruct (negb (eval_per_k_steps cfg =? 0)
            && ((global_steps (train_info s) + 1) mod eval_per_k_steps cfg =? 0))
    eqn:Hb.
  - destruct H as (s' & f & He & ->).
    apply periodic_model_eval_train_info in He.
    destruct He as (Hg' & Himp & Hno).
    assert (Hn' : 0 <= num_stuck_evals (train_info s')
                  <= num_stuck_evals (train_info s) + 1).
    { destruct (f_gt f (val_perf (train_info s1))).
      - destruct (Himp eq_refl) as [-> _]. lia.
      - destruct (Hno eq_refl) as [-> _]. lia. }
    unfold stop_check.
    destruct (patience cfg <=? num_stuck_evals (train_info s')) eqn:Hp; simpl.
    + left. lia.
    + destruct (num_training_steps cfg <=? global_steps (train_info s')) eqn:Hs.
      * right. lia.
      * lia.
  - subst o. rewrite Hn1, Hg1. split; [exact Hn|].
    assert (Hne : global_steps (train_info s) + 1 <> num_training_steps cfg).
    { intros E. unfold num_training_steps in E.
      rewrite E, Z.mul_comm, Z.mod_mul in Hb by exact Hk.
      destruct (eval_per_k_steps cfg =? 0) eqn:Hz; [lia|]. discriminate. }
    lia.
Qed.

Lemma train_examples_stops pe cfg train_data (s : Exp) o :
  eval_per_k_steps cfg <> 0 ->
  0 <= num_stuck_evals (train_info s) < patience cfg ->
  global_steps (train_info s) < num_training_steps cfg ->
  train_examples pe cfg train_data s = Ok o ->
  match o with
  | Return s' =>
      num_stuck_evals (train_info s') = patience cfg
      \/ global_steps (train_info s') = num_training_steps cfg
  | Continue s' =>
      0 <= num_stuck_evals (train_info s') < patience cfg
      /\ global_steps (train_info s') < num_training_steps cfg
  end.
Proof.
  intros Hk. revert s. induction train_data as [|ex rest IH]; intros s Hn Hg; simpl.
  - intros H. inversion H. split; assumption.
  - intros H. apply bind_Ok in H. destruct H as (o1 & H1 & H).
    pose proof (train_example_stops pe cfg ex s o1 Hk Hn Hg H1) as Ho1.
    destruct o1 as [s1|s1].
    + destruct Ho1. apply (IH s1); assumption.
    + inversion H; subst. exact Ho1.
Qed.

Lemma train_loop_stops pe cfg epochs (s s' : Exp) :
  eval_per_k_steps cfg <> 0 ->
  0 <= num_stuck_evals (train_info s) < patience cfg ->
  global_steps (train_info s) < num_training_steps cfg ->
  train_loop pe epochs cfg s = Ok (Some s') ->
  num_stuck_evals (train_info s') = patience cfg
  \/ global_steps (train_info s') = num_training_steps cfg.
Proof.
  intros Hk. revert s. induction epochs as [|n IH]; intros s Hn Hg; simpl.
  - discriminate.
  - intros H. apply bind_Ok in H. destruct H as (o & Ho & H).
    unfold train_epoch in Ho.
    apply bind_Ok in Ho. destruct Ho as (bd & _ & Ho).
    destruct (np_shuffle _ (np_rng_state s) (concat (map snd bd))) as [rng td].
    apply train_examples_stops in Ho; try assumption.
    destruct o as [s1|s1].
    + destruct Ho. apply (IH s1); assumption.
    + inversion H; subst. exact Ho.
Qed.

Lemma periodic_model_eval_steps pe cfg (s s' : Exp) f :
  periodic_model_eval pe cfg s = Ok (s', f) ->
  global_steps (train_info s') = global_steps (train_info s).
Proof.
  intros H. apply periodic_model_eval_train_info in H. tauto.
Qed.

Lemma train_examples_steps pe cfg train_data (s : Exp) o :
  train_examples pe cfg train_data s = Ok o ->
  match o with
  | Continue s' =>
      global_steps (train_info s') =
        global_steps (train_info s) + Z.of_nat (length train_data)
  | Return s' =>
      global_steps (train_info s) < global_steps (train_info s')
        <= global_steps (train_info s) + Z.of_nat (length train_data)
  end.
Proof.
  revert s. induction train_data as [|ex rest IH]; intros s; simpl length.
  - simpl. intros H. inversion H. lia.
  - simpl train_examples. intros H.
    apply bind_Ok in H. destruct H as (o1 & H1 & H).
    assert (Hstep : global_steps (train_info (outcome_state o1)) =
                    global_steps (train_info s) + 1).
    { apply train_example_spec in H1.
      destruct H1 as (s1 & c & Hg & _ & _ & _ & _ & H1).
      destruct (at_boundary cfg (global_steps (train_info s) + 1)).
      - destruct H1 as (s2 & f & He & ->).
        apply periodic_model_eval_steps in He.
        destruct (stop_check cfg s2); simpl; lia.
      - subst o1. simpl. exact Hg. }
    destruct o1 as [s1|s1]; simpl in Hstep.
    + apply IH in H. destruct o as [s2|s2]; lia.
    + inversion H; subst. lia.
Qed.

Lemma train_example_return pe cfg example (s s' : Exp) :
  train_example pe cfg example s = Ok (Return s') ->
  exists s1 f,
    periodic_model_eval pe cfg s1 = Ok (s', f) /\
    global_steps (train_info s1) = global_steps (train_info s) + 1 /\
    num_stuck_evals (train_info s1) = num_stuck_evals (train_info s).
Proof.
  intros H. apply train_example_spec in H.
  destruct H as (s1 & c & Hg & _ & Hn & _ & _ & H).
  destruct (at_boundary cfg (global_steps (train_info s) + 1)); [|discriminate].
  destruct H as (s2 & f & He & Ho).
  destruct (stop_check cfg s2); [|discriminate].
  inversion Ho; subst s2. exists s1, f. repeat split; assumption.
Qed.

Lemma train_examples_return pe cfg train_data (s s' : Exp) :
  eval_per_k_steps cfg <> 0 ->
  0 <= num_stuck_evals (train_info s) < patience cfg ->
  global_steps (train_info s) < num_training_steps cfg ->
  train_examples pe cfg train_data s = Ok (Return s') ->
  exists s1 f,
    periodic_model_eval pe cfg s1 = Ok (s', f) /\
    num_stuck_evals (train_info s1) < patience cfg /\
    global_steps (train_info s1) <= num_training_steps cfg.
Proof.
  intros Hk. revert s. induction train_data as [|ex rest IH]; intros s Hn Hg;
    simpl; [discriminate|].
  intros H. apply bind_Ok in H. destruct H as (o & Ho & H).
  pose proof (train_example_stops pe cfg ex s o Hk Hn Hg Ho) as Hinv.
  destruct o as [s1|s1].
  - destruct Hinv as [Hn1 Hg1]. apply (IH s1); assumption.
  - inversion H; subst s1. apply train_example_return in Ho.
    destruct Ho as (s1 & f & He & Hg1 & Hn1). exists s1, f.
    split; [exact He|]. lia.
Qed.

Lemma train_loop_return pe cfg epochs (s s' : Exp) :
  eval_per_k_steps cfg <> 0 ->
  0 <= num_stuck_evals (train_info s) < patience cfg ->
  global_steps (train_info s) < num_training_steps cfg ->
  train_loop pe epochs cfg s = Ok (Some s') ->
  exists s1 f,
    periodic_model_eval pe cfg s1 = Ok (s', f) /\
    num_stuck_evals (train_info s1) < patience cfg /\
    global_steps (train_info s1) <= num_training_steps cfg.
Proof.
  intros Hk. revert s. induction epochs as [|n IH]; intros s Hn Hg; simpl;
    [discriminate|].
  intros H. apply bind_Ok in H. destruct H as (o & Ho & H).
  unfold train_epoch in Ho.
  apply bind_Ok in Ho. destruct Ho as (bd & _ & Ho).
  destruct (np_shuffle _ (np_rng_state s) (concat (map snd bd))) as [rng td].
  destruct o as [s1|s1].
  - apply train_examples_stops in Ho; try assumption.
    destruct Ho. apply (IH s1); assumption.
  - inversion H; subst s1.
    apply train_examples_return in Ho; assumption.
Qed.

Lemma py_take_nonempty {A} (n : Z) (l : list A) :
  0 < n -> l <> [] -> py_take n l <> [].
Proof.
  intros Hn Hl. unfold py_take.
  destruct (0 <=? n) eqn:E; [|lia].
  destruct l as [|a l]; [congruence|].
  destruct (Z.to_nat n) eqn:En; [lia|]. simpl. discriminate.
Qed.

Lemma train_loop_fuel pe cfg epochs (s : Exp) by_dataset :
  eval_per_k_steps cfg <> 0 ->
  0 <= num_stuck_evals (train_info s) < patience cfg ->
  global_steps (train_info s) < num_training_steps cfg ->
  (forall (rng : NumpyRng) (l : list Example),
     length (np_shuffle Example rng l).2 = length l) ->
  data_iter_map cfg !! "train" = Some by_dataset ->
  concat (map snd by_dataset) <> [] ->
  (forall n, num_train_docs cfg = Some n -> 0 <= n) ->
  num_training_steps cfg - global_steps (train_info s) <= Z.of_nat epochs ->
  train_loop pe epochs cfg s <> Ok None.
Proof.
  intros Hk Hn Hg Hshuffle Hdata Hne Hdocs.
  revert s Hn Hg. induction epochs as [|n IH]; intros s Hn Hg Hfuel; [simpl in *; lia|].
  simpl. unfold train_epoch. unfold getitem. rewrite Hdata. simpl.
  pose proof (Hshuffle (np_rng_state s) (concat (map snd by_dataset))) as Hlen.
  destruct (np_shuffle Example (np_rng_state s) (concat (map snd by_dataset)))
    as [rng td] eqn:Esh.
  simpl in Hlen.
  match goal with
  | |- (train_examples pe cfg ?d ?t ≫= _) <> _ =>
      set (data := d); set (t0 := t);
      destruct (train_examples pe cfg data t0) as [o|e] eqn:E
  end; [|discriminate].
  simpl. destruct o as [s1|s1]; [|discriminate].
  assert (Hdata_ne : data <> []).
  { assert (Htd : td <> []).
    { intros ->. simpl in Hlen. destruct (concat (map snd by_dataset));
        [congruence|discriminate]. }
    subst data. destruct (num_train_docs cfg) as [m|] eqn:Em; [|exact Htd].
    destruct (m =? 0) eqn:Ez; [exact Htd|].
    apply py_take_nonempty; [|exact Htd].
    specialize (Hdocs m eq_refl). lia. }
  pose proof (train_examples_stops pe cfg data t0 _ Hk Hn Hg E) as [Hn1 Hg1].
  pose proof (train_examples_steps pe cfg data t0 _ E) as Hsteps.
  simpl in Hsteps.
  apply IH; try assumption.
  assert (0 < Z.of_nat (length data)).
  { destruct data; [congruence|]. simpl. lia. }
  subst t0. simpl in Hsteps. lia.
Qed.

(** C2.  A periodic evaluation leaves [global_steps] alone; when its mean
    dev F-score strictly exceeds [val_perf] it sets [num_stuck_evals] to 0
    and [val_perf] to that score, and otherwise it adds 1 to
    [num_stuck_evals] and keeps [val_perf]; so a counter that was not
    negative is 0 afterwards exactly when the score strictly improved.
    Started as [setup_training] allows (a non-zero evaluation period,
    patience not exhausted, step budget not used up), the body of the
    training loop returns exactly when [num_stuck_evals] has reached the
    patience or [global_steps] has reached [num_training_steps], and
    otherwise goes on with both still below.  [train] itself returns the
    state of the first periodic evaluation that finds one of the two
    reached: the evaluation was entered with the patience not exhausted
    and the budget not exceeded, and nothing is done after it.  And
    [train] does return: when shuffling keeps the number of documents,
    there is a training document and no negative cap on their number, the
    [while True] ends or raises within as many passes as the budget has
    steps left. *)
Theorem early_stopping pe cfg :
  (forall (s s' : Exp) f,
     periodic_model_eval pe cfg s = Ok (s', f) ->
     global_steps (train_info s') = global_steps (train_info s) /\
     (f_gt f (val_perf (train_info s)) = true ->
      num_stuck_evals (train_info s') = 0 /\ val_perf (train_info s') = f) /\
     (f_gt f (val_perf (train_info s)) = false ->
      num_stuck_evals (train_info s') = num_stuck_evals (train_info s) + 1 /\
      val_perf (train_info s') = val_perf (train_info s)) /\
     (0 <= num_stuck_evals (train_info s) ->
      (num_stuck_evals (train_info s') = 0 <->
       f_gt f (val_perf (train_info s)) = true))) /\
  (forall example (s : Exp) o,
     eval_per_k_steps cfg <> 0 ->
     0 <= num_stuck_evals (train_info s) < patience cfg ->
     global_steps (train_info s) < num_training_steps cfg ->
     train_example pe cfg example s = Ok o ->
     match o with
     | Return s' =>
         num_stuck_evals (train_info s') = patience cfg
         \/ global_steps (train_info s') = num_training_steps cfg
     | Continue s' =>
         0 <= num_stuck_evals (train_info s') < patience cfg
         /\ global_steps (train_info s') < num_training_steps cfg
     end) /\
  (forall epochs (s s' : Exp),
     eval_per_k_steps cfg <> 0 ->
     0 <= num_stuck_evals (train_info s) < patience cfg ->
     global_steps (train_info s) < num_training_steps cfg ->
     train pe epochs cfg s = Ok (Some s') ->
     (num_stuck_evals (train_info s') = patience cfg
      \/ global_steps (train_info s') = num_training_steps cfg) /\
     exists s1 f,
       periodic_model_eval pe cfg s1 = Ok (s', f) /\
       num_stuck_evals (train_info s1) < patience cfg /\
       global_steps (train_info s1) <= num_training_steps cfg) /\
  (forall epochs (s : Exp) by_dataset,
     eval_per_k_steps cfg <> 0 ->
     0 <= num_stuck_evals (train_info s) < patience cfg ->
     global_steps (train_info s) < num_training_steps cfg ->
     (forall (rng : NumpyRng) (l : list Example),
        length (np_shuffle Example rng l).2 = length l) ->
     data_iter_map cfg !! "train" = Some by_dataset ->
     concat (map snd by_dataset) <> [] ->
     (forall n, num_train_docs cfg = Some n -> 0 <= n) ->
     num_training_steps cfg - global_steps (train_info s) <= Z.of_nat epochs ->
     train pe epochs cfg s <> Ok None).
Proof.
  split; [|split; [|split]].
  - intros s s' f H. apply periodic_model_eval_train_info in H.
    destruct H as (Hg & Himp & Hno).
    split; [assumption|]. split; [assumption|]. split; [assumption|].
    intros H0. split.
    + intros E. destruct (f_gt f (val_perf (train_info s))); [reflexivity|].
      destruct (Hno eq_refl) as [E' _]. lia.
    + intros E. apply Himp. exact E.
  - intros example s o. apply train_example_stops.
  - intros epochs s s' Hk Hn Hg H. unfold train in H. split.
    + apply train_loop_stops in H; assumption.
    + apply train_loop_return in H; assumption.
  - intros epochs s by_dataset Hk Hn Hg Hsh Hd Hne Hdocs Hfuel. unfold train.
    apply (train_loop_fuel pe cfg epochs _ by_dataset); assumption.
Qed.

(** C10.  When the forward pass of an example returns an absent total loss
    and the step counter, already incremented, is a multiple of
    [update_frequency], the body of the training loop raises while it
    builds the progress record: [TypeError] from the float format applied
    to [None] (or [KeyError] before that when the example has no
    ["doc_key"]).  Nothing guards the format. *)
Theorem absent_loss_breaks_the_progress_record pe cfg example (s : Exp) :
  forward_training (model s) example = None ->
  update_frequency cfg <> 0 ->
  (global_steps (train_info s) + 1) mod update_frequency cfg = 0 ->
  train_example pe cfg example s =
    Raise (match example !! "doc_key" with
           | Some _ => TypeError
           | None => KeyError "doc_key"
           end).
Proof.
  intros Hnone Hu Hmod.
  destruct (handle_example_absent cfg example s Hnone)
    as (s' & E & Hg & _).
  unfold train_example. rewrite E. simpl.
  unfold py_mod. destruct (update_frequency cfg =? 0) eqn:Hz; [lia|].
  simpl. rewrite Hg, Hmod. simpl.
  unfold getitem. destruct (example !! "doc_key"); reflexivity.
Qed.

(** ** Checkpoints *)

Lemma save_groups_active (cfg : Config (F:=F)) (s : Exp) :
  (forall g, g ∈ param_groups cfg ->
     is_Some (assoc g (optimizer s)) /\ is_Some (assoc g (optim_scheduler s))) ->
  exists opt sch,
    save_groups (param_groups cfg) s ([], []) = Ok (opt, sch) /\
    Forall2 (fun g p => p.1 = g /\ assoc g (optimizer s) = Some p.2)
            (param_groups cfg) opt /\
    Forall2 (fun g p => p.1 = g /\ assoc g (optim_scheduler s) = Some p.2)
            (param_groups cfg) sch.
Proof.
  intros Hact. unfold param_groups in *.
  destruct (finetune cfg).
  - destruct (Hact mem) as [[o1 Ho1] [c1 Hc1]]; [left|].
    destruct (Hact doc) as [[o2 Ho2] [c2 Hc2]]; [right; left|].
    exists [(mem, o1); (doc, o2)], [(mem, c1); (doc, c2)].
    simpl. unfold getgroup. rewrite Ho1, Hc1. simpl. rewrite Ho2, Hc2. simpl.
    split; [reflexivity|]. split; repeat constructor; assumption.
  - destruct (Hact mem) as [[o1 Ho1] [c1 Hc1]]; [left|].
    exists [(mem, o1)], [(mem, c1)].
    simpl. unfold getgroup. rewrite Ho1, Hc1. simpl.
    split; [reflexivity|]. split; repeat constructor; assumption.
Qed.

(** C6.  A save raises [RuntimeError] when the parent directory of its
    location does not exist, and otherwise writes one payload there.  The
    payload holds [train_info], the scaler state, the global and the NumPy
    random states and the hyperparameter record.  Its weights are those of
    the model, without every weight whose name contains ["lm_encoder."]
    when there is no fine-tuning learning rate.  A "best" save stores no
    optimizer and no scheduler state; any other save, "last" in
    particular, stores the optimizer state and the scheduler state of
    [mem], and of [doc] as well when there is a fine-tuning learning
    rate, and of no other group (the groups need to have them, as they
    do after [initialize_optimizers]). *)
Theorem save_model_payload cfg location model_type (s : Exp) :
  (model_type <> "best" ->
   is_Some (assoc mem (optimizer s)) /\
   is_Some (assoc mem (optim_scheduler s)) /\
   (fine_tune_lr cfg <> None ->
    is_Some (assoc doc (optimizer s)) /\
    is_Some (assoc doc (optim_scheduler s)))) ->
  exists ck,
    save_model cfg location model_type s =
      (if parent_directory_exists (calls s) location
       then Ok (emit (TorchSave location ck)
                     (set_disk (<[location := ck]> (disk s)) s))
       else Raise RuntimeError) /\
    ck_train_info ck = train_info s /\
    ck_scaler ck = Some (scaler s) /\
    ck_rng_state ck = rng_state s /\
    ck_np_rng_state ck = np_rng_state s /\
    ck_model_args ck = model_args cfg /\
    (forall key,
       ck_model ck !! key =
         match fine_tune_lr cfg with
         | None => if str_in "lm_encoder." key then None
                   else state_dict (model s) !! key
         | Some _ => state_dict (model s) !! key
         end) /\
    (model_type = "best" -> ck_optimizer ck = [] /\ ck_scheduler ck = []) /\
    (model_type <> "best" ->
     let stored := match fine_tune_lr cfg with
                   | Some _ => [mem; doc]
                   | None => [mem]
                   end in
     map fst (ck_optimizer ck) = stored /\
     map fst (ck_scheduler ck) = stored /\
     forall g, g ∈ stored ->
       assoc g (ck_optimizer ck) = assoc g (optimizer s) /\
       assoc g (ck_scheduler ck) = assoc g (optim_scheduler s)).
Proof.
  intros Hact. unfold save_model. cbv zeta.
  assert (Hweights : forall key,
    (if negb (finetune cfg)
     then filter (fun kv => ¬ Is_true (str_in "lm_encoder." kv.1))
                 (state_dict (model s))
     else state_dict (model s)) !! key =
    match fine_tune_lr cfg with
    | None => if str_in "lm_encoder." key then None
              else state_dict (model s) !! key
    | Some _ => state_dict (model s) !! key
    end).
  { intros key. unfold finetune. destruct (fine_tune_lr cfg); simpl;
      [reflexivity|].
    rewrite map_lookup_filter.
    destruct (state_dict (model s) !! key) as [t|] eqn:Hk; simpl.
    - destruct (str_in "lm_encoder." key) eqn:Hin.
      + rewrite option_guard_False; [reflexivity|].
        intros HH. apply HH. exact I.
      + rewrite option_guard_True; [reflexivity|].
        intros [].
    - destruct (str_in "lm_encoder." key); reflexivity. }
  destruct (bool_decide (model_type = "best")) eqn:Hb; simpl.
  - apply bool_decide_eq_true in Hb.
    eexists. split; [reflexivity|]. simpl.
    repeat split; try exact Hweights; congruence.
  - apply bool_decide_eq_false in Hb.
    destruct (Hact Hb) as ([o1 Ho1] & [c1 Hc1] & Hdoc).
    unfold param_groups, finetune.
    destruct (fine_tune_lr cfg) as [lr|] eqn:Hlr; simpl.
    + destruct Hdoc as ([o2 Ho2] & [c2 Hc2]); [discriminate|].
      unfold getgroup. rewrite Ho1, Hc1. simpl. rewrite Ho2, Hc2. simpl.
      eexists. split; [reflexivity|]. simpl.
      split; [reflexivity|]. split; [reflexivity|]. split; [reflexivity|].
      split; [reflexivity|]. split; [reflexivity|].
      split.
      { intros key. specialize (Hweights key). unfold finetune in Hweights.
        rewrite Hlr in Hweights. exact Hweights. }
      split; [congruence|]. intros _.
      split; [reflexivity|]. split; [reflexivity|].
      intros g Hg. apply elem_of_cons in Hg. destruct Hg as [->|Hg].
      * simpl. rewrite Ho1, Hc1. split; reflexivity.
      * apply list_elem_of_singleton in Hg. subst g. simpl.
        rewrite Ho2, Hc2. split; reflexivity.
    + unfold getgroup. rewrite Ho1, Hc1. simpl.
      eexists. split; [reflexivity|]. simpl.
      split; [reflexivity|]. split; [reflexivity|]. split; [reflexivity|].
      split; [reflexivity|]. split; [reflexivity|].
      split.
      { intros key. specialize (Hweights key). unfold finetune in Hweights.
        rewrite Hlr in Hweights. exact Hweights. }
      split; [congruence|]. intros _.
      split; [reflexivity|]. split; [reflexivity|].
      intros g Hg. apply list_elem_of_singleton in Hg. subst g. simpl.
      rewrite Ho1, Hc1. split; reflexivity.
Qed.

Lemma load_model_best location (s : Exp) checkpoint :
  disk s !! location = Some checkpoint ->
  exists s',
    load_model location "best" s = Ok s' /\
    (forall key,
       state_dict (model s') !! key =
         match state_dict (model s) !! key with
         | Some t => Some (default t (ck_model checkpoint !! key))
         | None => None
         end) /\
    set_state_dict (state_dict (model s)) (model s') = model s /\
    optimizer s' = optimizer s /\
    optim_scheduler s' = optim_scheduler s /\
    scaler s' = scaler s /\
    train_info s' = ck_train_info checkpoint /\
    rng_state s' = ck_rng_state checkpoint /\
    np_rng_state s' = ck_np_rng_state checkpoint.
Proof.
  intros Hck.
  unfold load_model, torch_load. rewrite Hck. simpl.
  eexists. split; [reflexivity|]. simpl.
  split.
  { intros key. rewrite lookup_merge.
    destruct (state_dict (model s) !! key), (ck_model checkpoint !! key);
      reflexivity. }
  split; [destruct (model s); reflexivity|].
  repeat split.
Qed.

(** C4, as the code has it.  [load_model] with type "best" restores the
    weights leniently (a weight the checkpoint lacks keeps its value) and
    leaves the rest of the model, the hyperparameters it was built from
    included, and every optimizer, scheduler and scaler state untouched;
    it does overwrite [train_info] and both random states with the
    checkpoint's.  [setup_eval], the evaluation-only load of the "best"
    slot, builds the model from the supplied arguments overridden by the
    persisted hyperparameter record, which Python refuses with a
    [TypeError] when they have an entry ["device"]; otherwise, when the
    stored weights have the names of the model built, it takes exactly
    the checkpoint's weights, then applies the configured overrides
    (entity cap, gold-mention usage, span width, span ratio, top-k) on
    top, and assigns neither [train_info] nor any optimizer, scheduler or
    scaler state. *)
Theorem best_checkpoint_loads (cfg : Config (F:=F)) :
  (forall location (s : Exp) checkpoint,
     disk s !! location = Some checkpoint ->
     exists s',
       load_model location "best" s = Ok s' /\
       (forall key,
          state_dict (model s') !! key =
            match state_dict (model s) !! key with
            | Some t => Some (default t (ck_model checkpoint !! key))
            | None => None
            end) /\
       set_state_dict (state_dict (model s)) (model s') = model s /\
       optimizer s' = optimizer s /\
       optim_scheduler s' = optim_scheduler s /\
       scaler s' = scaler s /\
       train_info s' = ck_train_info checkpoint /\
       rng_state s' = ck_rng_state checkpoint /\
       np_rng_state s' = ck_np_rng_state checkpoint) /\
  (forall (s : Exp) checkpoint,
     disk s !! best_model_path cfg = Some checkpoint ->
     let supplied_args := ck_model_args checkpoint ∪ model_args cfg in
     let built := pick_controller supplied_args in
     supplied_args !! "device" = None ->
     dom (ck_model checkpoint) = dom (state_dict built) ->
     exists s',
       setup_eval cfg s = Ok s' /\
       state_dict (model s') = ck_model checkpoint /\
       model_max_ents (model s') =
         default (model_max_ents built) (eval_max_ents cfg) /\
       model_use_gold_ments (model s') =
         default (model_use_gold_ments built) (use_gold_ments cfg) /\
       model_max_span_width (model s') =
         default (model_max_span_width built) (max_span_width cfg) /\
       model_top_span_ratio (model s') =
         default (model_top_span_ratio built) (top_span_ratio cfg) /\
       model_use_topk (model s') =
         (if use_topk cfg then true else model_use_topk built) /\
       (forall key v, ck_model_args checkpoint !! key = Some v ->
          supplied_args !! key = Some v) /\
       (forall key, ck_model_args checkpoint !! key = None ->
          supplied_args !! key = model_args cfg !! key) /\
       train_info s' = train_info s /\
       optimizer s' = optimizer s /\
       optim_scheduler s' = optim_scheduler s /\
       scaler s' = scaler s) /\
  (forall (s : Exp) checkpoint,
     disk s !! best_model_path cfg = Some checkpoint ->
     is_Some ((ck_model_args checkpoint ∪ model_args cfg) !! "device") ->
     setup_eval cfg s = Raise TypeError).
Proof.
  split; [|split].
  - intros location s checkpoint Hck. apply load_model_best. exact Hck.
  - intros s checkpoint Hck supplied_args built Hdev Hdom.
    unfold setup_eval, torch_load. rewrite Hck. simpl.
    fold supplied_args. rewrite Hdev. simpl.
    unfold load_state_dict_strict. fold built.
    rewrite bool_decide_eq_true_2 by exact Hdom. simpl.
    eexists. split; [reflexivity|]. simpl.
    split.
    { destruct (use_topk cfg), (top_span_ratio cfg), (max_span_width cfg),
        (use_gold_ments cfg), (eval_max_ents cfg); reflexivity. }
    split.
    { destruct (use_topk cfg), (top_span_ratio cfg), (max_span_width cfg),
        (use_gold_ments cfg), (eval_max_ents cfg); reflexivity. }
    split.
    { destruct (use_topk cfg), (top_span_ratio cfg), (max_span_width cfg),
        (use_gold_ments cfg), (eval_max_ents cfg); reflexivity. }
    split.
    { destruct (use_topk cfg), (top_span_ratio cfg), (max_span_width cfg),
        (use_gold_ments cfg), (eval_max_ents cfg); reflexivity. }
    split.
    { destruct (use_topk cfg), (top_span_ratio cfg), (max_span_width cfg),
        (use_gold_ments cfg), (eval_max_ents cfg); reflexivity. }
    split.
    { destruct (use_topk cfg), (top_span_ratio cfg), (max_span_width cfg),
        (use_gold_ments cfg), (eval_max_ents cfg); reflexivity. }
    split.
    { intros key v Hk. apply lookup_union_Some_raw. left. exact Hk. }
    split.
    { intros key Hk. subst supplied_args. rewrite lookup_union, Hk.
      destruct (model_args cfg !! key); reflexivity. }
    repeat split.
  - intros s checkpoint Hck [v Hdev].
    unfold setup_eval, torch_load. rewrite Hck. simpl. rewrite Hdev.
    reflexivity.
Qed.

(** ** The prediction log *)

Lemma evaluate_example_logs (m : Model) thr example (acc acc' : EvalAcc) :
  evaluate_example m thr example acc = Ok acc' ->
  exists clusters m2c line,
    let '(action_list, pred_mentions, _, mention_scores) := infer m example in
    let raw := action_sequences_to_clusters action_list pred_mentions in
    get_mention_to_cluster raw thr = Ok (clusters, m2c) /\
    log_record example pred_mentions mention_scores raw action_list clusters thr
      = Ok line /\
    acc_lines acc' = acc_lines acc ++ [line].
Proof.
  unfold evaluate_example.
  destruct (infer m example) as [[[action_list pred_mentions] gt_actions] mention_scores].
  intros H.
  apply bind_Ok in H. destruct H as ([clusters m2c] & Hp & H).
  apply bind_Ok in H. destruct H as (gold & _ & H).
  apply bind_Ok in H. destruct H as ([gc m2g] & _ & H).
  apply bind_Ok in H. destruct H as (dk & _ & H).
  apply bind_Ok in H. destruct H as (sm & _ & H).
  apply bind_Ok in H. destruct H as (n1 & _ & H).
  apply bind_Ok in H. destruct H as (n2 & _ & H).
  apply bind_Ok in H. destruct H as (n3 & _ & H).
  apply bind_Ok in H. destruct H as ([oc m2o] & _ & H).
  apply bind_Ok in H. destruct H as (line & Hl & H).
  inversion H; subst. simpl.
  exists clusters, m2c, line. repeat split; assumption.
Qed.

Lemma log_record_fields (example : Example) pm ms raw al pc thr line :
  log_record example pm ms raw al pc thr = Ok line ->
  line !! "doc_key" = example !! "doc_key" ≫= logged /\
  line !! "predicted_clusters" = logged pc /\
  line !! "pred_mentions" = logged pm /\
  line !! "mention_scores" = logged ms /\
  line !! "pred_actions" = logged al /\
  line !! "raw_predicted_clusters" =
    (if py_eq thr (IntThr 1)
     then example !! "raw_predicted_clusters" ≫= logged
     else logged raw) /\
  (forall key v, line !! key = Some v -> is_tensor v = false).
Proof.
  intros H. unfold log_record in H. cbv zeta in H.
  apply bind_Ok in H. destruct H as (d & Hdel & H).
  unfold py_del in Hdel.
  match type of Hdel with
  | match ?m !! _ with _ => _ end = _ => set (full := m) in *
  end.
  destruct (full !! "tensorized_sent"); [|discriminate].
  inversion Hdel; subst d; clear Hdel.
  unfold json_dumps in H.
  match type of H with
  | (if ?b then _ else _) = _ => destruct b; [|discriminate]
  end.
  inversion H; subst line; clear H.
  assert (Hget : forall key, key <> "tensorized_sent" ->
            filter (fun kv => ¬ Is_true (is_tensor kv.2))
                   (delete "tensorized_sent" full) !! key
            = full !! key ≫= logged).
  { intros key Hne. rewrite map_lookup_filter, lookup_delete_ne by congruence.
    destruct (full !! key) as [v|]; simpl; [|reflexivity].
    unfold logged. destruct (is_tensor v) eqn:Hv.
    - rewrite option_guard_False; [reflexivity|]. intros Hf. apply Hf. exact I.
    - rewrite option_guard_True; [reflexivity|]. intros []. }
  repeat split.
  - rewrite Hget by discriminate. subst full.
    destruct (negb (py_eq thr (IntThr 1)));
      repeat (rewrite lookup_insert_ne by discriminate); reflexivity.
  - rewrite Hget by discriminate. subst full.
    rewrite lookup_insert_eq. reflexivity.
  - rewrite Hget by discriminate. subst full.
    destruct (negb (py_eq thr (IntThr 1)));
      repeat (rewrite lookup_insert_ne by discriminate);
      rewrite lookup_insert_eq; reflexivity.
  - rewrite Hget by discriminate. subst full.
    destruct (negb (py_eq thr (IntThr 1)));
      repeat (rewrite lookup_insert_ne by discriminate);
      rewrite lookup_insert_eq; reflexivity.
  - rewrite Hget by discriminate. subst full.
    rewrite lookup_insert_ne by discriminate.
    rewrite lookup_insert_eq. reflexivity.
  - rewrite Hget by discriminate. subst full.
    destruct (py_eq thr (IntThr 1)); simpl.
    + repeat (rewrite lookup_insert_ne by discriminate). reflexivity.
    + repeat (rewrite lookup_insert_ne by discriminate).
      rewrite lookup_insert_eq. reflexivity.
  - intros key v Hk. apply map_lookup_filter_Some in Hk.
    destruct Hk as [_ Hk]. simpl in Hk.
    destruct (is_tensor v); [exfalso; apply Hk; exact I|reflexivity].
Qed.

Lemma evaluate_example_logged (m : Model) thr example (acc acc' : EvalAcc) :
  evaluate_example m thr example acc = Ok acc' ->
  exists line,
    acc_lines acc' = acc_lines acc ++ [line] /\
    logged_line m thr example line.
Proof.
  unfold evaluate_example, logged_line.
  destruct (infer m example) as [[[action_list pred_mentions] gt_actions] mention_scores].
  intros H.
  apply bind_Ok in H. destruct H as ([clusters m2c] & Hp & H).
  apply bind_Ok in H. destruct H as (gold & _ & H).
  apply bind_Ok in H. destruct H as ([gc m2g] & _ & H).
  apply bind_Ok in H. destruct H as (dk & Hdk & H).
  apply bind_Ok in H. destruct H as (sm & _ & H).
  apply bind_Ok in H. destruct H as (n1 & _ & H).
  apply bind_Ok in H. destruct H as (n2 & _ & H).
  apply bind_Ok in H. destruct H as (n3 & _ & H).
  apply bind_Ok in H. destruct H as ([oc m2o] & _ & H).
  apply bind_Ok in H. destruct H as (line & Hl & H).
  inversion H; subst. simpl.
  exists line. split; [reflexivity|].
  exists clusters, m2c, dk.
  unfold getitem in Hdk.
  destruct (example !! "doc_key") as [v|] eqn:Ev; inversion Hdk; subst v.
  apply log_record_fields in Hl.
  destruct Hl as (H1 & H2 & H3 & H4 & H5 & H6 & H7).
  rewrite Ev in H1. simpl in H1.
  split; [exact Hp|]. split; [reflexivity|].
  repeat (split; [assumption|]). exact H7.
Qed.

Lemma evaluate_examples_logged (m : Model) thr examples (acc acc' : EvalAcc) :
  evaluate_examples m thr examples acc = Ok acc' ->
  exists lines,
    acc_lines acc' = acc_lines acc ++ lines /\
    Forall2 (logged_line m thr) examples lines.
Proof.
  revert acc. induction examples as [|ex rest IH]; intros acc; simpl.
  - intros H. inversion H; subst. exists []. rewrite app_nil_r.
    split; [reflexivity|constructor].
  - intros H. apply bind_Ok in H. destruct H as (acc1 & H1 & H).
    apply IH in H. destruct H as (lines & Hl & Hf).
    apply evaluate_example_logged in H1. destruct H1 as (line & Hacc & Hline).
    exists (line :: lines). split.
    + rewrite Hl, Hacc, <- app_assoc. reflexivity.
    + constructor; assumption.
Qed.

(** C9.  An evaluation that returns has written the log of its dataset
    and split with one line per evaluated document, in order, and the
    line of a document holds its identifier, the predicted clusters, the
    predicted mentions, the mention scores and the predicted action
    sequence, as the model in evaluation mode returned them (a value that
    is a tensor is left out); it holds the raw predicted clusters when the
    cluster threshold is not 1, and when it is 1 only what the example
    itself has under that name; and none of its fields is a tensor. *)
Theorem prediction_log_line pe cfg split final thr dataset (s s' : Exp)
    result_dict :
  evaluate_model pe cfg split final thr dataset s = Ok (s', result_dict) ->
  exists by_dataset examples lines,
    data_iter_map cfg !! split = Some by_dataset /\
    assoc dataset by_dataset = Some examples /\
    log_files s' !! path_join (path_join (model_dir cfg) dataset)
                              (split +:+ ".log.jsonl") = Some lines /\
    Forall2 (logged_line (set_training false (model s)) thr) examples lines.
Proof.
  rewrite evaluate_model_unfold. cbv zeta. intros H.
  apply bind_Ok in H. destruct H as (acc & Hacc & H).
  apply conll_report_frame in H. destruct H as (_ & _ & Hl & _).
  simpl in Hl.
  unfold evaluation_acc in Hacc.
  apply bind_Ok in Hacc. destruct Hacc as (by_dataset & Hd & Hacc).
  apply bind_Ok in Hacc. destruct Hacc as (examples & He & Hacc).
  apply evaluate_examples_logged in Hacc. destruct Hacc as (lines & Hlines & Hf).
  simpl in Hlines. subst lines.
  exists by_dataset, examples, (acc_lines acc).
  unfold getitem in Hd.
  destruct (data_iter_map cfg !! split) as [bd|]; inversion Hd; subst bd.
  destruct (assoc dataset by_dataset) as [ex|]; inversion He; subst ex.
  split; [reflexivity|]. split; [reflexivity|].
  rewrite Hl. split; [apply lookup_insert_eq|exact Hf].
Qed.

(** ** The external scorer *)

(** C1, what the code does instead.  Every caller passes an entry of the
    threshold table, an integer, as [cluster_threshold].  [evaluate_model]
    compares it with the table itself, so [use_conll] is false: whatever
    is configured and present on disk, and in final evaluation too, the
    scorer is not called and the returned record is the internally
    computed one. *)
Theorem integer_threshold_bypasses_the_scorer pe cfg split final z dataset
    (s s' : Exp) result_dict :
  evaluate_model pe cfg split final (IntThr z) dataset s = Ok (s', result_dict) ->
  internal_metrics cfg split (IntThr z) dataset (model s) = Ok result_dict /\
  new_calls s s' = [EvaluateModel split dataset (IntThr z) final].
Proof.
  intros H. apply evaluate_model_integer in H.
  destruct H as (Hint & _ & _ & Hc).
  split; [exact Hint|]. apply new_calls_app. exact Hc.
Qed.


(** The handler is for [AttributeError] alone: given the threshold table
    itself as threshold, which no caller passes, the scorer is reached and
    an exception of any other class leaves the [try]. *)
Lemma scorer_other_error_propagates pe cfg split thr dataset
    (s : Exp) result_dict e :
  internal_metrics cfg split thr dataset (model s) = Ok result_dict ->
  conll_paths_exist pe cfg dataset = Ok true ->
  py_eq thr (DictThr (canonical_cluster_threshold cfg)) = true ->
  e <> AttributeError ->
  (forall scorer gold predictions subtoken_maps prediction_file,
     evaluate_conll scorer gold predictions subtoken_maps prediction_file
       = Raise e) ->
  evaluate_model pe cfg split true thr dataset s = Raise e.
Proof.
  intros Hint Hpaths Hthr Hne Hfail.
  rewrite evaluate_model_unfold. cbv zeta.
  unfold internal_metrics in Hint.
  apply bind_Ok in Hint. destruct Hint as (acc & Hacc & Hint).
  rewrite Hacc. simpl.
  unfold conll_report. cbv zeta. rewrite Hpaths, Hthr. simpl.
  unfold conll_paths_exist in Hpaths. unfold conll_try_body.
  destruct (conll_scorer cfg) as [scorer|]; [|discriminate].
  destruct (conll_data_dir cfg) as [data_dir|]; [|discriminate].
  destruct (pe scorer); [|discriminate].
  destruct (getitem data_dir dataset) as [d|e']; [|discriminate].
  rewrite Hfail. simpl. destruct e; congruence.
Qed.

End Properties.

(** * The properties on the scalar instance *)

Section Runs.
Import Scalar.
#[local] Existing Instance q_float_ops.
#[local] Existing Instance q_torch.
#[local] Existing Instance answering.
#[local] Existing Instance all_directories.

(** C3 on a document without gold clusters. *)
Lemma absent_loss_skips_the_update_witness :
  forward_training (model start) doc0 = None /\
  exists s',
    handle_example cfg doc0 start = Ok (s', None) /\
    global_steps (train_info s') = global_steps (train_info start) + 1 /\
    model s' = model start /\
    optimizer s' = optimizer start /\
    optim_scheduler s' = optim_scheduler start /\
    scaler s' = scaler start /\
    new_calls start s' = map ZeroGrad (map fst (optimizer start))
                           ++ [ForwardTraining doc0].
Proof.
  assert (H : forward_training (model start) doc0 = None) by reflexivity.
  split; [exact H|].
  exact (absent_loss_skips_the_update cfg doc0 start H).
Defined.

(** C5 on a document with a gold cluster. *)
Lemma groups_clipped_separately_with_shared_norm_witness :
  exists s',
    handle_example cfg doc1 start = Ok (s', Some (1 # 2)%Q) /\
    exists total_loss,
      forward_training (model start) doc1 = Some total_loss /\
      let pre := before_clip doc1 total_loss start in
      grads s' doc = clip_grad_norm_ (max_gradient_norm cfg) (grads pre doc) /\
      grads s' mem = clip_grad_norm_ (max_gradient_norm cfg) (grads pre mem) /\
      List.filter is_clip_call (new_calls start s') =
        [ClipGradNorm doc (max_gradient_norm cfg);
         ClipGradNorm mem (max_gradient_norm cfg)].
Proof.
  destruct (is_ok_Ok (handle_example cfg doc1 start)) as [[s' l] E];
    [vm_compute; reflexivity|].
  assert (l = Some (1 # 2)%Q) as ->
    by (rewrite (handle_example_loss _ _ _ _ _ E); reflexivity).
  exists s'. split; [exact E|].
  exact (groups_clipped_separately_with_shared_norm cfg doc1 start s' _ E).
Defined.

(** The claim of C5 fails: the two clipping calls take their norm from the
    same configuration entry, so no configuration gives the encoder group
    and the task group norms of their own. *)
Lemma one_norm_for_both_groups : ~ own_norm_per_group.
Proof.
  intros (enc_norm & task_norm & (c & Hne) & H).
  destruct (is_ok_Ok (handle_example c doc1 start)) as [[s' l] E];
    [vm_compute; reflexivity|].
  assert (l = Some (1 # 2)%Q) as ->
    by (rewrite (handle_example_loss _ _ _ _ _ E); reflexivity).
  pose proof (H c doc1 start s' _ E) as H1.
  rewrite (handle_example_clip_calls c doc1 start s' _ E) in H1.
  inversion H1. apply Hne. congruence.
Qed.

(** C10 on a document without gold clusters, at the tenth step. *)
Lemma absent_loss_breaks_the_progress_record_witness :
  forward_training (model later) doc0 = None /\
  update_frequency cfg <> 0 /\
  (global_steps (train_info later) + 1) mod update_frequency cfg = 0 /\
  train_example all_paths_exist cfg doc0 later = Raise TypeError.
Proof.
  assert (H1 : forward_training (model later) doc0 = None) by reflexivity.
  assert (H2 : update_frequency cfg <> 0) by discriminate.
  assert (H3 : (global_steps (train_info later) + 1) mod update_frequency cfg = 0)
    by reflexivity.
  split; [exact H1|]. split; [exact H2|]. split; [exact H3|].
  rewrite (absent_loss_breaks_the_progress_record all_paths_exist cfg doc0 later
             H1 H2 H3).
  reflexivity.
Defined.

(** C2 on a plateau with two steps of budget left: the dev score does not
    improve at the first evaluation, the patience of one is exhausted and
    [train] returns there, within its first pass. *)
Lemma early_stopping_witness :
  eval_per_k_steps cfg <> 0 /\
  0 <= num_stuck_evals (train_info plateau) < patience cfg /\
  global_steps (train_info plateau) < num_training_steps cfg /\
  (forall (rng : NumpyRng) (l : list Example),
     length (np_shuffle Example rng l).2 = length l) /\
  data_iter_map cfg !! "train" = Some [("litbank", [doc1; doc0])] /\
  concat (map snd [("litbank", [doc1; doc0])]) <> [] /\
  (forall n, num_train_docs cfg = Some n -> 0 <= n) /\
  num_training_steps cfg - global_steps (train_info plateau) <= Z.of_nat 2 /\
  exists s',
    train all_paths_exist 2 cfg plateau = Ok (Some s') /\
    (num_stuck_evals (train_info s') = patience cfg
     \/ global_steps (train_info s') = num_training_steps cfg) /\
    exists s1 f,
      periodic_model_eval all_paths_exist cfg s1 = Ok (s', f) /\
      num_stuck_evals (train_info s1) < patience cfg /\
      global_steps (train_info s1) <= num_training_steps cfg.
Proof.
  assert (H1 : eval_per_k_steps cfg <> 0) by discriminate.
  assert (H2 : 0 <= num_stuck_evals (train_info plateau) < patience cfg)
    by (vm_compute; split; [discriminate|reflexivity]).
  assert (H3 : global_steps (train_info plateau) < num_training_steps cfg)
    by reflexivity.
  assert (H4 : forall (rng : NumpyRng) (l : list Example),
                 length (np_shuffle Example rng l).2 = length l)
    by (intros rng l; reflexivity).
  assert (H5 : data_iter_map cfg !! "train" = Some [("litbank", [doc1; doc0])])
    by reflexivity.
  assert (H6 : concat (map snd [("litbank", [doc1; doc0])]) <> [])
    by discriminate.
  assert (H7 : forall n, num_train_docs cfg = Some n -> 0 <= n)
    by (intros n Hn; discriminate Hn).
  assert (H8 : num_training_steps cfg - global_steps (train_info plateau)
               <= Z.of_nat 2) by (vm_compute; discriminate).
  split; [exact H1|]. split; [exact H2|]. split; [exact H3|].
  split; [exact H4|]. split; [exact H5|]. split; [exact H6|].
  split; [exact H7|]. split; [exact H8|].
  destruct (early_stopping all_paths_exist cfg) as (_ & _ & Hstop & Hfuel).
  destruct (is_ok_Ok (train all_paths_exist 2 cfg plateau)) as [[s'|] E];
    [vm_compute; reflexivity| |].
  - exists s'. split; [exact E|].
    exact (Hstop 2%nat plateau s' H1 H2 H3 E).
  - exfalso.
    exact (Hfuel 2%nat plateau _ H1 H2 H3 H4 H5 H6 H7 H8 E).
Defined.


(** C6 on a "last" save at the start, without fine-tuning, in a file
    system that has the directory: the payload has the state of [mem]
    and nothing of the encoder. *)
Lemma save_model_payload_witness :
  ("last" <> "best" ->
   is_Some (assoc mem (optimizer start)) /\
   is_Some (assoc mem (optim_scheduler start)) /\
   (fine_tune_lr cfg <> None ->
    is_Some (assoc doc (optimizer start)) /\
    is_Some (assoc doc (optim_scheduler start)))) /\
  exists ck,
    save_model cfg (model_path cfg) "last" start =
      Ok (emit (TorchSave (model_path cfg) ck)
               (set_disk (<[model_path cfg := ck]> (disk start)) start)) /\
    ck_train_info ck = train_info start /\
    ck_scaler ck = Some (scaler start) /\
    ck_rng_state ck = rng_state start /\
    ck_np_rng_state ck = np_rng_state start /\
    ck_model_args ck = model_args cfg /\
    ck_model ck !! "lm_encoder.w" = None /\
    ck_model ck !! "mem.w" = Some 2%Q /\
    map fst (ck_optimizer ck) = [mem] /\
    map fst (ck_scheduler ck) = [mem] /\
    assoc mem (ck_optimizer ck) = Some 0 /\
    assoc mem (ck_scheduler ck) = Some 0.
Proof.
  assert (H : "last" <> "best" ->
              is_Some (assoc mem (optimizer start)) /\
              is_Some (assoc mem (optim_scheduler start)) /\
              (fine_tune_lr cfg <> None ->
               is_Some (assoc doc (optimizer start)) /\
               is_Some (assoc doc (optim_scheduler start)))).
  { intros _. split; [eexists; reflexivity|]. split; [eexists; reflexivity|].
    intros Hft. exfalso. apply Hft. reflexivity. }
  split; [exact H|].
  destruct (save_model_payload cfg (model_path cfg) "last" start H)
    as (ck & E & Hti & Hsc & Hr & Hn & Ha & Hw & _ & Hlast).
  assert (Hne : "last" <> "best") by discriminate.
  destruct (Hlast Hne) as (Ko & Ks & Hg).
  destruct (Hg mem) as [Ho Hs]; [left|].
  exists ck. split; [exact E|].
  split; [exact Hti|]. split; [exact Hsc|]. split; [exact Hr|].
  split; [exact Hn|]. split; [exact Ha|].
  split; [rewrite Hw; reflexivity|]. split; [rewrite Hw; reflexivity|].
  split; [exact Ko|]. split; [exact Ks|].
  split; [rewrite Ho; reflexivity|rewrite Hs; reflexivity].
Defined.

(** C4 on the "best" slot of an earlier run. *)
Lemma best_checkpoint_loads_witness :
  disk with_best !! best_model_path cfg = Some earlier_best /\
  (ck_model_args earlier_best ∪ model_args cfg) !! "device" = None /\
  dom (ck_model earlier_best) =
    dom (state_dict (pick_controller (ck_model_args earlier_best ∪ model_args cfg))) /\
  (exists s',
     load_model (best_model_path cfg) "best" with_best = Ok s' /\
     (forall key,
        state_dict (model s') !! key =
          match state_dict (model with_best) !! key with
          | Some t => Some (default t (ck_model earlier_best !! key))
          | None => None
          end) /\
     set_state_dict (state_dict (model with_best)) (model s') = model with_best /\
     optimizer s' = optimizer with_best /\
     optim_scheduler s' = optim_scheduler with_best /\
     scaler s' = scaler with_best /\
     train_info s' = ck_train_info earlier_best /\
     rng_state s' = ck_rng_state earlier_best /\
     np_rng_state s' = ck_np_rng_state earlier_best) /\
  (let supplied_args := ck_model_args earlier_best ∪ model_args cfg in
   let built := pick_controller supplied_args in
   exists s',
     setup_eval cfg with_best = Ok s' /\
     state_dict (model s') = ck_model earlier_best /\
     model_max_ents (model s') =
       default (model_max_ents built) (eval_max_ents cfg) /\
     model_use_gold_ments (model s') =
       default (model_use_gold_ments built) (use_gold_ments cfg) /\
     model_max_span_width (model s') =
       default (model_max_span_width built) (max_span_width cfg) /\
     model_top_span_ratio (model s') =
       default (model_top_span_ratio built) (top_span_ratio cfg) /\
     model_use_topk (model s') =
       (if use_topk cfg then true else model_use_topk built) /\
     (forall key v, ck_model_args earlier_best !! key = Some v ->
        supplied_args !! key = Some v) /\
     (forall key, ck_model_args earlier_best !! key = None ->
        supplied_args !! key = model_args cfg !! key) /\
     train_info s' = train_info with_best /\
     optimizer s' = optimizer with_best /\
     optim_scheduler s' = optim_scheduler with_best /\
     scaler s' = scaler with_best).
Proof.
  assert (H1 : disk with_best !! best_model_path cfg = Some earlier_best)
    by reflexivity.
  assert (H2 : (ck_model_args earlier_best ∪ model_args cfg) !! "device" = None)
    by reflexivity.
  assert (H3 : dom (ck_model earlier_best) =
               dom (state_dict (pick_controller
                      (ck_model_args earlier_best ∪ model_args cfg))))
    by reflexivity.
  split; [exact H1|]. split; [exact H2|]. split; [exact H3|].
  destruct (best_checkpoint_loads cfg) as (Hload & Hsetup & _).
  split.
  - exact (Hload _ with_best earlier_best H1).
  - exact (Hsetup with_best earlier_best H1 H2 H3).
Defined.

(** The claim of C4 fails for [load_model]: loading the "best" slot
    replaces [train_info] and both random states. *)
Lemma best_load_overwrites_progress_and_random_state :
  exists s',
    load_model (best_model_path cfg) "best" with_best = Ok s' /\
    train_info s' <> train_info with_best /\
    rng_state s' <> rng_state with_best /\
    np_rng_state s' <> np_rng_state with_best.
Proof.
  destruct (load_model_best (best_model_path cfg) with_best earlier_best eq_refl)
    as (s' & E & _ & _ & _ & _ & _ & Hti & Hr & Hn).
  exists s'. split; [exact E|].
  rewrite Hti, Hr, Hn. repeat split; discriminate.
Qed.

(** C9 on a dev evaluation of litbank under threshold 2: the log has the
    line of [doc1], with its identifier and the raw clusters. *)
Lemma prediction_log_line_witness :
  exists s' result_dict,
    evaluate_model all_paths_exist cfg "dev" false (IntThr 2) "litbank" start
      = Ok (s', result_dict) /\
    exists lines,
      log_files s' !! "models/run/litbank/dev.log.jsonl" = Some lines /\
      Forall2 (logged_line (set_training false (model start)) (IntThr 2))
              [doc1] lines.
Proof.
  destruct (is_ok_Ok (evaluate_model all_paths_exist cfg "dev" false (IntThr 2)
                                     "litbank" start)) as [[s' rd] E];
    [vm_compute; reflexivity|].
  exists s', rd. split; [exact E|].
  destruct (prediction_log_line all_paths_exist cfg "dev" false (IntThr 2)
              "litbank" start s' rd E)
    as (by_dataset & examples & lines & Hd & He & Hl & Hf).
  assert (Hbd : by_dataset = [("litbank", [doc1])]).
  { assert (Hd' : data_iter_map cfg !! "dev" = Some [("litbank", [doc1])])
      by reflexivity.
    rewrite Hd in Hd'. inversion Hd'. reflexivity. }
  subst by_dataset.
  assert (Hex : examples = [doc1]).
  { assert (He' : assoc "litbank" [("litbank", [doc1])] = Some [doc1])
      by reflexivity.
    rewrite He in He'. inversion He'. reflexivity. }
  subst examples.
  exists lines. split; [exact Hl|exact Hf].
Defined.

(** C1 at the final evaluation of litbank: the threshold is the canonical
    one, the scorer and the annotations are configured and exist, the
    scorer would answer with an average of 40, and the record returned is
    the internal one, with 100. *)
Lemma integer_threshold_bypasses_the_scorer_witness :
  canonical_cluster_threshold cfg !! "litbank" = Some 1 /\
  conll_paths_exist all_paths_exist cfg "litbank" = Ok true /\
  exists s' result_dict,
    evaluate_model all_paths_exist cfg "test" true (IntThr 1) "litbank" start
      = Ok (s', result_dict) /\
    internal_metrics cfg "test" (IntThr 1) "litbank" (model start)
      = Ok result_dict /\
    new_calls start s' = [EvaluateModel "test" "litbank" (IntThr 1) true] /\
    fscore result_dict = 100%Q.
Proof.
  split; [reflexivity|]. split; [reflexivity|].
  destruct (is_ok_Ok (evaluate_model all_paths_exist cfg "test" true (IntThr 1)
                                     "litbank" start)) as [[s' rd] E];
    [vm_compute; reflexivity|].
  exists s', rd. split; [exact E|].
  destruct (integer_threshold_bypasses_the_scorer
              all_paths_exist cfg "test" true 1 "litbank" start s' rd E)
    as [Hint Hcalls].
  split; [exact Hint|]. split; [exact Hcalls|].
  assert (Hf : match internal_metrics cfg "test" (IntThr 1) "litbank" (model start)
               with Ok r => fscore r | Raise _ => 0%Q end = 100%Q)
    by (vm_compute; reflexivity).
  rewrite Hint in Hf. exact Hf.
Defined.


(** Given the threshold table itself as threshold, on a split without
    documents, the scorer is reached; one that cannot be run raises
    [OSError], which the handler does not catch. *)
Lemma scorer_os_error_leaves_the_handler :
  (forall scorer gold predictions subtoken_maps prediction_file,
     evaluate_conll (Collaborators:=unreachable)
       scorer gold predictions subtoken_maps prediction_file = Raise OSError) /\
  is_ok (internal_metrics (collaborators:=unreachable) cfg "test"
           (DictThr thresholds) "litbank" (model start)) = true /\
  evaluate_model (collaborators:=unreachable) all_paths_exist cfg "test" true
    (DictThr thresholds) "litbank" start = Raise OSError.
Proof.
  split; [reflexivity|]. split; [vm_compute; reflexivity|].
  destruct (is_ok_Ok (internal_metrics (collaborators:=unreachable) cfg "test"
                        (DictThr thresholds) "litbank" (model start)))
    as [rd E]; [vm_compute; reflexivity|].
  apply (scorer_other_error_propagates (collaborators:=unreachable)
           all_paths_exist cfg "test" (DictThr thresholds) "litbank" start rd).
  - exact E.
  - reflexivity.
  - vm_compute. reflexivity.
  - discriminate.
  - reflexivity.
Qed.

End Runs.

(** * Further properties of the controller *)

(** ** Saving and loading *)

Section Checkpoints.
Context {F : Type} {float_ops : PyFloatOps F} {torch : TorchLib F}
        {collaborators : Collaborators} {directories : Directories}.

Lemma assoc_set_lookup_eq {K V} `{EqDecision K} (key : K) (v : V) d :
  assoc key (assoc_set key v d) = Some v.
Proof.
  induction d as [|[k w] d IH]; simpl.
  - destruct (decide (key = key)); [reflexivity|congruence].
  - destruct (decide (k = key)) as [->|Hne]; simpl.
    + destruct (decide (key = key)); [reflexivity|congruence].
    + destruct (decide (k = key)); [congruence|exact IH].
Qed.

Lemma assoc_set_lookup_ne {K V} `{EqDecision K} (key key' : K) (v : V) d :
  key <> key' -> assoc key' (assoc_set key v d) = assoc key' d.
Proof.
  intros Hne. induction d as [|[k w] d IH]; simpl.
  - destruct (decide (key = key')); [congruence|reflexivity].
  - destruct (decide (k = key)) as [->|Hk]; simpl.
    + destruct (decide (key = key')); [congruence|reflexivity].
    + destruct (decide (k = key')); [reflexivity|exact IH].
Qed.

Lemma assoc_set_same {K V} `{EqDecision K} (key : K) (v : V) d :
  assoc key d = Some v -> assoc_set key v d = d.
Proof.
  induction d as [|[k w] d IH]; simpl; [discriminate|].
  destruct (decide (k = key)) as [->|Hk].
  - intros [= ->]. reflexivity.
  - intros H. rewrite (IH H). reflexivity.
Qed.

Lemma assoc_set_keys {K V} `{EqDecision K} (key : K) (v : V) d :
  is_Some (assoc key d) -> map fst (assoc_set key v d) = map fst d.
Proof.
  induction d as [|[k w] d IH]; simpl; [intros [? [=]]|].
  destruct (decide (k = key)) as [->|Hk]; simpl; [reflexivity|].
  intros H. rewrite (IH H). reflexivity.
Qed.

Lemma assoc_Some_keys {K V} `{EqDecision K} (key : K) (d : list (K * V)) :
  is_Some (assoc key d) <-> key ∈ map fst d.
Proof.
  induction d as [|[k w] d IH]; simpl.
  - split; [intros [? [=]]|intros H; inversion H].
  - destruct (decide (k = key)) as [->|Hk].
    + split; [intros _; left|eauto].
    + rewrite IH. split; [intros H; right; exact H|].
      intros H. inversion H; subst; [congruence|assumption].
Qed.

(** What the loop of [load_model] over the groups of a checkpoint does. *)
Lemma load_groups_spec groups checkpoint (s s' : Exp) :
  load_groups groups checkpoint s = Ok s' ->
  train_info s' = train_info s /\ model s' = model s /\ grads s' = grads s /\
  scaler s' = scaler s /\ rng_state s' = rng_state s /\
  np_rng_state s' = np_rng_state s /\ disk s' = disk s /\
  log_files s' = log_files s /\ calls s' = calls s /\
  map fst (optimizer s') = map fst (optimizer s) /\
  map fst (optim_scheduler s') = map fst (optim_scheduler s) /\
  (forall g, assoc g (optimizer s') =
             if decide (g ∈ groups) then assoc g (ck_optimizer checkpoint)
             else assoc g (optimizer s)) /\
  (forall g, assoc g (optim_scheduler s') =
             if decide (g ∈ groups) then assoc g (ck_scheduler checkpoint)
             else assoc g (optim_scheduler s)).
Proof.
  revert s. induction groups as [|pg rest IH]; intros s; simpl.
  - intros [= <-]. repeat split; intros g; reflexivity.
  - intros H.
    apply bind_Ok in H. destruct H as (o0 & Ho0 & H).
    apply bind_Ok in H. destruct H as (o & Ho & H).
    apply bind_Ok in H. destruct H as (c0 & Hc0 & H).
    apply bind_Ok in H. destruct H as (c & Hc & H).
    apply IH in H. simpl in H.
    destruct H as (? & ? & ? & ? & ? & ? & ? & ? & ? & Hko & Hks & Hopt & Hsch).
    unfold getgroup in *.
    destruct (assoc pg (optimizer s)) as [x|] eqn:E1; [|discriminate].
    destruct (assoc pg (ck_optimizer checkpoint)) as [y|] eqn:E2;
      inversion Ho; subst y; clear Ho.
    destruct (assoc pg (optim_scheduler s)) as [z|] eqn:E3; [|discriminate].
    destruct (assoc pg (ck_scheduler checkpoint)) as [w|] eqn:E4;
      inversion Hc; subst w; clear Hc.
    repeat split; try assumption.
    + rewrite Hko. apply assoc_set_keys. rewrite E1. eauto.
    + rewrite Hks. apply assoc_set_keys. rewrite E3. eauto.
    + intros g. rewrite Hopt.
      destruct (decide (g ∈ rest)) as [Hin|Hnin].
      * rewrite decide_True by (right; exact Hin). reflexivity.
      * destruct (decide (pg = g)) as [->|Hne].
        -- rewrite decide_True by left. rewrite assoc_set_lookup_eq. congruence.
        -- rewrite decide_False.
           ++ apply assoc_set_lookup_ne. exact Hne.
           ++ intros Hin. inversion Hin; subst; congruence.
    + intros g. rewrite Hsch.
      destruct (decide (g ∈ rest)) as [Hin|Hnin].
      * rewrite decide_True by (right; exact Hin). reflexivity.
      * destruct (decide (pg = g)) as [->|Hne].
        -- rewrite decide_True by left. rewrite assoc_set_lookup_eq. congruence.
        -- rewrite decide_False.
           ++ apply assoc_set_lookup_ne. exact Hne.
           ++ intros Hin. inversion Hin; subst; congruence.
Qed.

(** X1.  A load of any type but "best" that returns has restored
    [train_info], both random states, the scaler state when the checkpoint
    has one, and for every group of the checkpoint the optimizer and the
    scheduler state stored for it; groups the checkpoint lacks keep their
    states, the set of groups does not change, and a weight takes the
    stored tensor when there is one and keeps its value otherwise. *)
Theorem resumable_load_restores location model_type (s s' : Exp) checkpoint :
  model_type <> "best" ->
  disk s !! location = Some checkpoint ->
  load_model location model_type s = Ok s' ->
  train_info s' = ck_train_info checkpoint /\
  rng_state s' = ck_rng_state checkpoint /\
  np_rng_state s' = ck_np_rng_state checkpoint /\
  scaler s' = default (scaler s) (ck_scaler checkpoint) /\
  map fst (optimizer s') = map fst (optimizer s) /\
  map fst (optim_scheduler s') = map fst (optim_scheduler s) /\
  (forall g, assoc g (optimizer s') =
     if decide (g ∈ map fst (ck_optimizer checkpoint))
     then assoc g (ck_optimizer checkpoint) else assoc g (optimizer s)) /\
  (forall g, assoc g (optim_scheduler s') =
     if decide (g ∈ map fst (ck_optimizer checkpoint))
     then assoc g (ck_scheduler checkpoint) else assoc g (optim_scheduler s)) /\
  (forall key,
     state_dict (model s') !! key =
       match state_dict (model s) !! key with
       | Some t => Some (default t (ck_model checkpoint !! key))
       | None => None
       end) /\
  disk s' = disk s.
Proof.
  intros Hmt Hck. unfold load_model, torch_load. rewrite Hck. simpl.
  rewrite bool_decide_eq_false_2 by exact Hmt. simpl.
  intros H. apply bind_Ok in H. destruct H as (s1 & H1 & H).
  apply bind_Ok in H1. destruct H1 as (s0 & H0 & H1).
  apply load_groups_spec in H0. simpl in H0.
  destruct H0 as (Hti & Hm & Hg & Hsc & Hr & Hn & Hd & Hl & Hc & Hko & Hks &
                  Hopt & Hsch).
  inversion H; subst s'; clear H. inversion H1; subst s1; clear H1. simpl.
  assert (Hfields :
    model (match ck_scaler checkpoint with Some sc => set_scaler sc s0 | None => s0 end)
      = model s0 /\
    optimizer (match ck_scaler checkpoint with Some sc => set_scaler sc s0 | None => s0 end)
      = optimizer s0 /\
    optim_scheduler (match ck_scaler checkpoint with Some sc => set_scaler sc s0 | None => s0 end)
      = optim_scheduler s0 /\
    disk (match ck_scaler checkpoint with Some sc => set_scaler sc s0 | None => s0 end)
      = disk s0 /\
    scaler (match ck_scaler checkpoint with Some sc => set_scaler sc s0 | None => s0 end)
      = default (scaler s0) (ck_scaler checkpoint)).
  { destruct (ck_scaler checkpoint); repeat split. }
  destruct Hfields as (Fm & Fo & Fs & Fd & Fsc).
  rewrite Fm, Fo, Fs, Fd, Fsc, Hm, Hsc, Hd.
  repeat split; try assumption.
  intros key. simpl. rewrite lookup_merge.
  destruct (state_dict (model s) !! key), (ck_model checkpoint !! key);
    reflexivity.
Qed.

Lemma load_groups_missing groups checkpoint (s : Exp) g :
  g ∈ groups -> assoc g (optimizer s) = None ->
  is_ok (load_groups groups checkpoint s) = false.
Proof.
  revert s. induction groups as [|pg rest IH]; intros s Hin Hnone.
  - inversion Hin.
  - simpl.
    destruct (getgroup (optimizer s) pg) as [x|] eqn:E1; [|reflexivity].
    simpl. destruct (getgroup (ck_optimizer checkpoint) pg) as [o|]; [|reflexivity].
    simpl. destruct (getgroup (optim_scheduler s) pg) as [c0|]; [|reflexivity].
    simpl. destruct (getgroup (ck_scheduler checkpoint) pg) as [c|]; [|reflexivity].
    simpl.
    assert (Hne : pg <> g).
    { intros ->. unfold getgroup in E1. rewrite Hnone in E1. discriminate. }
    apply IH.
    + inversion Hin; subst; [congruence|assumption].
    + simpl. rewrite assoc_set_lookup_ne; [exact Hnone|exact Hne].
Qed.

(** X2.  A load of any type but "best" raises when the checkpoint stores
    an optimizer group the experiment does not have (a checkpoint of a
    fine-tuning run loaded without fine-tuning). *)
Theorem resumable_load_needs_every_group location model_type (s : Exp)
    checkpoint g :
  model_type <> "best" ->
  disk s !! location = Some checkpoint ->
  g ∈ map fst (ck_optimizer checkpoint) ->
  assoc g (optimizer s) = None ->
  is_ok (load_model location model_type s) = false.
Proof.
  intros Hmt Hck Hin Hnone. unfold load_model, torch_load. rewrite Hck. simpl.
  rewrite bool_decide_eq_false_2 by exact Hmt. simpl.
  pose proof (load_groups_missing (map fst (ck_optimizer checkpoint)) checkpoint
                (set_model (load_state_dict_lenient (ck_model checkpoint) (model s)) s)
                g Hin Hnone) as H.
  destruct (load_groups _ checkpoint _); [discriminate|reflexivity].
Qed.

Lemma set_same_fields (s : Exp) :
  set_model (model s) s = s /\ set_optimizer (optimizer s) s = s /\
  set_optim_scheduler (optim_scheduler s) s = s /\
  set_scaler (scaler s) s = s /\ set_train_info (train_info s) s = s /\
  set_rng_state (rng_state s) s = s /\ set_np_rng_state (np_rng_state s) s = s.
Proof. destruct s; repeat split. Qed.

Lemma load_groups_same groups checkpoint (s : Exp) :
  (forall g, g ∈ groups ->
     is_Some (assoc g (optimizer s)) /\
     assoc g (ck_optimizer checkpoint) = assoc g (optimizer s) /\
     is_Some (assoc g (optim_scheduler s)) /\
     assoc g (ck_scheduler checkpoint) = assoc g (optim_scheduler s)) ->
  load_groups groups checkpoint s = Ok s.
Proof.
  induction groups as [|pg rest IH]; intros H; simpl; [reflexivity|].
  destruct (H pg) as ([o Ho] & Eo & [c Hc] & Ec); [left|].
  unfold getgroup. rewrite Eo, Ho. simpl.
  rewrite (assoc_set_same _ _ _ Ho).
  destruct (set_same_fields s) as (_ & -> & Hs & _).
  rewrite Ec, Hc. simpl.
  rewrite (assoc_set_same _ _ _ Hc), Hs.
  apply IH. intros g Hg. apply H. right. exact Hg.
Qed.

Lemma save_groups_inv groups (s : Exp) acc opt sch :
  save_groups groups s acc = Ok (opt, sch) ->
  (forall g, g ∈ groups ->
     is_Some (assoc g (optimizer s)) /\ is_Some (assoc g (optim_scheduler s))) /\
  (forall g, assoc g opt =
     if decide (g ∈ groups) then assoc g (optimizer s) else assoc g acc.1) /\
  (forall g, assoc g sch =
     if decide (g ∈ groups) then assoc g (optim_scheduler s) else assoc g acc.2).
Proof.
  revert acc. induction groups as [|pg rest IH]; intros acc; simpl.
  - intros H. inversion H; subst. split; [intros g Hg; inversion Hg|].
    split; intros g; reflexivity.
  - intros H.
    apply bind_Ok in H. destruct H as (o & Ho & H).
    apply bind_Ok in H. destruct H as (c & Hc & H).
    apply IH in H. simpl in H. destruct H as (Hsome & Hopt & Hsch).
    unfold getgroup in Ho, Hc.
    destruct (assoc pg (optimizer s)) as [o'|] eqn:E1; inversion Ho; subst o'.
    destruct (assoc pg (optim_scheduler s)) as [c'|] eqn:E2; inversion Hc; subst c'.
    split; [|split].
    + intros g Hg. inversion Hg; subst.
      * rewrite E1, E2. eauto.
      * apply Hsome. assumption.
    + intros g. rewrite Hopt.
      destruct (decide (g ∈ rest)) as [Hin|Hnin].
      * rewrite decide_True by (right; exact Hin). reflexivity.
      * destruct (decide (pg = g)) as [->|Hne].
        -- rewrite decide_True by left. rewrite assoc_set_lookup_eq. congruence.
        -- rewrite decide_False.
           ++ apply assoc_set_lookup_ne. exact Hne.
           ++ intros Hin. inversion Hin; subst; congruence.
    + intros g. rewrite Hsch.
      destruct (decide (g ∈ rest)) as [Hin|Hnin].
      * rewrite decide_True by (right; exact Hin). reflexivity.
      * destruct (decide (pg = g)) as [->|Hne].
        -- rewrite decide_True by left. rewrite assoc_set_lookup_eq. congruence.
        -- rewrite decide_False.
           ++ apply assoc_set_lookup_ne. exact Hne.
           ++ intros Hin. inversion Hin; subst; congruence.
Qed.

Lemma save_model_inv cfg location model_type (s s1 : Exp) :
  save_model cfg location model_type s = Ok s1 ->
  exists ck,
    s1 = emit (TorchSave location ck)
              (set_disk (<[location := ck]> (disk s)) s) /\
    ck_train_info ck = train_info s /\
    ck_scaler ck = Some (scaler s) /\
    ck_rng_state ck = rng_state s /\
    ck_np_rng_state ck = np_rng_state s /\
    ck_model ck =
      (if negb (finetune cfg)
       then filter (fun kv => ¬ Is_true (str_in "lm_encoder." kv.1))
                   (state_dict (model s))
       else state_dict (model s)) /\
    (forall g, g ∈ map fst (ck_optimizer ck) ->
       is_Some (assoc g (optimizer s)) /\
       assoc g (ck_optimizer ck) = assoc g (optimizer s) /\
       is_Some (assoc g (optim_scheduler s)) /\
       assoc g (ck_scheduler ck) = assoc g (optim_scheduler s)).
Proof.
  unfold save_model. cbv zeta. intros H.
  apply bind_Ok in H. destruct H as ([opt sch] & Hg & H).
  simpl in H.
  destruct (parent_directory_exists (calls s) location); [|discriminate].
  inversion H; subst s1; clear H.
  eexists. split; [reflexivity|]. simpl.
  repeat (split; [reflexivity|]).
  intros g Hin.
  destruct (negb (bool_decide (model_type = "best"))).
  - apply save_groups_inv in Hg. simpl in Hg. destruct Hg as (Hsome & Hopt & Hsch).
    apply assoc_Some_keys in Hin. rewrite Hopt in Hin.
    rewrite Hopt, Hsch.
    destruct (decide (g ∈ param_groups cfg)) as [Hg|Hg].
    + destruct (Hsome g Hg) as [H1 H2]. repeat split; assumption.
    + destruct Hin as [? [=]].
  - inversion Hg; subst. inversion Hin.
Qed.

Lemma load_model_fixed location model_type (t : Exp) ck :
  disk t !! location = Some ck ->
  ck_train_info ck = train_info t ->
  ck_scaler ck = Some (scaler t) ->
  ck_rng_state ck = rng_state t ->
  ck_np_rng_state ck = np_rng_state t ->
  load_state_dict_lenient (ck_model ck) (model t) = model t ->
  load_groups (map fst (ck_optimizer ck)) ck t = Ok t ->
  load_model location model_type t = Ok t.
Proof.
  intros Hd Hti Hsc Hr Hn Hm Hg.
  destruct (set_same_fields t) as (Em & _ & _ & Es & Et & Er & En).
  unfold load_model, torch_load. rewrite Hd. simpl.
  rewrite Hm, Em, Hti, Hr, Hn.
  destruct (negb (bool_decide (model_type = "best"))); simpl.
  - rewrite Hg. simpl. rewrite Hsc, Es, Et, Er, En. reflexivity.
  - rewrite Et, Er, En. reflexivity.
Qed.

(** X3.  Loading the checkpoint that [save_model] has just written, under
    either type, leaves the experiment exactly as it is: the weights left
    out of the payload keep their values and every stored state is the
    current one. *)
Theorem save_then_load_changes_nothing cfg location saved_as loaded_as
    (s s1 : Exp) :
  save_model cfg location saved_as s = Ok s1 ->
  load_model location loaded_as s1 = Ok s1.
Proof.
  intros H. apply save_model_inv in H.
  destruct H as (ck & -> & Hti & Hsc & Hr & Hn & Hm & Hgroups).
  apply (load_model_fixed _ _ _ ck); simpl; try assumption.
  - apply lookup_insert_eq.
  - unfold load_state_dict_lenient.
    replace (merge _ (state_dict (model s)) (ck_model ck))
      with (state_dict (model s)); [destruct (model s); reflexivity|].
    apply map_eq. intros key. rewrite lookup_merge, Hm.
    destruct (state_dict (model s) !! key) as [t|] eqn:Hk; simpl.
    + destruct (negb (finetune cfg)).
      * destruct (filter _ (state_dict (model s)) !! key) as [t'|] eqn:Hf; simpl;
          [|reflexivity].
        apply map_lookup_filter_Some in Hf. destruct Hf as [Hf _]. congruence.
      * rewrite Hk. reflexivity.
    + destruct (negb (finetune cfg)).
      * rewrite map_lookup_filter, Hk. reflexivity.
      * rewrite Hk. reflexivity.
  - apply load_groups_same. intros g Hg. exact (Hgroups g Hg).
Qed.

(** X4.  [setup_eval] loads strictly: it raises [RuntimeError] when the
    names of the stored weights are not those of the model it builds.  A
    "best" checkpoint written with fine-tuning off, from a model that has
    an encoder weight, is such a checkpoint for a model built with the same
    weight names.  (An experiment whose arguments have an entry ["device"]
    does not get that far: building the model raises [TypeError].) *)
Theorem frozen_encoder_checkpoint_fails_strict_load cfg (s s1 : Exp) key :
  finetune cfg = false ->
  save_model cfg (best_model_path cfg) "best" s = Ok s1 ->
  is_Some (state_dict (model s) !! key) ->
  str_in "lm_encoder." key = true ->
  dom (state_dict (pick_controller (model_args cfg))) = dom (state_dict (model s)) ->
  setup_eval cfg s1 =
    Raise (match model_args cfg !! "device" with
           | Some _ => TypeError
           | None => RuntimeError
           end).
Proof.
  intros Hft Hsave Hkey Henc Hdom.
  unfold save_model in Hsave. cbv zeta in Hsave. simpl in Hsave.
  destruct (parent_directory_exists (calls s) (best_model_path cfg));
    [|discriminate].
  inversion Hsave; subst s1; clear Hsave.
  unfold setup_eval, torch_load. simpl. rewrite lookup_insert_eq. simpl.
  rewrite Hft. simpl.
  replace (model_args cfg ∪ model_args cfg) with (model_args cfg)
    by (apply map_eq; intros i; rewrite lookup_union;
        destruct (model_args cfg !! i); reflexivity).
  destruct (model_args cfg !! "device"); [reflexivity|]. simpl.
  unfold load_state_dict_strict.
  rewrite bool_decide_eq_false_2; [reflexivity|].
  rewrite Hdom. intros E.
  assert (Hin : key ∈ dom (state_dict (model s))) by (apply elem_of_dom; exact Hkey).
  rewrite <- E in Hin. apply elem_of_dom in Hin. destruct Hin as [t Ht].
  apply map_lookup_filter_Some in Ht. destruct Ht as [_ Ht]. simpl in Ht.
  apply Ht. rewrite Henc. exact I.
Qed.

End Checkpoints.

(** ** Training steps *)

Section Training.
Context {F : Type} {float_ops : PyFloatOps F} {torch : TorchLib F}
        {collaborators : Collaborators} {directories : Directories}.

(** X5.  The calls of a training step with a usable loss, in order: the
    gradients of every optimizer are zeroed, then the forward and the
    backward pass, then the gradients of every optimizer are unscaled, then
    the encoder group and the task group are clipped, then every optimizer
    steps, each followed by its scheduler, and the scaler is updated
    last. *)
Theorem usable_step_call_order cfg example (s s' : Exp) loss :
  handle_example cfg example s = Ok (s', Some loss) ->
  let keys := map fst (optimizer s) in
  new_calls s s' =
    map ZeroGrad keys
    ++ [ForwardTraining example; Backward]
    ++ map Unscale keys
    ++ [ClipGradNorm doc (max_gradient_norm cfg);
        ClipGradNorm mem (max_gradient_norm cfg)]
    ++ flat_map (fun key => [OptimizerStep key; SchedulerStep key]) keys
    ++ [ScalerUpdate].
Proof.
  intros H keys.
  destruct (handle_example_usable cfg example s s' loss H)
    as (total_loss & _ & _ & _ & _ & _ & _ & _ & _ & _ & _ & _ & Hc).
  apply new_calls_app. exact Hc.
Qed.

Lemma step_all_total keys (s : Exp) :
  (forall key, key ∈ keys ->
     is_Some (assoc key (optimizer s)) /\ is_Some (assoc key (optim_scheduler s))) ->
  exists s',
    step_all keys s = Ok s' /\
    map fst (optimizer s') = map fst (optimizer s) /\
    map fst (optim_scheduler s') = map fst (optim_scheduler s).
Proof.
  revert s. induction keys as [|key rest IH]; intros s H; simpl.
  - exists s. repeat split.
  - destruct (H key) as ([o Ho] & [c Hc]); [left|].
    unfold getgroup. rewrite Ho. simpl.
    destruct (scaler_step (scaler s) o (grads s key) (state_dict (model s)))
      as [o1 w] eqn:E1.
    simpl. rewrite Hc. simpl.
    destruct (scheduler_step c o1) as [c1 o2] eqn:E2.
    match goal with
    | |- exists s', step_all rest ?t = _ /\ _ => destruct (IH t) as (s' & E & Ko & Ks)
    end.
    + intros k Hk. simpl.
      destruct (H k) as (So & Ss); [right; exact Hk|].
      split.
      * apply assoc_Some_keys. rewrite !assoc_set_keys.
        -- apply assoc_Some_keys. exact So.
        -- rewrite Ho. eauto.
        -- apply assoc_Some_keys. rewrite assoc_set_keys by (rewrite Ho; eauto).
           apply assoc_Some_keys. rewrite Ho. eauto.
      * apply assoc_Some_keys. rewrite assoc_set_keys by (rewrite Hc; eauto).
        apply assoc_Some_keys. exact Ss.
    + exists s'. split; [exact E|]. rewrite Ko, Ks. simpl.
      rewrite !assoc_set_keys.
      * split; reflexivity.
      * rewrite Hc. eauto.
      * rewrite Ho. eauto.
      * apply assoc_Some_keys. rewrite assoc_set_keys by (rewrite Ho; eauto).
        apply assoc_Some_keys. rewrite Ho. eauto.
Qed.

Lemma handle_example_returns cfg example (s : Exp) :
  (forall key, key ∈ map fst (optimizer s) ->
     is_Some (assoc key (optim_scheduler s))) ->
  exists s' l,
    handle_example cfg example s = Ok (s', l) /\
    map fst (optimizer s') = map fst (optimizer s) /\
    map fst (optim_scheduler s') = map fst (optim_scheduler s).
Proof.
  intros Hs.
  destruct (forward_training (model s) example) as [total_loss|] eqn:Hf.
  - unfold handle_example. cbv zeta.
    set (s1 := set_train_info _ s).
    change (optimizer s1) with (optimizer s).
    destruct (zero_grad_all_frame (map fst (optimizer s)) s1)
      as (_ & Hm & Ho & Hsch & _).
    set (s2 := zero_grad_all (map fst (optimizer s)) s1) in *.
    change (model (emit (ForwardTraining example) s2)) with (model s2).
    rewrite Hm. change (model s1) with (model s). rewrite Hf.
    set (s3 := emit Backward _).
    destruct (unscale_all_frame (map fst (optimizer s)) s3)
      as (_ & _ & Ho' & Hsch' & _).
    set (s4 := unscale_all (map fst (optimizer s)) s3) in *.
    match goal with
    | |- context [step_all _ ?t] =>
        destruct (step_all_total (map fst (optimizer s)) t) as (s5 & E & Ko & Ks)
    end.
    + intros key Hk. simpl. rewrite Ho', Hsch'. subst s3. simpl.
      rewrite Ho, Hsch. subst s1. simpl. split.
      * apply assoc_Some_keys. exact Hk.
      * apply Hs. exact Hk.
    + rewrite E. simpl. eexists _, _. split; [reflexivity|]. simpl.
      rewrite Ko, Ks. simpl. rewrite Ho', Hsch'. subst s3. simpl.
      rewrite Ho, Hsch. split; reflexivity.
  - destruct (handle_example_absent cfg example s Hf)
      as (s' & E & _ & _ & _ & _ & Ho & Hsch & _).
    exists s', None. split; [exact E|]. rewrite Ho, Hsch. split; reflexivity.
Qed.

(** X6.  When every optimizer has a scheduler under the same key,
    [handle_example] returns on every example, with the loss value of the
    forward pass, and leaves the keys of both dictionaries as they
    were. *)
Theorem step_returns_when_schedulers_match cfg example (s : Exp) :
  (forall key, key ∈ map fst (optimizer s) ->
     is_Some (assoc key (optim_scheduler s))) ->
  exists s',
    handle_example cfg example s
      = Ok (s', item <$> forward_training (model s) example) /\
    map fst (optimizer s') = map fst (optimizer s) /\
    map fst (optim_scheduler s') = map fst (optim_scheduler s).
Proof.
  intros Hs.
  destruct (handle_example_returns cfg example s Hs) as (s' & l & E & Ko & Ks).
  exists s'. split; [|split; assumption].
  rewrite E. f_equal. f_equal.
  exact (handle_example_loss cfg example s s' l E).
Qed.

(** X7.  Once [setup_training] has found that training is required, and
    with a stuck counter that is not negative, a pass of the training loop
    over at least as many examples as the step budget has left returns,
    unless an example raises: with the patience or the budget
    exhausted, and after at most that many steps. *)
Theorem training_returns_within_budget pe cfg train_data (s : Exp) o :
  training_required cfg s = Ok true ->
  0 <= num_stuck_evals (train_info s) ->
  num_training_steps cfg - global_steps (train_info s)
    <= Z.of_nat (length train_data) ->
  train_examples pe cfg train_data s = Ok o ->
  exists s',
    o = Return s' /\
    (num_stuck_evals (train_info s') = patience cfg
     \/ global_steps (train_info s') = num_training_steps cfg) /\
    global_steps (train_info s) < global_steps (train_info s')
      <= num_training_steps cfg.
Proof.
  intros Hreq Hn Hlen H.
  apply training_required_invariant in Hreq. destruct Hreq as (Hk & Hp & Hg).
  pose proof (train_examples_steps pe cfg train_data s o H) as Hsteps.
  pose proof (train_examples_stops pe cfg train_data s o Hk (conj Hn Hp) Hg H)
    as Hstop.
  destruct o as [s'|s'].
  - lia.
  - exists s'. split; [reflexivity|]. split; [exact Hstop|].
    split; [lia|].
    assert (Hle : global_steps (train_info s') <= num_training_steps cfg);
      [|exact Hle].
    clear Hsteps Hstop Hlen.
    revert s Hn Hp Hg H. induction train_data as [|ex rest IH]; intros s Hn Hp Hg H.
    + simpl in H. discriminate.
    + simpl in H. apply bind_Ok in H. destruct H as (o1 & H1 & H).
      pose proof (train_example_stops pe cfg ex s o1 Hk (conj Hn Hp) Hg H1) as Ho1.
      pose proof (train_examples_steps pe cfg [ex] s o1) as Hone.
      simpl in Hone. rewrite H1 in Hone. simpl in Hone.
      destruct o1 as [s1|s1].
      * destruct Ho1 as [[Hn1 Hp1] Hg1]. apply (IH s1); assumption.
      * inversion H; subst. specialize (Hone eq_refl). lia.
Qed.

End Training.

(** ** Evaluation *)

Section Evaluation.
Context {F : Type} {float_ops : PyFloatOps F} {torch : TorchLib F}
        {collaborators : Collaborators} {directories : Directories}.

(** X8.  An evaluation that returns has put the model in evaluation mode
    and changed nothing else of it; [train_info], the gradients, every
    optimizer and scheduler state, the scaler, both random states and the
    checkpoints on disk are the ones it started with. *)
Theorem evaluation_keeps_training_state pe cfg split final thr dataset
    (s s' : Exp) result_dict :
  evaluate_model pe cfg split final thr dataset s = Ok (s', result_dict) ->
  model s' = set_training false (model s) /\
  train_info s' = train_info s /\ grads s' = grads s /\
  optimizer s' = optimizer s /\ optim_scheduler s' = optim_scheduler s /\
  scaler s' = scaler s /\ rng_state s' = rng_state s /\
  np_rng_state s' = np_rng_state s /\ disk s' = disk s.
Proof.
  intros H. apply evaluate_model_frame in H.
  destruct H as ((? & ? & ? & ? & ? & ? & ? & ?) & ? & _).
  repeat split; assumption.
Qed.

Lemma evaluate_examples_lines (m : Model) thr examples (acc acc' : EvalAcc) :
  evaluate_examples m thr examples acc = Ok acc' ->
  exists lines,
    acc_lines acc' = acc_lines acc ++ lines /\
    Forall2 (fun example line => line_of m thr example = Ok line) examples lines.
Proof.
  revert acc. induction examples as [|ex rest IH]; intros acc; simpl.
  - intros H. inversion H; subst. exists []. rewrite app_nil_r.
    split; [reflexivity|constructor].
  - intros H. apply bind_Ok in H. destruct H as (acc1 & H1 & H).
    apply IH in H. destruct H as (lines & Hl & Hf).
    apply evaluate_example_logs in H1.
    destruct H1 as (clusters & m2c & line & H1).
    exists (line :: lines). split.
    + destruct (infer m ex) as [[[al pm] ga] ms].
      destruct H1 as (_ & _ & Hacc). rewrite Hl, Hacc, <- app_assoc. reflexivity.
    + constructor; [|exact Hf].
      unfold line_of. destruct (infer m ex) as [[[al pm] ga] ms].
      destruct H1 as (Hc & Hline & _). rewrite Hc. simpl. exact Hline.
Qed.

(** X9.  An evaluation that returns has overwritten the log of its
    dataset and split with one line per document, in the order of the
    documents, each the log record of that document under the model in
    evaluation mode; every other log is as it was. *)
Theorem evaluation_log_has_a_line_per_document pe cfg split final thr dataset
    (s s' : Exp) result_dict :
  evaluate_model pe cfg split final thr dataset s = Ok (s', result_dict) ->
  exists by_dataset examples lines,
    data_iter_map cfg !! split = Some by_dataset /\
    assoc dataset by_dataset = Some examples /\
    log_files s' !! log_path cfg dataset split = Some lines /\
    Forall2 (fun example line =>
               line_of (set_training false (model s)) thr example = Ok line)
            examples lines /\
    (forall other, other <> log_path cfg dataset split ->
       log_files s' !! other = log_files s !! other).
Proof.
  rewrite evaluate_model_unfold. cbv zeta. intros H.
  apply bind_Ok in H. destruct H as (acc & Hacc & H).
  apply conll_report_frame in H. destruct H as (_ & _ & Hl & _).
  simpl in Hl.
  unfold evaluation_acc in Hacc.
  apply bind_Ok in Hacc. destruct Hacc as (by_dataset & Hd & Hacc).
  apply bind_Ok in Hacc. destruct Hacc as (examples & He & Hacc).
  apply evaluate_examples_lines in Hacc. destruct Hacc as (lines & Hlines & Hf).
  simpl in Hlines. subst lines.
  exists by_dataset, examples, (acc_lines acc).
  unfold getitem in Hd.
  destruct (data_iter_map cfg !! split) as [bd|]; inversion Hd; subst bd.
  destruct (assoc dataset by_dataset) as [ex|]; inversion He; subst ex.
  split; [reflexivity|]. split; [reflexivity|].
  rewrite Hl. unfold log_path. split; [apply lookup_insert_eq|].
  split; [exact Hf|].
  intros other Hne. rewrite !lookup_insert_ne by congruence. reflexivity.
Qed.

Lemma periodic_model_eval_disk pe cfg (s s' : Exp) f :
  periodic_model_eval pe cfg s = Ok (s', f) ->
  (forall location,
     location <> best_model_path cfg -> location <> model_path cfg ->
     disk s' !! location = disk s !! location) /\
  (f_gt f (val_perf (train_info s)) = false -> to_save_model cfg = false ->
   disk s' = disk s).
Proof.
  unfold periodic_model_eval. intros H.
  apply bind_Ok in H. destruct H as (by_dataset & Ha & H).
  apply bind_Ok in H. destruct H as ([s1 fd] & Ha0 & H).
  apply bind_Ok in H. destruct H as (f' & Ha1 & H).
  apply bind_Ok in H. destruct H as (a2 & Ha2 & H).
  apply bind_Ok in H. destruct H as (a3 & Ha3 & H).
  inversion H; subst; clear H.
  apply dev_fscores_spec in Ha0.
  destruct Ha0 as ((Hti & _ & _ & _ & _ & _ & _ & Hd) & _).
  rewrite Hti in Ha2.
  assert (H2 : (forall location, location <> best_model_path cfg ->
                  disk a2 !! location = disk s !! location) /\
               (f_gt f (val_perf (train_info s)) = false -> disk a2 = disk s)).
  { destruct (f_gt f (val_perf (train_info s))).
    - apply save_model_frame in Ha2.
      destruct Ha2 as (_ & _ & _ & _ & _ & _ & _ & _ & _ & ck & _ & Hd2 & _).
      split; [|discriminate].
      intros location Hne. rewrite Hd2. simpl.
      rewrite lookup_insert_ne by congruence. rewrite Hd. reflexivity.
    - inversion Ha2; subst. simpl. rewrite Hd. split; reflexivity. }
  destruct H2 as (H2 & H2').
  assert (H3 : (forall location, location <> model_path cfg ->
                  disk a3 !! location = disk a2 !! location) /\
               (to_save_model cfg = false -> disk a3 = disk a2)).
  { destruct (to_save_model cfg).
    - apply save_model_frame in Ha3.
      destruct Ha3 as (_ & _ & _ & _ & _ & _ & _ & _ & _ & ck & _ & Hd3 & _).
      split; [|discriminate].
      intros location Hne. rewrite Hd3.
      rewrite lookup_insert_ne by congruence. reflexivity.
    - inversion Ha3; subst. split; reflexivity. }
  destruct H3 as (H3 & H3'). simpl. split.
  - intros location Hb Hl. rewrite H3 by exact Hl. apply H2. exact Hb.
  - intros Hno Hsave. rewrite H3' by exact Hsave. apply H2'. exact Hno.
Qed.

(** X10.  A periodic evaluation that returns leaves the model in training
    mode with the weights and knobs it had, and the gradients, every
    optimizer and scheduler state, the scaler, both random states and the
    step counter as they were; on disk it writes at most the "best" and
    the "last" location, and nothing when the score did not improve and
    saving is off. *)
Theorem periodic_evaluation_frame pe cfg (s s' : Exp) f :
  periodic_model_eval pe cfg s = Ok (s', f) ->
  model s' = set_training true (model s) /\
  global_steps (train_info s') = global_steps (train_info s) /\
  grads s' = grads s /\ optimizer s' = optimizer s /\
  optim_scheduler s' = optim_scheduler s /\ scaler s' = scaler s /\
  rng_state s' = rng_state s /\ np_rng_state s' = np_rng_state s /\
  (forall location,
     location <> best_model_path cfg -> location <> model_path cfg ->
     disk s' !! location = disk s !! location) /\
  (f_gt f (val_perf (train_info s)) = false -> to_save_model cfg = false ->
   disk s' = disk s).
Proof.
  intros H. pose proof (periodic_model_eval_disk pe cfg s s' f H) as (Hd & Hd').
  pose proof (periodic_model_eval_steps pe cfg s s' f H) as Hg.
  apply periodic_model_eval_spec in H.
  destruct H as (bd & scores & evals & _ & _ & _ & _ & _ & Hm & Hgr & Ho & Hs &
                 Hsc & Hr & Hn & _).
  repeat split; assumption.
Qed.

Lemma final_eval_datasets_spec pe cfg split datasets (s s' : Exp) perf out :
  final_eval_datasets pe cfg split datasets s perf = Ok (s', out) ->
  same_training_state s s' /\
  (datasets = [] /\ model s' = model s \/
   model s' = set_training false (model s)) /\
  exists results,
    Forall2 (fun d r => canonical_metrics cfg split (model s) d = Ok r)
            datasets results /\
    out = perf ++ zip_with (perf_entry cfg split) datasets results /\
    exists evals,
      calls s' = calls s ++ evals /\ List.filter is_scorer_call evals = [].
Proof.
  revert s perf. induction datasets as [|d rest IH]; intros s perf; simpl.
  - intros H. inversion H; subst. split; [apply same_training_state_refl|].
    split; [left; split; reflexivity|].
    exists []. split; [constructor|]. rewrite app_nil_r. split; [reflexivity|].
    exists []. rewrite app_nil_r. split; reflexivity.
  - intros H.
    apply bind_Ok in H. destruct H as (thr & Ht & H).
    apply bind_Ok in H. destruct H as ([s1 rd] & He & H).
    apply evaluate_model_integer in He.
    destruct He as (Hint & Hsame & Hm & Hc).
    apply IH in H.
    destruct H as (Hsame' & Hm' & results & Hres & Hout & evals & Hc' & Hf).
    split; [eapply same_training_state_trans; eassumption|].
    split.
    { right. destruct Hm' as [[_ ->]| ->]; rewrite Hm; reflexivity. }
    exists (rd :: results). split.
    { constructor.
      - unfold canonical_metrics. rewrite Ht. simpl. exact Hint.
      - eapply Forall2_impl; [exact Hres|]. simpl. intros d' r Hr.
        rewrite <- Hr. unfold canonical_metrics.
        destruct (getitem (canonical_cluster_threshold cfg) d'); [|reflexivity].
        simpl. apply internal_metrics_mode. rewrite Hm. reflexivity. }
    split.
    { rewrite Hout, <- app_assoc. reflexivity. }
    eexists. split.
    + rewrite Hc', Hc, <- app_assoc. reflexivity.
    + simpl. exact Hf.
Qed.

(** X11.  A final evaluation that returns has written one [perf.json]
    entry per test dataset, in order, under [model_dir/dataset] and named
    [dataset_test], holding the internal metrics of that dataset under its
    canonical threshold; it has not called the external scorer and has not
    changed the training state. *)
Theorem final_evaluation_reports_internal_metrics pe cfg (s s' : Exp) out :
  perform_final_eval pe cfg s = Ok (s', out) ->
  exists by_dataset results,
    data_iter_map cfg !! "test" = Some by_dataset /\
    Forall2 (fun d r => canonical_metrics cfg "test" (model s) d = Ok r)
            (map fst by_dataset) results /\
    out = zip_with (perf_entry cfg "test") (map fst by_dataset) results /\
    List.filter is_scorer_call (new_calls s s') = [] /\
    same_training_state s s'.
Proof.
  unfold perform_final_eval. intros H.
  apply bind_Ok in H. destruct H as (by_dataset & Hd & H).
  apply final_eval_datasets_spec in H.
  destruct H as (Hsame & _ & results & Hres & Hout & evals & Hc & Hf).
  unfold getitem in Hd.
  destruct (data_iter_map cfg !! "test") as [bd|]; inversion Hd; subst bd.
  exists by_dataset, results. split; [reflexivity|]. split; [exact Hres|].
  split; [exact Hout|]. split; [|exact Hsame].
  rewrite (new_calls_app _ _ _ Hc). exact Hf.
Qed.

End Evaluation.

(** ** The prediction log and the official scorer *)

Section LogAndScorer.
Context {F : Type} {float_ops : PyFloatOps F} {torch : TorchLib F}
        {collaborators : Collaborators} {directories : Directories}.

(** The dictionary [log_record] has built before it deletes anything. *)
Lemma log_record_unfold (example : Example) pm ms raw al pc thr :
  log_record example pm ms raw al pc thr =
  (let full :=
     <["predicted_clusters" := pc]>
       (<["pred_actions" := al]>
          (if negb (py_eq thr (IntThr 1))
           then <["raw_predicted_clusters" := raw]>
                  (<["mention_scores" := ms]> (<["pred_mentions" := pm]> example))
           else <["mention_scores" := ms]> (<["pred_mentions" := pm]> example))) in
   d ← py_del "tensorized_sent" full;
   json_dumps (filter (fun kv => ¬ Is_true (is_tensor kv.2)) d)).
Proof. reflexivity. Qed.

Lemma log_full_other (example : Example) pm ms raw al pc thr key :
  key ∉ log_fields ->
  (<["predicted_clusters" := pc]>
     (<["pred_actions" := al]>
        (if negb (py_eq thr (IntThr 1))
         then <["raw_predicted_clusters" := raw]>
                (<["mention_scores" := ms]> (<["pred_mentions" := pm]> example))
         else <["mention_scores" := ms]> (<["pred_mentions" := pm]> example))))
    !! key = example !! key.
Proof.
  intros Hn. unfold log_fields in Hn.
  assert (key <> "pred_mentions" /\ key <> "mention_scores" /\
          key <> "raw_predicted_clusters" /\ key <> "pred_actions" /\
          key <> "predicted_clusters") as (H1 & H2 & H3 & H4 & H5).
  { repeat split; intros ->; apply Hn; repeat constructor. }
  destruct (negb (py_eq thr (IntThr 1)));
    repeat (rewrite lookup_insert_ne by congruence); reflexivity.
Qed.

Lemma log_full_tensorized (example : Example) pm ms raw al pc thr :
  (<["predicted_clusters" := pc]>
     (<["pred_actions" := al]>
        (if negb (py_eq thr (IntThr 1))
         then <["raw_predicted_clusters" := raw]>
                (<["mention_scores" := ms]> (<["pred_mentions" := pm]> example))
         else <["mention_scores" := ms]> (<["pred_mentions" := pm]> example))))
    !! "tensorized_sent" = example !! "tensorized_sent".
Proof.
  destruct (negb (py_eq thr (IntThr 1)));
    repeat (rewrite lookup_insert_ne by discriminate); reflexivity.
Qed.


(** X13.  Logging a document raises [KeyError] exactly when the example
    has no ["tensorized_sent"] field. *)
Theorem log_needs_tensorized_sent (example : Example) pm ms raw al pc thr :
  example !! "tensorized_sent" = None <->
  log_record example pm ms raw al pc thr = Raise (KeyError "tensorized_sent").
Proof.
  rewrite log_record_unfold. cbv zeta. unfold py_del.
  rewrite log_full_tensorized.
  destruct (example !! "tensorized_sent") as [v|]; simpl.
  - split; [discriminate|].
    unfold json_dumps.
    match goal with
    | |- (if ?b then _ else _) = _ -> _ => destruct b; discriminate
    end.
  - split; reflexivity.
Qed.

(** X14.  Only tensors at the top level are removed before the line is
    serialised: a field of the example that is not a tensor itself but
    holds one deeper down makes the logging raise [TypeError]. *)
Theorem nested_tensor_breaks_the_log (example : Example) pm ms raw al pc thr key v :
  is_Some (example !! "tensorized_sent") ->
  key ∉ log_fields ->
  example !! key = Some v ->
  is_tensor v = false ->
  json_serialisable v = false ->
  log_record example pm ms raw al pc thr = Raise TypeError.
Proof.
  intros [t Ht] Hn Hk Hv Hj.
  rewrite log_record_unfold. cbv zeta. unfold py_del.
  rewrite log_full_tensorized, Ht. simpl.
  unfold json_dumps. rewrite bool_decide_eq_false_2; [reflexivity|].
  intros Hall.
  assert (Hne : key <> "tensorized_sent")
    by (intros ->; apply Hn; unfold log_fields; repeat constructor).
  specialize (Hall key v). cbv beta in Hall.
  rewrite Hj in Hall. apply Hall.
  apply map_lookup_filter_Some. split.
  - rewrite lookup_delete_ne by congruence.
    rewrite log_full_other by exact Hn. exact Hk.
  - change (¬ Is_true (is_tensor v)). rewrite Hv. intros [].
Qed.

Lemma conll_metrics_unfold (results : list (string * ConllPRF (F:=F)))
    (m : gmap string PRF) :
  conll_metrics indv_metrics_list results m =
  let rounded r := {| recall := f_round1 (conll_r r);
                      precision := f_round1 (conll_p r);
                      prf_fscore := f_round1 (conll_f r) |} in
  match assoc "muc" results with
  | None => Raise (KeyError "muc")
  | Some muc =>
      match assoc "bcub" results with
      | None => Raise (KeyError "bcub")
      | Some bcub =>
          match assoc "ceafe" results with
          | None => Raise (KeyError "ceafe")
          | Some ceafe =>
              Ok (<["CEAFE" := rounded ceafe]>
                    (<["Bcub" := rounded bcub]> (<["MUC" := rounded muc]> m)))
          end
      end
  end.
Proof. reflexivity. Qed.

(** X15.  When the guard of the scorer holds (final evaluation, threshold
    equal to the table, scorer and annotations present) and the scorer
    answers for [muc], [bcub] and [ceafe], the returned record has the
    three metrics replaced by the scorer's values rounded to one decimal,
    and as aggregate the rounded mean of the F-scores of all the entries
    the scorer returned. *)
Theorem scorer_results_replace_the_metrics pe cfg split dataset thr
    predictions subtoken_maps result_dict (s : Exp)
    scorer data_dir d results muc bcub ceafe :
  py_eq thr (DictThr (canonical_cluster_threshold cfg)) = true ->
  conll_scorer cfg = Some scorer ->
  conll_data_dir cfg = Some data_dir ->
  data_dir !! dataset = Some d ->
  pe scorer = true -> pe d = true ->
  evaluate_conll scorer (path_join d (split +:+ ".conll")) predictions
                 subtoken_maps (path_join (model_dir cfg) (split +:+ ".conll"))
    = Ok results ->
  assoc "muc" results = Some muc ->
  assoc "bcub" results = Some bcub ->
  assoc "ceafe" results = Some ceafe ->
  let rounded r := {| recall := f_round1 (conll_r r);
                      precision := f_round1 (conll_p r);
                      prf_fscore := f_round1 (conll_f r) |} in
  let fs := map (fun kv => conll_f kv.2) results in
  conll_report pe cfg split dataset true thr predictions subtoken_maps
               result_dict s
  = Ok (emit (EvaluateConll scorer (path_join d (split +:+ ".conll"))
                (path_join (model_dir cfg) (split +:+ ".conll"))) s,
        {| metrics := <["CEAFE" := rounded ceafe]>
                        (<["Bcub" := rounded bcub]>
                           (<["MUC" := rounded muc]> (metrics result_dict)));
           fscore := f_round1 (f_div_len (f_sum fs) (length fs)) |}).
Proof.
  intros Hthr Hs Hd Hds Hps Hpd Hres Hm Hb Hc rounded fs.
  unfold conll_report, conll_paths_exist, conll_try_body. cbv zeta.
  rewrite Hs, Hd, Hps. unfold getitem. rewrite Hds.
  cbn -[conll_metrics mean]. rewrite Hpd, Hthr.
  cbn -[conll_metrics mean]. rewrite Hres.
  cbn -[conll_metrics mean]. rewrite conll_metrics_unfold.
  cbv zeta. rewrite Hm, Hb, Hc. cbn -[mean].
  unfold mean. fold fs.
  destruct results as [|r0 results]; [discriminate|]. reflexivity.
Qed.

(** X16.  When the guard of the scorer holds and the answer of the scorer
    lacks the entry of [muc], the evaluation raises [KeyError]: the
    handler of the [try] does not catch it. *)
Theorem incomplete_scorer_answer_is_fatal pe cfg split dataset thr
    predictions subtoken_maps result_dict (s : Exp)
    scorer data_dir d results :
  py_eq thr (DictThr (canonical_cluster_threshold cfg)) = true ->
  conll_scorer cfg = Some scorer ->
  conll_data_dir cfg = Some data_dir ->
  data_dir !! dataset = Some d ->
  pe scorer = true -> pe d = true ->
  evaluate_conll scorer (path_join d (split +:+ ".conll")) predictions
                 subtoken_maps (path_join (model_dir cfg) (split +:+ ".conll"))
    = Ok results ->
  assoc "muc" results = None ->
  conll_report pe cfg split dataset true thr predictions subtoken_maps
               result_dict s
  = Raise (KeyError "muc").
Proof.
  intros Hthr Hs Hd Hds Hps Hpd Hres Hm.
  unfold conll_report, conll_paths_exist, conll_try_body. cbv zeta.
  rewrite Hs, Hd, Hps. unfold getitem. rewrite Hds.
  cbn -[conll_metrics mean]. rewrite Hpd, Hthr.
  cbn -[conll_metrics mean]. rewrite Hres.
  cbn -[conll_metrics mean]. rewrite conll_metrics_unfold.
  cbv zeta. rewrite Hm. reflexivity.
Qed.

End LogAndScorer.

(** ** Setting up *)

Section Setup.
Context {F : Type} {float_ops : PyFloatOps F} {torch : TorchLib F}
        {collaborators : Collaborators} {directories : Directories}
        {setup_lib : SetupLib}.

(** X17.  With [remove_singletons] on and a dataset of the threshold
    table, the constructor leaves the threshold of that dataset at 2 in
    the table of the constants module itself: no dataset is added, no
    other threshold changes, and whatever the arguments of an experiment
    constructed later in the same process, its table still has 2 for that
    dataset. *)
Theorem singleton_threshold_outlives_the_experiment dataset table
    remove_singletons' dataset' :
  is_Some (table !! dataset) ->
  let table1 := init_cluster_threshold true dataset table in
  table1 !! dataset = Some 2 /\
  dom table1 = dom table /\
  (forall other, other <> dataset -> table1 !! other = table !! other) /\
  init_cluster_threshold remove_singletons' dataset' table1 !! dataset = Some 2.
Proof.
  intros [z Hz] table1. subst table1. unfold init_cluster_threshold.
  rewrite Hz.
  assert (H1 : <[dataset := 2]> table !! dataset = Some 2)
    by apply lookup_insert_eq.
  split; [exact H1|]. split.
  { apply dom_insert_lookup_L. eauto. }
  split.
  { intros other Hne. apply lookup_insert_ne. congruence. }
  destruct remove_singletons'; [|exact H1].
  destruct (<[dataset := 2]> table !! dataset') eqn:E; [|exact H1].
  destruct (decide (dataset' = dataset)) as [->|Hne].
  - apply lookup_insert_eq.
  - rewrite lookup_insert_ne by congruence. exact H1.
Qed.

Lemma initialize_optimizers_frame cfg seed init_lr (s : Exp) :
  let s0 := initialize_optimizers cfg seed init_lr s in
  train_info s0 = train_info s /\ model s0 = model s /\ grads s0 = grads s /\
  disk s0 = disk s /\ log_files s0 = log_files s /\ calls s0 = calls s /\
  rng_state s0 = manual_seed seed /\ np_rng_state s0 = np_random_seed seed /\
  scaler s0 = GradScaler.
Proof.
  unfold initialize_optimizers. cbv zeta.
  destruct (fine_tune_lr cfg); repeat split.
Qed.

Lemma initialize_optimizers_keys cfg seed init_lr (s : Exp) :
  optimizer s = [] -> optim_scheduler s = [] ->
  let s0 := initialize_optimizers cfg seed init_lr s in
  map fst (optimizer s0) = param_groups cfg /\
  map fst (optim_scheduler s0) = param_groups cfg.
Proof.
  intros Ho Hs. unfold initialize_optimizers, param_groups, finetune. cbv zeta.
  destruct (fine_tune_lr cfg); simpl; rewrite Ho, Hs; split; reflexivity.
Qed.

Lemma initialize_optimizers_groups cfg seed init_lr (s : Exp) g :
  g ∈ param_groups cfg ->
  let s0 := initialize_optimizers cfg seed init_lr s in
  is_Some (assoc g (optimizer s0)) /\ is_Some (assoc g (optim_scheduler s0)).
Proof.
  intros Hg. unfold initialize_optimizers. cbv zeta.
  unfold param_groups, finetune in Hg.
  destruct (fine_tune_lr cfg) as [lr|]; simpl.
  - destruct g; split;
      try (rewrite assoc_set_lookup_ne by discriminate);
      rewrite assoc_set_lookup_eq; eauto.
  - apply list_elem_of_singleton in Hg. subst g.
    split; rewrite assoc_set_lookup_eq; eauto.
Qed.

(** X18.  On an experiment whose optimizer and scheduler dictionaries are
    empty, as the constructor leaves them, [initialize_optimizers] gives
    both dictionaries exactly the parameter groups of the run, in order
    ([mem], then [doc] when fine-tuning), reseeds both random states,
    installs a fresh scaler and touches neither the model nor
    [train_info]; afterwards a training step returns on every example,
    and a save of any type returns exactly when the parent directory of
    its location exists: no group is missing. *)
Theorem initialized_optimizers_match_the_groups cfg seed init_lr (s : Exp) :
  optimizer s = [] -> optim_scheduler s = [] ->
  let s0 := initialize_optimizers cfg seed init_lr s in
  map fst (optimizer s0) = param_groups cfg /\
  map fst (optim_scheduler s0) = param_groups cfg /\
  model s0 = model s /\ train_info s0 = train_info s /\
  rng_state s0 = manual_seed seed /\ np_rng_state s0 = np_random_seed seed /\
  scaler s0 = GradScaler /\
  (forall example, is_ok (handle_example cfg example s0) = true) /\
  (forall location model_type,
     is_ok (save_model cfg location model_type s0)
       = parent_directory_exists (calls s0) location).
Proof.
  intros Ho Hs s0.
  destruct (initialize_optimizers_keys cfg seed init_lr s Ho Hs) as [Ko Ks].
  destruct (initialize_optimizers_frame cfg seed init_lr s)
    as (Hti & Hm & _ & _ & _ & _ & Hr & Hn & Hsc).
  fold s0 in Ko, Ks, Hti, Hm, Hr, Hn, Hsc.
  repeat (split; [assumption|]). split.
  - intros example.
    destruct (handle_example_returns cfg example s0) as (s' & l & E & _).
    + intros key Hk. rewrite Ko in Hk.
      apply (initialize_optimizers_groups cfg seed init_lr s key Hk).
    + rewrite E. reflexivity.
  - intros location model_type. unfold save_model. cbv zeta.
    destruct (negb (bool_decide (model_type = "best"))).
    + destruct (save_groups_active cfg s0) as (opt & sch & E & _).
      * intros g Hg. apply (initialize_optimizers_groups cfg seed init_lr s g Hg).
      * rewrite E. simpl.
        destruct (parent_directory_exists (calls s0) location); reflexivity.
    + simpl.
      destruct (parent_directory_exists (calls s0) location); reflexivity.
Qed.



Lemma training_required_false cfg (s : Exp) :
  training_required cfg s = Ok false ->
  patience cfg <= num_stuck_evals (train_info s)
  \/ num_training_steps cfg <= global_steps (train_info s).
Proof.
  unfold training_required.
  destruct (patience cfg <=? num_stuck_evals (train_info s)) eqn:Hp.
  - intros _. left. lia.
  - destruct (eval_per_k_steps cfg =? 0); simpl; [discriminate|].
    destruct (num_training_steps cfg <=? global_steps (train_info s)) eqn:Hg;
      [|discriminate].
    intros _. right. lia.
Qed.

(** X20.  When a checkpoint is at the [model.pth] of the model directory,
    a [setup_training] that returns has resumed from it: [train_info] and
    both random states are the stored ones, whatever the seed, the scaler
    is the stored one when there is one and a fresh one otherwise, every
    group of the checkpoint has its stored optimizer and scheduler state,
    the weights of the newly built model take the stored tensors by name
    and its knobs are untouched; and further training is required exactly
    when the stored counters leave both the patience and the step
    budget. *)
Theorem resumed_run_restores_the_checkpoint configured orig_data_map seed
    init_lr cfg (s : Exp) ck cfg' s' required :
  disk s !! model_path cfg = Some ck ->
  setup_training configured orig_data_map seed init_lr cfg s
    = Ok (cfg', s', required) ->
  let built := pick_controller
                 (<["finetune" := PyBool (finetune cfg)]> (model_args cfg)) in
  train_info s' = ck_train_info ck /\
  rng_state s' = ck_rng_state ck /\
  np_rng_state s' = ck_np_rng_state ck /\
  scaler s' = default GradScaler (ck_scaler ck) /\
  (forall g, g ∈ map fst (ck_optimizer ck) ->
     assoc g (optimizer s') = assoc g (ck_optimizer ck) /\
     assoc g (optim_scheduler s') = assoc g (ck_scheduler ck)) /\
  (forall key,
     state_dict (model s') !! key =
       match state_dict built !! key with
       | Some t => Some (default t (ck_model ck !! key))
       | None => None
       end) /\
  same_knobs built (model s') /\
  (required = true <->
   num_stuck_evals (ck_train_info ck) < patience cfg /\
   global_steps (ck_train_info ck) < eval_per_k_steps cfg' * max_evals cfg).
Proof.
  intros Hck H built. unfold setup_training in H.
  destruct (model_args cfg !! "device"); [discriminate|].
  destruct (model_args cfg !! "finetune"); [discriminate|].
  simpl in H. fold built in H.
  apply bind_Ok in H. destruct H as (k & _ & H). cbv zeta in H.
  set (cfg1 := set_eval_per_k_steps k cfg) in *.
  set (s0 := initialize_optimizers cfg1 seed init_lr (set_model built s)) in *.
  destruct (initialize_optimizers_frame cfg1 seed init_lr (set_model built s))
    as (_ & Hm & _ & Hd & _ & _ & _ & _ & Hsc).
  fold s0 in Hm, Hd, Hsc. simpl in Hm, Hd.
  change (model_path cfg1) with (model_path cfg) in H.
  assert (Hck0 : disk s0 !! model_path cfg = Some ck) by (rewrite Hd; exact Hck).
  rewrite bool_decide_eq_true_2 in H by (rewrite Hck0; eauto).
  apply bind_Ok in H. destruct H as (s1 & Hload & H).
  apply bind_Ok in H. destruct H as (b & Hreq & H).
  inversion H; subst cfg' s' required; clear H.
  unfold load_model, torch_load in Hload. rewrite Hck0 in Hload.
  simpl in Hload.
  apply bind_Ok in Hload. destruct Hload as (s2 & Hg & Hload).
  inversion Hload; subst s1; clear Hload. simpl.
  apply bind_Ok in Hg. destruct Hg as (s3 & Hg & H3).
  apply load_groups_spec in Hg.
  destruct Hg as (_ & Hm3 & _ & Hsc3 & _ & _ & _ & _ & _ & _ & _ & Hopt & Hsch).
  simpl in Hm3, Hsc3, Hopt, Hsch. rewrite Hm in Hm3.
  assert (E2 : model s2 = model s3 /\ optimizer s2 = optimizer s3 /\
               optim_scheduler s2 = optim_scheduler s3 /\
               scaler s2 = default (scaler s3) (ck_scaler ck)).
  { destruct (ck_scaler ck); inversion H3; repeat split. }
  destruct E2 as (Em & Eo & Es & Esc).
  rewrite Em, Eo, Es, Esc, Hm3, Hsc3, Hsc.
  split; [reflexivity|]. split; [reflexivity|]. split; [reflexivity|].
  split; [reflexivity|].
  split.
  { intros g Hg. rewrite Hopt, Hsch. rewrite !decide_True by exact Hg.
    split; reflexivity. }
  split.
  { intros key. simpl. rewrite lookup_merge.
    destruct (state_dict built !! key), (ck_model ck !! key); reflexivity. }
  split.
  { unfold same_knobs. simpl. repeat split. }
  subst cfg1.
  destruct b.
  - apply training_required_invariant in Hreq.
    destruct Hreq as (_ & Hp & Hg).
    unfold num_training_steps in Hg. simpl in Hp, Hg.
    split; [intros _; simpl; split; assumption|reflexivity].
  - apply training_required_false in Hreq.
    unfold num_training_steps in Hreq. simpl in Hreq.
    split; [discriminate|]. simpl. intros [Hp Hg]. lia.
Qed.

(** X21.  With an evaluation period of zero, configured as such or
    computed from training splits that are all empty, and without a
    checkpoint to resume from, [setup_training] raises [KeyError] on
    ['evals'] unless the patience is already exhausted: [train_info] has
    no such entry. *)
Theorem zero_evaluation_period_is_fatal configured orig_data_map seed init_lr
    cfg (s : Exp) :
  model_args cfg !! "device" = None ->
  model_args cfg !! "finetune" = None ->
  configured = Some 0
    \/ (configured = None /\ per_eval_steps orig_data_map = Ok 0) ->
  disk s !! model_path cfg = None ->
  num_stuck_evals (train_info s) < patience cfg ->
  setup_training configured orig_data_map seed init_lr cfg s
    = Raise (KeyError "evals").
Proof.
  intros Hdev Hft Hk Hd Hp. unfold setup_training. rewrite Hdev, Hft. simpl.
  assert (E : match configured with
              | Some k => Ok k
              | None => per_eval_steps orig_data_map
              end = Ok 0).
  { destruct Hk as [-> | [-> Hk]]; [reflexivity|exact Hk]. }
  rewrite E. simpl.
  match goal with
  | |- context [initialize_optimizers ?c seed init_lr ?t] =>
      destruct (initialize_optimizers_frame c seed init_lr t)
        as (Hti & _ & _ & Hdisk & _);
      set (s0 := initialize_optimizers c seed init_lr t) in *
  end.
  simpl in Hti, Hdisk.
  change (model_path (set_eval_per_k_steps 0 cfg)) with (model_path cfg).
  rewrite bool_decide_eq_false_2
    by (rewrite Hdisk, Hd; intros [? [=]]).
  simpl. unfold training_required. rewrite Hti. simpl.
  destruct (patience cfg <=? num_stuck_evals (train_info s)) eqn:E1; [lia|].
  reflexivity.
Qed.

Lemma tensorize_split_spec split training
    (orig_data_map : list (string * gmap string (list Raw))) acc out :
  NoDup (map fst acc ++ map fst orig_data_map) ->
  tensorize_split split training orig_data_map acc = Ok out ->
  exists new,
    out = acc ++ new /\
    Forall2 (fun (raw : string * gmap string (list Raw))
                 (tensorized : string * list Example) =>
               tensorized.1 = raw.1 /\
               exists docs, raw.2 !! split = Some docs /\
                            tensorized.2 = tensorize_data docs training)
            orig_data_map new.
Proof.
  revert acc. induction orig_data_map as [|[d splits] rest IH]; intros acc Hnd;
    simpl.
  - intros H. inversion H; subst. exists []. rewrite app_nil_r.
    split; [reflexivity|constructor].
  - intros H. apply bind_Ok in H. destruct H as (docs & Hdocs & H).
    simpl in Hnd.
    assert (Hfresh : d ∉ map fst acc).
    { apply NoDup_app in Hnd. destruct Hnd as (_ & Hdis & _).
      intros Hin. apply (Hdis d Hin). left. }
    rewrite (assoc_set_fresh _ _ _ Hfresh) in H.
    apply IH in H.
    + destruct H as (new & -> & Hf).
      exists ((d, tensorize_data docs training) :: new).
      rewrite <- app_assoc. split; [reflexivity|].
      constructor; [|exact Hf]. simpl. split; [reflexivity|].
      exists docs. split; [|reflexivity].
      unfold getitem in Hdocs.
      destruct (splits !! split); inversion Hdocs; reflexivity.
    + rewrite map_app. simpl. rewrite <- app_assoc. simpl.
      exact Hnd.
Qed.

(** X22.  When the raw data has every dataset once, a [process_data] that
    returns has filled the split ["test"] alone in evaluation mode and
    ["train"], ["dev"] and ["test"] otherwise; every split it fills has
    the datasets of the raw data, in their order, each with the
    tensorized documents of that split of that dataset, tensorized for
    training in the split ["train"] only (and with the default of the
    processor in evaluation mode). *)
Theorem processed_data_mirrors_the_raw_data eval_model
    (orig_data_map : list (string * gmap string (list Raw))) data :
  NoDup (map fst orig_data_map) ->
  process_data eval_model orig_data_map = Ok data ->
  dom data = (if eval_model then {["test"]} else {["train"; "dev"; "test"]}) /\
  forall split by_dataset,
    data !! split = Some by_dataset ->
    Forall2 (fun (raw : string * gmap string (list Raw))
                 (tensorized : string * list Example) =>
               tensorized.1 = raw.1 /\
               exists docs,
                 raw.2 !! split = Some docs /\
                 tensorized.2 =
                   tensorize_data docs
                     (if eval_model then None
                      else Some (bool_decide (split = "train"))))
            orig_data_map by_dataset.
Proof.
  intros Hnd. unfold process_data. destruct eval_model.
  - intros H. apply bind_Ok in H. destruct H as (test & Ht & H).
    inversion H; subst data; clear H.
    apply tensorize_split_spec in Ht; [|exact Hnd].
    destruct Ht as (new & -> & Hf). split.
    + rewrite dom_insert_L, dom_empty_L. set_solver.
    + intros split by_dataset Hl.
      apply lookup_insert_Some in Hl.
      destruct Hl as [[<- <-]|[_ Hl]]; [exact Hf|].
      rewrite lookup_empty in Hl. discriminate.
  - intros H. apply bind_Ok in H. destruct H as (train & Htr & H).
    apply bind_Ok in H. destruct H as (dev & Hdv & H).
    apply bind_Ok in H. destruct H as (test & Ht & H).
    inversion H; subst data; clear H.
    apply tensorize_split_spec in Htr; [|exact Hnd].
    apply tensorize_split_spec in Hdv; [|exact Hnd].
    apply tensorize_split_spec in Ht; [|exact Hnd].
    destruct Htr as (n1 & -> & Hf1). destruct Hdv as (n2 & -> & Hf2).
    destruct Ht as (n3 & -> & Hf3). split.
    + rewrite !dom_insert_L, dom_empty_L. set_solver.
    + intros split by_dataset Hl.
      apply lookup_insert_Some in Hl.
      destruct Hl as [[<- <-]|[_ Hl]]; [exact Hf3|].
      apply lookup_insert_Some in Hl.
      destruct Hl as [[<- <-]|[_ Hl]]; [exact Hf2|].
      apply lookup_insert_Some in Hl.
      destruct Hl as [[<- <-]|[_ Hl]]; [exact Hf1|].
      rewrite lookup_empty in Hl. discriminate.
Qed.

Lemma tensorize_split_missing split training
    (orig_data_map : list (string * gmap string (list Raw))) acc dataset splits :
  (dataset, splits) ∈ orig_data_map -> splits !! split = None ->
  tensorize_split split training orig_data_map acc = Raise (KeyError split).
Proof.
  revert acc. induction orig_data_map as [|[d sp] rest IH]; intros acc Hin Hnone.
  - inversion Hin.
  - simpl. unfold getitem.
    destruct (sp !! split) as [docs|] eqn:E; [|reflexivity].
    simpl. apply IH; [|exact Hnone].
    inversion Hin; subst; [congruence|assumption].
Qed.

Lemma tensorize_split_result split training
    (orig_data_map : list (string * gmap string (list Raw))) acc :
  (exists out, tensorize_split split training orig_data_map acc = Ok out)
  \/ tensorize_split split training orig_data_map acc = Raise (KeyError split).
Proof.
  revert acc. induction orig_data_map as [|[d sp] rest IH]; intros acc.
  - left. eexists. reflexivity.
  - simpl. unfold getitem. destruct (sp !! split); [|right; reflexivity].
    simpl. apply IH.
Qed.

(** X23.  A dataset of the raw data without a ["test"] split makes
    [process_data] raise [KeyError] in both modes; in evaluation mode the
    missing key is ["test"]. *)
Theorem missing_test_split_is_fatal eval_model
    (orig_data_map : list (string * gmap string (list Raw))) dataset splits :
  (dataset, splits) ∈ orig_data_map ->
  splits !! "test" = None ->
  exists split,
    process_data eval_model orig_data_map = Raise (KeyError split) /\
    (eval_model = true -> split = "test").
Proof.
  intros Hin Hnone. unfold process_data.
  destruct eval_model.
  - exists "test".
    rewrite (tensorize_split_missing _ _ _ _ _ _ Hin Hnone).
    split; reflexivity.
  - destruct (tensorize_split_result "train" (Some true) orig_data_map [])
      as [[train ->]| ->]; [|exists "train"; split; [reflexivity|discriminate]].
    destruct (tensorize_split_result "dev" (Some false) orig_data_map [])
      as [[dev ->]| ->]; [|exists "dev"; split; [reflexivity|discriminate]].
    exists "test". simpl.
    rewrite (tensorize_split_missing _ _ _ _ _ _ Hin Hnone).
    split; [reflexivity|discriminate].
Qed.

End Setup.

(** ** The constructor *)

Section Construction.
Context {F : Type} {float_ops : PyFloatOps F} {torch : TorchLib F}
        {collaborators : Collaborators} {directories : Directories}
        {setup_lib : SetupLib}.

Lemma same_knobs_refl (m : Model) : same_knobs m m.
Proof. unfold same_knobs. repeat split. Qed.

Lemma same_knobs_trans (m1 m2 m3 : Model) :
  same_knobs m1 m2 -> same_knobs m2 m3 -> same_knobs m1 m3.
Proof.
  unfold same_knobs.
  intros (? & ? & ? & ? & ?) (? & ? & ? & ? & ?).
  repeat split; congruence.
Qed.

Lemma same_knobs_weights (m : Model) w : same_knobs m (set_state_dict w m).
Proof. unfold same_knobs. repeat split. Qed.

Lemma same_knobs_mode (m : Model) b : same_knobs m (set_training b m).
Proof. unfold same_knobs. repeat split. Qed.

Lemma step_all_knobs keys (s s' : Exp) :
  step_all keys s = Ok s' -> same_knobs (model s) (model s').
Proof.
  revert s. induction keys as [|key rest IH]; intros s; simpl.
  - intros [= <-]. apply same_knobs_refl.
  - intros H. apply bind_Ok in H. destruct H as (o & _ & H).
    destruct (scaler_step (scaler s) o (grads s key) (state_dict (model s)))
      as [o1 weights].
    apply bind_Ok in H. destruct H as (c & _ & H).
    destruct (scheduler_step c o1) as [sch o'].
    apply IH in H. simpl in H.
    eapply same_knobs_trans; [|exact H]. apply same_knobs_weights.
Qed.

Lemma handle_example_knobs cfg example (s s' : Exp) l :
  handle_example cfg example s = Ok (s', l) ->
  same_knobs (model s) (model s').
Proof.
  unfold handle_example. cbv zeta.
  set (s1 := set_train_info _ s).
  change (optimizer s1) with (optimizer s).
  destruct (zero_grad_all_frame (map fst (optimizer s)) s1) as (_ & Hm & _).
  set (s2 := zero_grad_all (map fst (optimizer s)) s1) in *.
  change (model (emit (ForwardTraining example) s2)) with (model s2).
  rewrite Hm. change (model s1) with (model s).
  destruct (forward_training (model s) example) as [total_loss|].
  - set (s3 := emit Backward _).
    destruct (unscale_all_frame (map fst (optimizer s)) s3) as (_ & Hm' & _).
    set (s4 := unscale_all (map fst (optimizer s)) s3) in *.
    intros H. apply bind_Ok in H. destruct H as (s5 & H5 & H).
    inversion H; subst s' l; clear H.
    apply step_all_knobs in H5. simpl in H5. simpl.
    rewrite Hm' in H5. subst s3. simpl in H5. rewrite Hm in H5. exact H5.
  - intros H. inversion H; subst s' l; clear H. simpl.
    rewrite Hm. apply same_knobs_refl.
Qed.

Lemma train_example_knobs pe cfg example (s : Exp) o :
  train_example pe cfg example s = Ok o ->
  same_knobs (model s) (model (outcome_state o)).
Proof.
  unfold train_example. intros H.
  apply bind_Ok in H. destruct H as ([s1 l] & H1 & H).
  apply handle_example_knobs in H1.
  apply bind_Ok in H. destruct H as (r & _ & H).
  apply bind_Ok in H. destruct H as (s2 & H2 & H).
  assert (Hm2 : model s2 = model s1).
  { destruct (r =? 0).
    - apply bind_Ok in H2. destruct H2 as (dk & _ & H2).
      apply bind_Ok in H2. destruct H2 as (ls & _ & H2).
      inversion H2; reflexivity.
    - inversion H2; reflexivity. }
  rewrite <- Hm2 in H1.
  destruct (negb (eval_per_k_steps cfg =? 0)
            && (global_steps (train_info s2) mod eval_per_k_steps cfg =? 0)).
  - apply bind_Ok in H. destruct H as ([s3 f] & H3 & H).
    apply periodic_model_eval_spec in H3.
    destruct H3 as (bd & scores & evals & _ & _ & _ & _ & _ & Hm3 & _).
    assert (Hk : same_knobs (model s) (model s3)).
    { eapply same_knobs_trans; [exact H1|]. rewrite Hm3. apply same_knobs_mode. }
    destruct (patience cfg <=? num_stuck_evals (train_info s3));
      [inversion H; subst; exact Hk|].
    destruct (num_training_steps cfg <=? global_steps (train_info s3));
      inversion H; subst; exact Hk.
  - inversion H; subst. exact H1.
Qed.

Lemma train_examples_knobs pe cfg train_data (s : Exp) o :
  train_examples pe cfg train_data s = Ok o ->
  same_knobs (model s) (model (outcome_state o)).
Proof.
  revert s. induction train_data as [|ex rest IH]; intros s; simpl.
  - intros H. inversion H; subst. apply same_knobs_refl.
  - intros H. apply bind_Ok in H. destruct H as (o1 & H1 & H).
    apply train_example_knobs in H1.
    destruct o1 as [s1|s1]; simpl in H1.
    + apply IH in H. eapply same_knobs_trans; eassumption.
    + inversion H; subst. exact H1.
Qed.

Lemma train_loop_knobs pe epochs cfg (s s' : Exp) :
  train_loop pe epochs cfg s = Ok (Some s') ->
  same_knobs (model s) (model s').
Proof.
  revert s. induction epochs as [|n IH]; intros s; simpl; [discriminate|].
  intros H. apply bind_Ok in H. destruct H as (o & Ho & H).
  unfold train_epoch in Ho.
  apply bind_Ok in Ho. destruct Ho as (bd & _ & Ho). cbv zeta in Ho.
  destruct (np_shuffle Example (np_rng_state s) (concat (map snd bd)))
    as [rng data].
  apply train_examples_knobs in Ho. simpl in Ho.
  destruct o as [s1|s1]; simpl in Ho.
  - apply IH in H. eapply same_knobs_trans; eassumption.
  - inversion H; subst. exact Ho.
Qed.

Lemma train_knobs pe epochs cfg (s s' : Exp) :
  train pe epochs cfg s = Ok (Some s') ->
  same_knobs (model s) (model s').
Proof.
  unfold train. intros H. apply train_loop_knobs in H. simpl in H.
  eapply same_knobs_trans; [|exact H]. apply same_knobs_mode.
Qed.

Lemma load_model_inv location model_type (s s' : Exp) :
  load_model location model_type s = Ok s' ->
  exists ck,
    disk s !! location = Some ck /\
    model s' = load_state_dict_lenient (ck_model ck) (model s) /\
    train_info s' = ck_train_info ck /\
    rng_state s' = ck_rng_state ck /\
    np_rng_state s' = ck_np_rng_state ck /\
    disk s' = disk s /\ calls s' = calls s.
Proof.
  unfold load_model, torch_load.
  destruct (disk s !! location) as [ck|]; [|discriminate]. simpl.
  intros H. apply bind_Ok in H. destruct H as (s1 & H1 & H).
  inversion H; subst s'; clear H. simpl.
  exists ck. split; [reflexivity|].
  assert (E : model s1 = load_state_dict_lenient (ck_model ck) (model s) /\
              disk s1 = disk s /\ calls s1 = calls s).
  { destruct (negb (bool_decide (model_type = "best"))).
    - apply bind_Ok in H1. destruct H1 as (s2 & H2 & H1).
      apply load_groups_spec in H2.
      destruct H2 as (_ & Hm & _ & _ & _ & _ & Hd & _ & Hc & _).
      simpl in Hm, Hd, Hc.
      destruct (ck_scaler ck); inversion H1; subst s1; simpl;
        repeat split; assumption.
    - inversion H1; subst s1. repeat split. }
  destruct E as (Em & Ed & Ec). repeat split; assumption.
Qed.

Lemma setup_training_inv configured orig_data_map seed init_lr cfg (s : Exp)
    cfg' s' required :
  setup_training configured orig_data_map seed init_lr cfg s
    = Ok (cfg', s', required) ->
  let built := pick_controller
                 (<["finetune" := PyBool (finetune cfg)]> (model_args cfg)) in
  exists k,
    cfg' = set_eval_per_k_steps k cfg /\
    training_required cfg' s' = Ok required /\
    same_knobs built (model s') /\
    disk s' = disk s /\ calls s' = calls s.
Proof.
  intros H built. unfold setup_training in H.
  destruct (model_args cfg !! "device"); [discriminate|].
  destruct (model_args cfg !! "finetune"); [discriminate|].
  simpl in H. fold built in H.
  apply bind_Ok in H. destruct H as (k & _ & H). cbv zeta in H.
  set (cfg1 := set_eval_per_k_steps k cfg) in *.
  destruct (initialize_optimizers_frame cfg1 seed init_lr (set_model built s))
    as (_ & Hm & _ & Hd & _ & Hc & _).
  set (s0 := initialize_optimizers cfg1 seed init_lr (set_model built s)) in *.
  simpl in Hm, Hd, Hc.
  apply bind_Ok in H. destruct H as (s1 & Hload & H).
  apply bind_Ok in H. destruct H as (b & Hreq & H).
  inversion H; subst cfg' s' required; clear H.
  exists k. split; [reflexivity|]. split; [exact Hreq|].
  destruct (bool_decide (is_Some (disk s0 !! model_path cfg1))).
  - apply load_model_inv in Hload.
    destruct Hload as (ck & _ & Em & _ & _ & _ & Ed & Ec).
    rewrite Em, Ed, Ec, Hm, Hd, Hc.
    split; [apply same_knobs_weights|]. split; reflexivity.
  - inversion Hload; subst s1. rewrite Hm, Hd, Hc.
    split; [apply same_knobs_refl|]. split; reflexivity.
Qed.


Lemma final_eval_datasets_calls pe cfg datasets (s s' : Exp) perf out :
  final_eval_datasets pe cfg "test" datasets s perf = Ok (s', out) ->
  exists evals,
    calls s' = calls s ++ evals /\
    Forall2 (fun d c => final_eval_call cfg d = Some c) datasets evals.
Proof.
  revert s perf. induction datasets as [|d rest IH]; intros s perf; simpl.
  - intros H. inversion H; subst. exists []. rewrite app_nil_r.
    split; [reflexivity|constructor].
  - intros H.
    apply bind_Ok in H. destruct H as (thr & Ht & H).
    apply bind_Ok in H. destruct H as ([s1 rd] & He & H).
    apply evaluate_model_integer in He. destruct He as (_ & _ & _ & Hc).
    apply IH in H. destruct H as (evals & Hc' & Hf).
    eexists (_ :: evals). split.
    + rewrite Hc', Hc, <- app_assoc. reflexivity.
    + constructor; [|exact Hf].
      unfold final_eval_call. unfold getitem in Ht.
      destruct (canonical_cluster_threshold cfg !! d); inversion Ht; subst.
      reflexivity.
Qed.

Lemma perform_final_eval_inv pe cfg (s s' : Exp) out :
  perform_final_eval pe cfg s = Ok (s', out) ->
  exists by_dataset evals,
    data_iter_map cfg !! "test" = Some by_dataset /\
    same_training_state s s' /\
    same_knobs (model s) (model s') /\
    state_dict (model s') = state_dict (model s) /\
    calls s' = calls s ++ evals /\
    Forall2 (fun d c => final_eval_call cfg d = Some c)
            (map fst by_dataset) evals.
Proof.
  unfold perform_final_eval. intros H.
  apply bind_Ok in H. destruct H as (by_dataset & Hd & H).
  pose proof (final_eval_datasets_calls _ _ _ _ _ _ _ H) as (evals & Hc & Hf).
  apply final_eval_datasets_spec in H.
  destruct H as (Hsame & Hm & _).
  unfold getitem in Hd.
  destruct (data_iter_map cfg !! "test") as [bd|]; inversion Hd; subst bd.
  exists by_dataset, evals. split; [reflexivity|]. split; [exact Hsame|].
  split; [|split; [|split; assumption]].
  - destruct Hm as [[_ ->]| ->];
      [apply same_knobs_refl|apply same_knobs_mode].
  - destruct Hm as [[_ ->]| ->]; reflexivity.
Qed.


(** X25.  When [setup_training] has found that training is required and
    the construction returns, the final evaluation has run on the model
    built for training: its knobs are those [pick_controller] gave it,
    whatever [eval_max_ents], [use_gold_ments], [max_span_width],
    [top_span_ratio] and [use_topk] say, since [setup_eval] is not called;
    and [train_info] and both random states are those of the "best"
    checkpoint on disk, not those the training ended with. *)
Theorem trained_construction_skips_the_evaluation_overrides pe configured
    (orig_data_map : list (string * gmap string (list Raw)))
    seed init_lr epochs cfg (s : Exp) cfg1 s1 s' out :
  setup_training configured orig_data_map seed init_lr cfg s
    = Ok (cfg1, s1, true) ->
  experiment_init pe false configured orig_data_map seed init_lr epochs cfg s
    = Ok (Some (s', out)) ->
  same_knobs (pick_controller
                (<["finetune" := PyBool (finetune cfg)]> (model_args cfg)))
             (model s') /\
  exists ck,
    disk s' !! best_model_path cfg = Some ck /\
    train_info s' = ck_train_info ck /\
    rng_state s' = ck_rng_state ck /\
    np_rng_state s' = ck_np_rng_state ck.
Proof.
  intros Hsetup H. unfold experiment_init in H. simpl in H.
  rewrite Hsetup in H. simpl in H.
  apply bind_Ok in H. destruct H as (data & _ & H). cbv zeta in H.
  apply bind_Ok in H. destruct H as (trained & Htrain & H).
  destruct trained as [s2|]; [|discriminate].
  apply bind_Ok in H. destruct H as (s3 & Hload & H).
  apply bind_Ok in H. destruct H as ([s4 out'] & Hfinal & H).
  inversion H; subst s4 out'; clear H.
  apply setup_training_inv in Hsetup.
  destruct Hsetup as (k & -> & _ & Hk1 & _).
  apply train_knobs in Htrain.
  apply load_model_inv in Hload.
  destruct Hload as (ck & Hck & Em & Eti & Er & En & Ed & _).
  apply perform_final_eval_inv in Hfinal.
  destruct Hfinal as (bd & evals & _ & Hsame & Hk4 & _).
  destruct Hsame as (Hti & _ & _ & _ & _ & Hr & Hn & Hd).
  split.
  - eapply same_knobs_trans; [exact Hk1|].
    eapply same_knobs_trans; [exact Htrain|].
    eapply same_knobs_trans; [|exact Hk4].
    rewrite Em. apply same_knobs_weights.
  - exists ck. rewrite Hd, Hti, Hr, Hn, Ed.
    repeat split; assumption.
Qed.

End Construction.

(** * The further properties on the scalar instance *)

Section MoreRuns.
Import Scalar ScalarSetup.
#[local] Existing Instance q_float_ops.
#[local] Existing Instance q_torch.
#[local] Existing Instance answering.
#[local] Existing Instance all_directories.
#[local] Existing Instance q_setup.

(** X1 on the "last" slot of an earlier run. *)
Lemma resumable_load_restores_witness :
  "last" <> "best" /\
  disk with_last !! model_path cfg = Some resumable /\
  exists s',
    load_model (model_path cfg) "last" with_last = Ok s' /\
    train_info s' = ck_train_info resumable /\
    rng_state s' = ck_rng_state resumable /\
    np_rng_state s' = ck_np_rng_state resumable /\
    scaler s' = default (scaler with_last) (ck_scaler resumable) /\
    map fst (optimizer s') = map fst (optimizer with_last) /\
    map fst (optim_scheduler s') = map fst (optim_scheduler with_last) /\
    (forall g, assoc g (optimizer s') =
       if decide (g ∈ map fst (ck_optimizer resumable))
       then assoc g (ck_optimizer resumable) else assoc g (optimizer with_last)) /\
    (forall g, assoc g (optim_scheduler s') =
       if decide (g ∈ map fst (ck_optimizer resumable))
       then assoc g (ck_scheduler resumable)
       else assoc g (optim_scheduler with_last)) /\
    (forall key,
       state_dict (model s') !! key =
         match state_dict (model with_last) !! key with
         | Some t => Some (default t (ck_model resumable !! key))
         | None => None
         end) /\
    disk s' = disk with_last.
Proof.
  assert (H1 : "last" <> "best") by discriminate.
  assert (H2 : disk with_last !! model_path cfg = Some resumable) by reflexivity.
  split; [exact H1|]. split; [exact H2|].
  destruct (is_ok_Ok (load_model (model_path cfg) "last" with_last)) as [s' E];
    [vm_compute; reflexivity|].
  exists s'. split; [exact E|].
  exact (resumable_load_restores (model_path cfg) "last" with_last s' resumable
           H1 H2 E).
Defined.

(** X2 on the checkpoint of a fine-tuning run, loaded without
    fine-tuning. *)
Lemma resumable_load_needs_every_group_witness :
  "last" <> "best" /\
  disk with_fine_tuned !! model_path cfg = Some fine_tuned /\
  doc ∈ map fst (ck_optimizer fine_tuned) /\
  assoc doc (optimizer with_fine_tuned) = None /\
  is_ok (load_model (model_path cfg) "last" with_fine_tuned) = false.
Proof.
  assert (H1 : "last" <> "best") by discriminate.
  assert (H2 : disk with_fine_tuned !! model_path cfg = Some fine_tuned)
    by reflexivity.
  assert (H3 : doc ∈ map fst (ck_optimizer fine_tuned))
    by (right; left).
  assert (H4 : assoc doc (optimizer with_fine_tuned) = None) by reflexivity.
  split; [exact H1|]. split; [exact H2|]. split; [exact H3|]. split; [exact H4|].
  exact (resumable_load_needs_every_group (model_path cfg) "last"
           with_fine_tuned fine_tuned doc H1 H2 H3 H4).
Defined.

(** X3 on a "last" save at the start. *)
Lemma save_then_load_changes_nothing_witness :
  exists s1,
    save_model cfg (model_path cfg) "last" start = Ok s1 /\
    load_model (model_path cfg) "last" s1 = Ok s1.
Proof.
  destruct (is_ok_Ok (save_model cfg (model_path cfg) "last" start)) as [s1 E];
    [vm_compute; reflexivity|].
  exists s1. split; [exact E|].
  exact (save_then_load_changes_nothing cfg (model_path cfg) "last" "last"
           start s1 E).
Defined.

(** X4 on a "best" save at the start, fine-tuning off. *)
Lemma frozen_encoder_checkpoint_fails_strict_load_witness :
  finetune cfg = false /\
  is_Some (state_dict (model start) !! "lm_encoder.w") /\
  str_in "lm_encoder." "lm_encoder.w" = true /\
  dom (state_dict (pick_controller (model_args cfg)))
    = dom (state_dict (model start)) /\
  exists s1,
    save_model cfg (best_model_path cfg) "best" start = Ok s1 /\
    setup_eval cfg s1 = Raise RuntimeError.
Proof.
  assert (H1 : finetune cfg = false) by reflexivity.
  assert (H2 : is_Some (state_dict (model start) !! "lm_encoder.w"))
    by (eexists; reflexivity).
  assert (H3 : str_in "lm_encoder." "lm_encoder.w" = true) by reflexivity.
  assert (H4 : dom (state_dict (pick_controller (model_args cfg)))
               = dom (state_dict (model start))) by reflexivity.
  split; [exact H1|]. split; [exact H2|]. split; [exact H3|]. split; [exact H4|].
  destruct (is_ok_Ok (save_model cfg (best_model_path cfg) "best" start))
    as [s1 E]; [vm_compute; reflexivity|].
  exists s1. split; [exact E|].
  exact (frozen_encoder_checkpoint_fails_strict_load cfg start s1 "lm_encoder.w"
           H1 E H2 H3 H4).
Defined.

(** X5 on a document with a gold cluster. *)
Lemma usable_step_call_order_witness :
  exists s',
    handle_example cfg doc1 start = Ok (s', Some (1 # 2)%Q) /\
    new_calls start s' =
      [ZeroGrad mem; ForwardTraining doc1; Backward; Unscale mem;
       ClipGradNorm doc 1%Q; ClipGradNorm mem 1%Q;
       OptimizerStep mem; SchedulerStep mem; ScalerUpdate].
Proof.
  destruct (is_ok_Ok (handle_example cfg doc1 start)) as [[s' l] E];
    [vm_compute; reflexivity|].
  assert (l = Some (1 # 2)%Q) as ->
    by (rewrite (handle_example_loss _ _ _ _ _ E); reflexivity).
  exists s'. split; [exact E|].
  exact (usable_step_call_order cfg doc1 start s' _ E).
Defined.

(** X6 at the start, where the one optimizer has its scheduler. *)
Lemma step_returns_when_schedulers_match_witness :
  (forall key, key ∈ map fst (optimizer start) ->
     is_Some (assoc key (optim_scheduler start))) /\
  exists s',
    handle_example cfg doc0 start
      = Ok (s', item <$> forward_training (model start) doc0) /\
    map fst (optimizer s') = map fst (optimizer start) /\
    map fst (optim_scheduler s') = map fst (optim_scheduler start).
Proof.
  assert (H : forall key, key ∈ map fst (optimizer start) ->
                is_Some (assoc key (optim_scheduler start))).
  { intros key Hk. change (key ∈ [mem]) in Hk.
    apply list_elem_of_singleton in Hk. subst key. eexists. reflexivity. }
  split; [exact H|].
  exact (step_returns_when_schedulers_match cfg doc0 start H).
Defined.

(** X7 on a plateau with two steps of budget left and two documents. *)
Lemma training_returns_within_budget_witness :
  training_required cfg plateau = Ok true /\
  0 <= num_stuck_evals (train_info plateau) /\
  num_training_steps cfg - global_steps (train_info plateau)
    <= Z.of_nat (length [doc1; doc0]) /\
  exists o,
    train_examples all_paths_exist cfg [doc1; doc0] plateau = Ok o /\
    exists s',
      o = Return s' /\
      (num_stuck_evals (train_info s') = patience cfg
       \/ global_steps (train_info s') = num_training_steps cfg) /\
      global_steps (train_info plateau) < global_steps (train_info s')
        <= num_training_steps cfg.
Proof.
  assert (H1 : training_required cfg plateau = Ok true) by reflexivity.
  assert (H2 : 0 <= num_stuck_evals (train_info plateau)) by discriminate.
  assert (H3 : num_training_steps cfg - global_steps (train_info plateau)
               <= Z.of_nat (length [doc1; doc0])) by discriminate.
  split; [exact H1|]. split; [exact H2|]. split; [exact H3|].
  destruct (is_ok_Ok (train_examples all_paths_exist cfg [doc1; doc0] plateau))
    as [o E]; [vm_compute; reflexivity|].
  exists o. split; [exact E|].
  exact (training_returns_within_budget all_paths_exist cfg [doc1; doc0]
           plateau o H1 H2 H3 E).
Defined.

(** X8 on a dev evaluation at the start. *)
Lemma evaluation_keeps_training_state_witness :
  exists s' result_dict,
    evaluate_model all_paths_exist cfg "dev" false (IntThr 1) "litbank" start
      = Ok (s', result_dict) /\
    model s' = set_training false (model start) /\
    train_info s' = train_info start /\ grads s' = grads start /\
    optimizer s' = optimizer start /\
    optim_scheduler s' = optim_scheduler start /\
    scaler s' = scaler start /\ rng_state s' = rng_state start /\
    np_rng_state s' = np_rng_state start /\ disk s' = disk start.
Proof.
  destruct (is_ok_Ok (evaluate_model all_paths_exist cfg "dev" false (IntThr 1)
                                     "litbank" start)) as [[s' rd] E];
    [vm_compute; reflexivity|].
  exists s', rd. split; [exact E|].
  exact (evaluation_keeps_training_state all_paths_exist cfg "dev" false
           (IntThr 1) "litbank" start s' rd E).
Defined.

(** X9 on the same evaluation: the log of the dev split of litbank gets
    the line of its one document. *)
Lemma evaluation_log_has_a_line_per_document_witness :
  exists s' result_dict,
    evaluate_model all_paths_exist cfg "dev" false (IntThr 1) "litbank" start
      = Ok (s', result_dict) /\
    exists by_dataset examples lines,
      data_iter_map cfg !! "dev" = Some by_dataset /\
      assoc "litbank" by_dataset = Some examples /\
      log_files s' !! log_path cfg "litbank" "dev" = Some lines /\
      Forall2 (fun example line =>
                 line_of (set_training false (model start)) (IntThr 1) example
                   = Ok line)
              examples lines /\
      (forall other, other <> log_path cfg "litbank" "dev" ->
         log_files s' !! other = log_files start !! other).
Proof.
  destruct (is_ok_Ok (evaluate_model all_paths_exist cfg "dev" false (IntThr 1)
                                     "litbank" start)) as [[s' rd] E];
    [vm_compute; reflexivity|].
  exists s', rd. split; [exact E|].
  exact (evaluation_log_has_a_line_per_document all_paths_exist cfg "dev" false
           (IntThr 1) "litbank" start s' rd E).
Defined.

(** X10 on a periodic evaluation at the start. *)
Lemma periodic_evaluation_frame_witness :
  exists s' f,
    periodic_model_eval all_paths_exist cfg start = Ok (s', f) /\
    model s' = set_training true (model start) /\
    global_steps (train_info s') = global_steps (train_info start) /\
    grads s' = grads start /\ optimizer s' = optimizer start /\
    optim_scheduler s' = optim_scheduler start /\ scaler s' = scaler start /\
    rng_state s' = rng_state start /\ np_rng_state s' = np_rng_state start /\
    (forall location,
       location <> best_model_path cfg -> location <> model_path cfg ->
       disk s' !! location = disk start !! location) /\
    (f_gt f (val_perf (train_info start)) = false ->
     to_save_model cfg = false -> disk s' = disk start).
Proof.
  destruct (is_ok_Ok (periodic_model_eval all_paths_exist cfg start))
    as [[s' f] E]; [vm_compute; reflexivity|].
  exists s', f. split; [exact E|].
  exact (periodic_evaluation_frame all_paths_exist cfg start s' f E).
Defined.

(** X11 on a final evaluation at the start. *)
Lemma final_evaluation_reports_internal_metrics_witness :
  exists s' out,
    perform_final_eval all_paths_exist cfg start = Ok (s', out) /\
    exists by_dataset results,
      data_iter_map cfg !! "test" = Some by_dataset /\
      Forall2 (fun d r => canonical_metrics cfg "test" (model start) d = Ok r)
              (map fst by_dataset) results /\
      out = zip_with (perf_entry cfg "test") (map fst by_dataset) results /\
      List.filter is_scorer_call (new_calls start s') = [] /\
      same_training_state start s'.
Proof.
  destruct (is_ok_Ok (perform_final_eval all_paths_exist cfg start))
    as [[s' out] E]; [vm_compute; reflexivity|].
  exists s', out. split; [exact E|].
  exact (final_evaluation_reports_internal_metrics all_paths_exist cfg start
           s' out E).
Defined.


(** X14 on a document whose speaker list holds a tensor. *)
Lemma nested_tensor_breaks_the_log_witness :
  is_Some (doc_nested !! "tensorized_sent") /\
("speaker_ids" ∉ log_fields) /\
  doc_nested !! "speaker_ids" = Some (PyList [PyTensor [1%Q]]) /\
  is_tensor (PyList [PyTensor [1%Q]]) = false /\
  json_serialisable (PyList [PyTensor [1%Q]]) = false /\
  log_record doc_nested (PyList []) (PyList []) (PyList []) (PyList [])
             (PyList []) (IntThr 2) = Raise TypeError.
Proof.
  assert (H1 : is_Some (doc_nested !! "tensorized_sent"))
    by (eexists; reflexivity).
  assert (H2 : "speaker_ids" ∉ log_fields).
  { unfold log_fields. intros H.
    repeat (apply elem_of_cons in H; destruct H as [H|H]; [discriminate|]).
    inversion H. }
  assert (H3 : doc_nested !! "speaker_ids" = Some (PyList [PyTensor [1%Q]]))
    by reflexivity.
  assert (H4 : is_tensor (PyList [PyTensor [1%Q]]) = false) by reflexivity.
  assert (H5 : json_serialisable (PyList [PyTensor [1%Q]]) = false)
    by reflexivity.
  split; [exact H1|]. split; [exact H2|]. split; [exact H3|].
  split; [exact H4|]. split; [exact H5|].
  exact (nested_tensor_breaks_the_log doc_nested _ _ _ _ _ _ "speaker_ids" _
           H1 H2 H3 H4 H5).
Defined.

(** X15 with the answering scorer on litbank. *)
Lemma scorer_results_replace_the_metrics_witness :
  let result_dict := {| metrics := ∅; fscore := 100%Q |} in
  exists s' result_dict',
    conll_report all_paths_exist cfg "test" "litbank" true (DictThr thresholds)
                 [] [] result_dict start = Ok (s', result_dict') /\
    new_calls start s' =
      [EvaluateConll "reference-coreference-scorers/scorer.pl"
         "data/litbank/conll/test.conll" "models/run/test.conll"] /\
    fscore result_dict' = 40%Q /\
    (prf_fscore <$> (metrics result_dict' !! "MUC")) = Some 50%Q.
Proof.
  intros result_dict.
  pose proof (scorer_results_replace_the_metrics all_paths_exist cfg "test"
                "litbank" (DictThr thresholds) [] [] result_dict start
                "reference-coreference-scorers/scorer.pl"
                {[ "litbank" := "data/litbank/conll" ]} "data/litbank/conll"
                official_scores
                {| conll_r := 50; conll_p := 50; conll_f := 50 |}%Q
                {| conll_r := 40; conll_p := 40; conll_f := 40 |}%Q
                {| conll_r := 30; conll_p := 30; conll_f := 30 |}%Q
                eq_refl eq_refl eq_refl eq_refl eq_refl eq_refl eq_refl
                eq_refl eq_refl eq_refl) as E.
  cbv zeta in E.
  eexists _, _. split; [exact E|].
  split; [reflexivity|]. split; reflexivity.
Defined.

(** X16 with a scorer that answers without [muc]. *)
Lemma incomplete_scorer_answer_is_fatal_witness :
  conll_report (collaborators:=incomplete) all_paths_exist cfg "test" "litbank"
               true (DictThr thresholds) [] []
               {| metrics := ∅; fscore := 100%Q |} start
    = Raise (KeyError "muc").
Proof.
  exact (incomplete_scorer_answer_is_fatal (collaborators:=incomplete)
           all_paths_exist cfg "test" "litbank" (DictThr thresholds) [] []
           {| metrics := ∅; fscore := 100%Q |} start
           "reference-coreference-scorers/scorer.pl"
           {[ "litbank" := "data/litbank/conll" ]} "data/litbank/conll"
           [ ("bcub", {| conll_r := 40; conll_p := 40; conll_f := 40 |}%Q);
             ("ceafe", {| conll_r := 30; conll_p := 30; conll_f := 30 |}%Q) ]
           eq_refl eq_refl eq_refl eq_refl eq_refl eq_refl eq_refl eq_refl).
Defined.

(** X17 on litbank in the table of the scalar instance. *)
Lemma singleton_threshold_outlives_the_experiment_witness :
  is_Some (thresholds !! "litbank") /\
  let table1 := init_cluster_threshold true "litbank" thresholds in
  table1 !! "litbank" = Some 2 /\
  dom table1 = dom thresholds /\
  (forall other, other <> "litbank" -> table1 !! other = thresholds !! other) /\
  init_cluster_threshold false "ontonotes" table1 !! "litbank" = Some 2.
Proof.
  assert (H : is_Some (thresholds !! "litbank")) by (eexists; reflexivity).
  split; [exact H|].
  exact (singleton_threshold_outlives_the_experiment "litbank" thresholds
           false "ontonotes" H).
Defined.

(** X18 on the experiment as the constructor has it, in a file system
    without the directory of the "best" slot: the "last" save returns and
    the "best" save does not. *)
Lemma initialized_optimizers_match_the_groups_witness :
  optimizer blank = [] /\ optim_scheduler blank = [] /\
  let s0 := initialize_optimizers cfg 7 (1 # 1000)%Q blank in
  map fst (optimizer s0) = param_groups cfg /\
  map fst (optim_scheduler s0) = param_groups cfg /\
  model s0 = model blank /\ train_info s0 = train_info blank /\
  rng_state s0 = manual_seed 7 /\ np_rng_state s0 = np_random_seed 7 /\
  scaler s0 = GradScaler /\
  (forall example, is_ok (handle_example cfg example s0) = true) /\
  is_ok (save_model (directories:=no_best_directory) cfg (model_path cfg)
                    "last" s0) = true /\
  is_ok (save_model (directories:=no_best_directory) cfg (best_model_path cfg)
                    "best" s0) = false.
Proof.
  assert (H1 : optimizer blank = []) by reflexivity.
  assert (H2 : optim_scheduler blank = []) by reflexivity.
  split; [exact H1|]. split; [exact H2|].
  destruct (initialized_optimizers_match_the_groups
              (directories:=no_best_directory) cfg 7 (1 # 1000)%Q blank H1 H2)
    as (Ko & Ks & Hm & Hti & Hr & Hn & Hsc & Hstep & Hsave).
  split; [exact Ko|]. split; [exact Ks|]. split; [exact Hm|].
  split; [exact Hti|]. split; [exact Hr|]. split; [exact Hn|].
  split; [exact Hsc|]. split; [exact Hstep|].
  split; rewrite Hsave; reflexivity.
Defined.

(** X20 on a run that finds the "last" checkpoint of an earlier one. *)
Lemma resumed_run_restores_the_checkpoint_witness :
  disk blank_with_last !! model_path cfg = Some resumable /\
  exists cfg' s' required,
    setup_training (Some 1) raw_data 7 (1 # 1000)%Q cfg blank_with_last
      = Ok (cfg', s', required) /\
    train_info s' = ck_train_info resumable /\
    rng_state s' = 11 /\ np_rng_state s' = 13 /\
    required = true.
Proof.
  assert (H : disk blank_with_last !! model_path cfg = Some resumable)
    by reflexivity.
  split; [exact H|].
  destruct (is_ok_Ok (setup_training (Some 1) raw_data 7 (1 # 1000)%Q cfg
                                     blank_with_last))
    as [[[cfg' s'] required] E]; [vm_compute; reflexivity|].
  exists cfg', s', required. split; [exact E|].
  destruct (resumed_run_restores_the_checkpoint (Some 1) raw_data 7
              (1 # 1000)%Q cfg blank_with_last resumable cfg' s' required H E)
    as (Hti & Hr & Hn & _ & _ & _ & _ & Hreq).
  split; [exact Hti|]. split; [exact Hr|]. split; [exact Hn|].
  apply Hreq.
  assert (Hk : eval_per_k_steps cfg' = 1).
  { assert (Hp : match setup_training (Some 1) raw_data 7 (1 # 1000)%Q cfg
                         blank_with_last with
                 | Ok (c, _, _) => eval_per_k_steps c
                 | Raise _ => 0
                 end = 1) by (vm_compute; reflexivity).
    rewrite E in Hp. exact Hp. }
  rewrite Hk. split; reflexivity.
Defined.

(** X21 on raw data without training documents. *)
Lemma zero_evaluation_period_is_fatal_witness :
  model_args cfg !! "device" = None /\
  model_args cfg !! "finetune" = None /\
  per_eval_steps no_train_data = Ok 0 /\
  disk blank !! model_path cfg = None /\
  num_stuck_evals (train_info blank) < patience cfg /\
  setup_training None no_train_data 7 (1 # 1000)%Q cfg blank
    = Raise (KeyError "evals").
Proof.
  assert (H1 : model_args cfg !! "device" = None) by reflexivity.
  assert (H2 : model_args cfg !! "finetune" = None) by reflexivity.
  assert (H3 : per_eval_steps no_train_data = Ok 0) by reflexivity.
  assert (H4 : disk blank !! model_path cfg = None) by reflexivity.
  assert (H5 : num_stuck_evals (train_info blank) < patience cfg) by reflexivity.
  split; [exact H1|]. split; [exact H2|]. split; [exact H3|].
  split; [exact H4|]. split; [exact H5|].
  exact (zero_evaluation_period_is_fatal None no_train_data 7 (1 # 1000)%Q cfg
           blank H1 H2 (or_intror (conj eq_refl H3)) H4 H5).
Defined.

(** X22 on the raw data of the scalar instance, in training mode. *)
Lemma processed_data_mirrors_the_raw_data_witness :
  NoDup (map fst raw_data) /\
  exists data,
    process_data false raw_data = Ok data /\
    dom data = {["train"; "dev"; "test"]} /\
    forall split by_dataset,
      data !! split = Some by_dataset ->
      Forall2 (fun (raw : string * gmap string (list Raw))
                   (tensorized : string * list Example) =>
                 tensorized.1 = raw.1 /\
                 exists docs,
                   raw.2 !! split = Some docs /\
                   tensorized.2 =
                     tensorize_data docs (Some (bool_decide (split = "train"))))
              raw_data by_dataset.
Proof.
  assert (H : NoDup (map fst raw_data)) by apply NoDup_singleton.
  split; [exact H|].
  destruct (is_ok_Ok (process_data false raw_data)) as [data E];
    [vm_compute; reflexivity|].
  exists data. split; [exact E|].
  exact (processed_data_mirrors_the_raw_data false raw_data data H E).
Defined.

(** X23 on raw data whose one dataset has no test split. *)
Lemma missing_test_split_is_fatal_witness :
  ("litbank",
   ({[ "train" := [doc1; doc0]; "dev" := [doc1] ]} : gmap string (list Raw)))
    ∈ no_test_split /\
  ({[ "train" := [doc1; doc0]; "dev" := [doc1] ]} : gmap string (list Raw))
    !! "test" = None /\
  exists split,
    process_data true no_test_split = Raise (KeyError split) /\
    (true = true -> split = "test").
Proof.
  assert (H1 : ("litbank",
                ({[ "train" := [doc1; doc0]; "dev" := [doc1] ]}
                   : gmap string (list Raw))) ∈ no_test_split) by left.
  assert (H2 : ({[ "train" := [doc1; doc0]; "dev" := [doc1] ]}
                  : gmap string (list Raw)) !! "test" = None) by reflexivity.
  split; [exact H1|]. split; [exact H2|].
  exact (missing_test_split_is_fatal true no_test_split "litbank" _ H1 H2).
Defined.


(** X25 on a construction that trains: two steps, a "best" checkpoint
    after the first, the patience exhausted after the second. *)
Lemma trained_construction_skips_the_evaluation_overrides_witness :
  eval_max_ents blank_cfg = Some 5 /\
  exists cfg1 s1 s' out,
    setup_training (Some 1) raw_data 7 (1 # 1000)%Q blank_cfg blank
      = Ok (cfg1, s1, true) /\
    experiment_init all_paths_exist false (Some 1) raw_data 7 (1 # 1000)%Q 1
                    blank_cfg blank = Ok (Some (s', out)) /\
    model_max_ents (model s') = 10 /\
    exists ck,
      disk s' !! best_model_path blank_cfg = Some ck /\
      train_info s' = ck_train_info ck /\
      rng_state s' = ck_rng_state ck /\
      np_rng_state s' = ck_np_rng_state ck.
Proof.
  split; [reflexivity|].
  destruct (is_ok_Ok (setup_training (Some 1) raw_data 7 (1 # 1000)%Q blank_cfg
                                     blank))
    as [[[cfg1 s1] required] E1]; [vm_compute; reflexivity|].
  assert (required = true) as ->.
  { assert (Hp : match setup_training (Some 1) raw_data 7 (1 # 1000)%Q blank_cfg
                         blank with
                 | Ok (_, _, b) => b
                 | Raise _ => false
                 end = true) by (vm_compute; reflexivity).
    rewrite E1 in Hp. exact Hp. }
  destruct (is_ok_Ok (experiment_init all_paths_exist false (Some 1) raw_data 7
                        (1 # 1000)%Q 1 blank_cfg blank)) as [r E2];
    [vm_compute; reflexivity|].
  assert (Hr : exists s' out, r = Some (s', out)).
  { assert (Hp : match experiment_init all_paths_exist false (Some 1) raw_data 7
                         (1 # 1000)%Q 1 blank_cfg blank with
                 | Ok (Some _) => true
                 | _ => false
                 end = true) by (vm_compute; reflexivity).
    rewrite E2 in Hp. destruct r as [[s' out]|]; [eauto|discriminate]. }
  destruct Hr as (s' & out & ->).
  exists cfg1, s1, s', out. split; [exact E1|]. split; [exact E2|].
  destruct (trained_construction_skips_the_evaluation_overrides all_paths_exist
              (Some 1) raw_data 7 (1 # 1000)%Q 1 blank_cfg blank cfg1 s1 s' out
              E1 E2) as ((Hents & _) & Hck).
  split; [exact Hents|exact Hck].
Defined.

(** X13 on an example without a ["tensorized_sent"] field. *)
Lemma log_needs_tensorized_sent_witness :
  delete "tensorized_sent" doc1 !! "tensorized_sent" = None /\
  log_record (delete "tensorized_sent" doc1) (PyList []) (PyList [])
             (PyList []) (PyList []) (PyList []) (IntThr 2)
    = Raise (KeyError "tensorized_sent").
Proof.
  assert (H : delete "tensorized_sent" doc1 !! "tensorized_sent" = None)
    by reflexivity.
  split; [exact H|].
  exact (proj1 (log_needs_tensorized_sent (delete "tensorized_sent" doc1)
                  (PyList []) (PyList []) (PyList []) (PyList []) (PyList [])
                  (IntThr 2)) H).
Defined.


End MoreRuns.
